(** * Odoo module extractor: a shallow embedding of [odoo_extractor/extractor.py]

    The development follows the class [OdooModuleExtractor]: the static
    tables, the path filter, the tree walker, the priority resolver, the
    three renderers and the report assembler, on a POSIX host.  Python
    [str] values are represented by their UTF-8 encoding (a [string] of
    bytes), which is what the output files, opened with [encoding="utf-8"],
    finally contain; file names are taken to be UTF-8 text as well. *)

From Stdlib Require Import List String Ascii ZArith NArith Lia Bool.
From Stdlib Require Import Permutation Sorted DecimalString.
Import ListNotations.
Open Scope string_scope.
Set Warnings "-register-all".

(** ** Text helpers *)

Module Text.

(** The source writes the two-character literal backslash, [n] at the end
    of its lines ([chr 92] followed by [n]). *)
Definition backslash : ascii := "092"%char.
Definition LF : ascii := "010"%char.
Definition CR : ascii := "013"%char.
Definition nl : string := String backslash "n".

(** [str(n)] for a non-negative integer. *)
Definition dec (n : N) : string := NilZero.string_of_uint (N.to_uint n).

(** [sep.join(parts)]. *)
Definition join (sep : string) (parts : list string) : string :=
  String.concat sep parts.

(** [c * n] for a one-character string. *)
Fixpoint repeat_char (c : ascii) (n : nat) : string :=
  match n with
  | O => ""
  | S n' => String c (repeat_char c n')
  end.

(** [s.startswith(p)] *)
Definition startswith (s p : string) : bool := String.prefix p s.

(** [s.endswith(p)]: the last [len(p)] characters of [s] are [p]. *)
Definition endswith (s p : string) : bool :=
  (String.length p <=? String.length s)%nat &&
  (String.substring (String.length s - String.length p) (String.length p) s =? p).

(** [c in s] for a single character [c]. *)
Fixpoint contains_char (c : ascii) (s : string) : bool :=
  match s with
  | "" => false
  | String d s' => Ascii.eqb c d || contains_char c s'
  end.

(** [s[1:]] *)
Definition tail (s : string) : string :=
  match s with
  | "" => ""
  | String _ s' => s'
  end.

(** [s.rfind(".")], [None] standing for [-1]. *)
Fixpoint rfind_dot (s : string) : option nat :=
  match s with
  | "" => None
  | String c s' =>
      match rfind_dot s' with
      | Some i => Some (S i)
      | None => if Ascii.eqb c "."%char then Some O else None
      end
  end.

(** [s.replace(bs + bs, "/")]: every non-overlapping occurrence of two
    backslashes, scanning from the left, becomes one forward slash. *)
Fixpoint replace_double_backslash (s : string) : string :=
  match s with
  | "" => ""
  | String c rest =>
      match rest with
      | String d rest' =>
          if Ascii.eqb c backslash && Ascii.eqb d backslash
          then String "/"%char (replace_double_backslash rest')
          else String c (replace_double_backslash rest)
      | "" => String c ""
      end
  end.

End Text.

(** ** Static configuration of [OdooModuleExtractor] *)

Definition INCLUDE_EXTENSIONS : list string :=
  [".py"; ".xml"; ".csv"; ".yml"; ".yaml"; ".js"; ".scss"; ".css"; ".html"; ".txt"].

Definition EXCLUDE_PATTERNS : list string :=
  ["__pycache__"; ".git"; ".idea"; ".vscode"; "*.pyc"; "*.pyo"; ".DS_Store";
   "node_modules"; "venv"; ".venv"].

(** A [dict] literal keeps its declaration order, which the resolver's two
    loops depend on: an association list. *)
Definition PRIORITY_FILES : list (string * Z) :=
  [("__manifest__.py", 1); ("__init__.py", 2); ("models/*.py", 3);
   ("views/*.xml", 4); ("security/*.csv", 5); ("data/*.xml", 6);
   ("wizard/*.py", 7); ("controllers/*.py", 8); ("static/src/*.js", 9);
   ("reports/*.xml", 10)]%Z.

(** ** [fnmatch] *)

Module Fnmatch.

(** [fnmatch.fnmatchcase(name, pat)] for patterns built from literal
    characters, [*] (any run of characters, the path separator included:
    the pattern compiles to [.*] under [re.DOTALL]) and [?] (one
    character).  Bracket expressions are not modelled; no key of
    [PRIORITY_FILES] has one.  On a POSIX host [fnmatch.fnmatch] is
    [fnmatchcase] ([os.path.normcase] is the identity). *)
Fixpoint fnmatchcase_pat (pat : string) : string -> bool :=
  match pat with
  | "" => fun name => match name with "" => true | _ => false end
  | String p pat' =>
      if Ascii.eqb p "*"%char then
        fix star (name : string) : bool :=
          fnmatchcase_pat pat' name ||
          match name with
          | "" => false
          | String _ name' => star name'
          end
      else if Ascii.eqb p "?"%char then
        fun name =>
          match name with
          | "" => false
          | String _ name' => fnmatchcase_pat pat' name'
          end
      else
        fun name =>
          match name with
          | "" => false
          | String c name' => Ascii.eqb p c && fnmatchcase_pat pat' name'
          end
  end.

Definition fnmatch (name pat : string) : bool := fnmatchcase_pat pat name.

(** The patterns this model covers. *)
Definition plain_pattern (pat : string) : bool :=
  negb (Text.contains_char "["%char pat).

End Fnmatch.

(** ** Priority resolver *)

(** First loop of [_get_file_priority]: the first key equal to [rel_str]. *)
Fixpoint exact_pass (table : list (string * Z)) (rel_str : string) : option Z :=
  match table with
  | [] => None
  | (pattern, priority) :: rest =>
      if pattern =? rel_str then Some priority else exact_pass rest rel_str
  end.

(** Second loop: the first key holding a [*] that matches as a glob. *)
Fixpoint glob_pass (table : list (string * Z)) (rel_str : string) : option Z :=
  match table with
  | [] => None
  | (pattern, priority) :: rest =>
      if Text.contains_char "*"%char pattern then
        if Fnmatch.fnmatch rel_str pattern then Some priority
        else glob_pass rest rel_str
      else glob_pass rest rel_str
  end.

Definition DEFAULT_PRIORITY : Z := 999.

(** [_get_file_priority], over a table; [rel_path] is [str(rel_path)]. *)
Definition get_file_priority_in (table : list (string * Z)) (rel_path : string) : Z :=
  let rel_str := Text.replace_double_backslash rel_path in
  match exact_pass table rel_str with
  | Some priority => priority
  | None =>
      match glob_pass table rel_str with
      | Some priority => priority
      | None => DEFAULT_PRIORITY
      end
  end.

Definition _get_file_priority (rel_path : string) : Z :=
  get_file_priority_in PRIORITY_FILES rel_path.

(** The wildcard keys of [PRIORITY_FILES], read as directory, extension and
    priority: the key is [directory/*extension]. *)
Definition GLOB_RULES : list (string * string * Z) :=
  [("models", ".py", 3); ("views", ".xml", 4); ("security", ".csv", 5);
   ("data", ".xml", 6); ("wizard", ".py", 7); ("controllers", ".py", 8);
   ("static/src", ".js", 9); ("reports", ".xml", 10)]%Z.

Definition glob_key (rule : string * string * Z) : string * Z :=
  let '(directory, extension, priority) := rule in
  (directory ++ "/*" ++ extension, priority).

(** ** [hashlib.md5]: MD5 after RFC 1321, on 32-bit words held in [Z] *)

Module MD5.
Local Open Scope Z_scope.

Definition add32 (x y : Z) : Z := (x + y) mod 2 ^ 32.
Definition not32 (x : Z) : Z := Z.lxor x 0xffffffff.
Definition rotl32 (x c : Z) : Z :=
  Z.lor (Z.shiftl x c mod 2 ^ 32) (Z.shiftr x (32 - c)).

Definition S_table : list Z :=
  [7; 12; 17; 22; 7; 12; 17; 22; 7; 12; 17; 22; 7; 12; 17; 22;
   5; 9; 14; 20; 5; 9; 14; 20; 5; 9; 14; 20; 5; 9; 14; 20;
   4; 11; 16; 23; 4; 11; 16; 23; 4; 11; 16; 23; 4; 11; 16; 23;
   6; 10; 15; 21; 6; 10; 15; 21; 6; 10; 15; 21; 6; 10; 15; 21].

Definition K_table : list Z :=
  [0xd76aa478; 0xe8c7b756; 0x242070db; 0xc1bdceee;
   0xf57c0faf; 0x4787c62a; 0xa8304613; 0xfd469501;
   0x698098d8; 0x8b44f7af; 0xffff5bb1; 0x895cd7be;
   0x6b901122; 0xfd987193; 0xa679438e; 0x49b40821;
   0xf61e2562; 0xc040b340; 0x265e5a51; 0xe9b6c7aa;
   0xd62f105d; 0x02441453; 0xd8a1e681; 0xe7d3fbc8;
   0x21e1cde6; 0xc33707d6; 0xf4d50d87; 0x455a14ed;
   0xa9e3e905; 0xfcefa3f8; 0x676f02d9; 0x8d2a4c8a;
   0xfffa3942; 0x8771f681; 0x6d9d6122; 0xfde5380c;
   0xa4beea44; 0x4bdecfa9; 0xf6bb4b60; 0xbebfbc70;
   0x289b7ec6; 0xeaa127fa; 0xd4ef3085; 0x04881d05;
   0xd9d4d039; 0xe6db99e5; 0x1fa27cf8; 0xc4ac5665;
   0xf4292244; 0x432aff97; 0xab9423a7; 0xfc93a039;
   0x655b59c3; 0x8f0ccc92; 0xffeff47d; 0x85845dd1;
   0x6fa87e4f; 0xfe2ce6e0; 0xa3014314; 0x4e0811a1;
   0xf7537e82; 0xbd3af235; 0x2ad7d2bb; 0xeb86d391].

Definition state : Type := (Z * Z * Z * Z)%type.

Definition init : state := (0x67452301, 0xefcdab89, 0x98badcfe, 0x10325476).

Definition bytes_of (s : string) : list Z :=
  map (fun a => Z.of_N (N_of_ascii a)) (list_ascii_of_string s).

(** [n] little-endian bytes of [x]. *)
Fixpoint le_bytes (n : nat) (x : Z) : list Z :=
  match n with
  | O => []
  | S n' => (x mod 256) :: le_bytes n' (x / 256)
  end.

(** Padding: one [0x80] byte, zeros up to 56 modulo 64, then the bit length
    on 64 bits. *)
Definition pad (msg : list Z) : list Z :=
  let len := Z.of_nat (List.length msg) in
  msg ++ [0x80] ++ repeat 0 (Z.to_nat ((55 - len) mod 64))
      ++ le_bytes 8 ((8 * len) mod 2 ^ 64).

Fixpoint words (l : list Z) : list Z :=
  match l with
  | a :: b :: c :: d :: r => (a + 256 * b + 65536 * c + 16777216 * d) :: words r
  | _ => []
  end.

Definition step (M : list Z) (st : state) (i : Z) : state :=
  let '(A, B, C, D) := st in
  let '(F, g) :=
    if i <? 16 then (Z.lor (Z.land B C) (Z.land (not32 B) D), i)
    else if i <? 32 then (Z.lor (Z.land D B) (Z.land (not32 D) C), (5 * i + 1) mod 16)
    else if i <? 48 then (Z.lxor B (Z.lxor C D), (3 * i + 5) mod 16)
    else (Z.lxor C (Z.lor B (not32 D)), (7 * i) mod 16) in
  let F' := add32 (add32 (add32 F A) (nth (Z.to_nat i) K_table 0))
                  (nth (Z.to_nat g) M 0) in
  (D, add32 B (rotl32 F' (nth (Z.to_nat i) S_table 0)), B, C).

Definition compress (st : state) (M : list Z) : state :=
  let '(a0, b0, c0, d0) := st in
  let '(A, B, C, D) := fold_left (step M) (map Z.of_nat (seq 0 64)) st in
  (add32 a0 A, add32 b0 B, add32 c0 C, add32 d0 D).

Fixpoint process (n : nat) (ws : list Z) (st : state) : state :=
  match n with
  | O => st
  | S n' => process n' (skipn 16 ws) (compress st (firstn 16 ws))
  end.

Definition digest (msg : string) : list Z :=
  let ws := words (pad (bytes_of msg)) in
  let '(a, b, c, d) := process (List.length ws / 16) ws init in
  le_bytes 4 a ++ le_bytes 4 b ++ le_bytes 4 c ++ le_bytes 4 d.

Definition hex_alphabet : list ascii := list_ascii_of_string "0123456789abcdef".

Definition hexdigit (n : Z) : ascii := nth (Z.to_nat n) hex_alphabet "0"%char.

Definition hex_byte (b : Z) : list ascii := [hexdigit (b / 16); hexdigit (b mod 16)].

(** [hashlib.md5(data).hexdigest()] *)
Definition hexdigest (msg : string) : string :=
  string_of_list_ascii (flat_map hex_byte (digest msg)).

Definition is_hex (c : ascii) : bool := existsb (Ascii.eqb c) hex_alphabet.

End MD5.

(** ** The [utf-8] codec in strict mode and universal newlines *)

Module Utf8.
Local Open Scope N_scope.

Definition between (lo hi : N) (b : ascii) : bool :=
  (lo <=? N_of_ascii b) && (N_of_ascii b <=? hi).

Definition cont (b : ascii) : bool := between 0x80 0xBF b.

(** Well-formed UTF-8 (Unicode table 3-7): no overlong form, no surrogate,
    nothing above U+10FFFF. *)
Fixpoint valid (s : string) : bool :=
  match s with
  | "" => true
  | String b0 r0 =>
      if between 0x00 0x7F b0 then valid r0
      else
        match r0 with
        | "" => false
        | String b1 r1 =>
            if between 0xC2 0xDF b0 then cont b1 && valid r1
            else
              match r1 with
              | "" => false
              | String b2 r2 =>
                  if between 0xE0 0xE0 b0 then between 0xA0 0xBF b1 && cont b2 && valid r2
                  else if between 0xE1 0xEC b0 then cont b1 && cont b2 && valid r2
                  else if between 0xED 0xED b0 then between 0x80 0x9F b1 && cont b2 && valid r2
                  else if between 0xEE 0xEF b0 then cont b1 && cont b2 && valid r2
                  else
                    match r2 with
                    | "" => false
                    | String b3 r3 =>
                        if between 0xF0 0xF0 b0
                        then between 0x90 0xBF b1 && cont b2 && cont b3 && valid r3
                        else if between 0xF1 0xF3 b0
                        then cont b1 && cont b2 && cont b3 && valid r3
                        else if between 0xF4 0xF4 b0
                        then between 0x80 0x8F b1 && cont b2 && cont b3 && valid r3
                        else false
                    end
              end
        end
  end.

(** Text mode with [newline=None]: CR LF and a lone CR are read as LF. *)
Fixpoint universal_newlines (s : string) : string :=
  match s with
  | "" => ""
  | String c rest =>
      if Ascii.eqb c Text.CR then
        match rest with
        | String d rest' =>
            if Ascii.eqb d Text.LF then String Text.LF (universal_newlines rest')
            else String Text.LF (universal_newlines rest)
        | "" => String Text.LF ""
        end
      else String c (universal_newlines rest)
  end.

(** [f.read()] on a file opened with ["r", encoding="utf-8"]: [None] is
    [UnicodeDecodeError]. *)
Definition decode (raw : string) : option string :=
  if valid raw then Some (universal_newlines raw) else None.

End Utf8.

(** ** The file system the extractor reads *)

(** A directory entry under the module root.  [data] is what
    [open(path, "rb").read()] gives: the bytes, or the text of the [OSError]
    it raises.  [listing] is [path.iterdir()], in the order the host returns
    it; [None] when listing raises [PermissionError]. *)
Inductive entry : Type :=
| File (name : string) (size : N) (data : string + string)
| Dir (name : string) (listing : option (list entry)).

Definition entry_name (e : entry) : string :=
  match e with
  | File name _ _ => name
  | Dir name _ => name
  end.

Definition is_file (e : entry) : bool :=
  match e with
  | File _ _ _ => true
  | Dir _ _ => false
  end.

(** Nesting depth of directories below an entry: the recursion depth
    [_walk_directory] needs for its listing. *)
Fixpoint entry_depth (e : entry) : nat :=
  match e with
  | File _ _ _ => O
  | Dir _ None => 1
  | Dir _ (Some children) => S (list_max (map entry_depth children))
  end.

(** [PurePath.suffix] of a final path component. *)
Definition suffix (name : string) : string :=
  match Text.rfind_dot name with
  | Some i =>
      if (0 <? i)%nat && (i <? String.length name - 1)%nat
      then String.substring i (String.length name - i) name
      else ""
  | None => ""
  end.

(** ** Stable sorting ([sorted], [list.sort]) *)

(** Python's sort is stable and compares with [<] only.  Insertion from the
    right, each element going before the first one that is not smaller than
    it, computes the one stable ordering. *)
Fixpoint insert_sorted {A : Type} (lt : A -> A -> bool) (x : A) (l : list A) : list A :=
  match l with
  | [] => [x]
  | y :: l' => if lt y x then y :: insert_sorted lt x l' else x :: y :: l'
  end.

Definition stable_sort {A : Type} (lt : A -> A -> bool) (l : list A) : list A :=
  fold_right (insert_sorted lt) [] l.

(** [Path.__lt__] between the children of one directory compares their
    names, character by character. *)
Definition path_lt (a b : entry) : bool := String.ltb (entry_name a) (entry_name b).

Definition sorted_entries (l : list entry) : list entry := stable_sort path_lt l.

(** ** Path filter *)

(** The loop of [_should_exclude] over the exclusion set, taken in some
    iteration order; it returns [True] at the first hit. *)
Definition excluded_by (patterns : list string) (name : string) : bool :=
  existsb (fun pattern =>
             if Text.startswith pattern "*"
             then Text.endswith name (Text.tail pattern)
             else name =? pattern)
          patterns.

Definition name_excluded (name : string) : bool := excluded_by EXCLUDE_PATTERNS name.

Definition _should_exclude (e : entry) : bool :=
  if name_excluded (entry_name e) then true
  else if is_file e then
    if negb (existsb (String.eqb (suffix (entry_name e))) INCLUDE_EXTENSIONS)
    then true else false
  else false.

(** ** Tree walker *)

(** The file items of the walker: [name], [path] (its parts relative to the
    module root), [size], and the file the path designates. *)
Record file_item : Type := mk_file_item {
  fi_name : string;
  fi_path : list string;
  fi_size : N;
  fi_data : string + string
}.

Inductive item : Type :=
| DirItem (name : string) (path : list string)
| FileItem (f : file_item).

Definition item_path (it : item) : list string :=
  match it with
  | DirItem _ path => path
  | FileItem f => fi_path f
  end.

(** The [for] loop of [_walk_directory], [walk] being the recursive call. *)
Fixpoint walk_loop (walk : list string -> option (list entry) -> option (list item))
         (path : list string) (todo : list entry) : option (list item) :=
  match todo with
  | [] => Some []
  | it :: todo' =>
      if _should_exclude it then walk_loop walk path todo'
      else
        match it with
        | Dir name sub =>
            match walk (path ++ [name])%list sub with
            | None => None
            | Some below =>
                option_map (fun rest => DirItem name (path ++ [name])%list :: (below ++ rest)%list)
                           (walk_loop walk path todo')
            end
        | File name size data =>
            option_map (cons (FileItem (mk_file_item name (path ++ [name])%list size data)))
                       (walk_loop walk path todo')
        end
  end.

(** [_walk_directory]; [fuel] bounds the recursion depth and [None] means it
    was too small. *)
Fixpoint _walk_directory (fuel : nat) (path : list string) (listing : option (list entry))
  : option (list item) :=
  match fuel with
  | O => None
  | S fuel' =>
      match listing with
      | None => Some []
      | Some children => walk_loop (_walk_directory fuel') path (sorted_entries children)
      end
  end.

(** The walk of a module root, with the fuel its depth asks for. *)
Definition walk_module (listing : option (list entry)) : list item :=
  match _walk_directory (entry_depth (Dir "" listing)) [] listing with
  | Some items => items
  | None => []
  end.

Definition files_of (items : list item) : list file_item :=
  flat_map (fun it => match it with FileItem f => [f] | DirItem _ _ => [] end) items.

(** [str(rel_path)] *)
Definition rel_str (path : list string) : string := Text.join "/" path.

(** ** Parsed documents *)

(** Python syntax trees, as far as [ast.walk] and the two [isinstance] tests
    see them: the node class (with its [name]) and the child nodes in the
    order of [ast.iter_child_nodes]. *)
Inductive ast_kind : Type :=
| ClassDef (name : string)
| FunctionDef (name : string)
| AsyncFunctionDef (name : string)
| OtherNode.

Inductive ast : Type :=
| Node (kind : ast_kind) (children : list ast).

Definition ast_children (t : ast) : list ast :=
  match t with Node _ children => children end.

Fixpoint ast_size (t : ast) : nat :=
  match t with
  | Node _ children => S (list_sum (map ast_size children))
  end.

(** [ast.walk]: a queue, the children of a node joining its end. *)
Fixpoint walk_queue (fuel : nat) (todo : list ast) : list ast :=
  match fuel with
  | O => []
  | S fuel' =>
      match todo with
      | [] => []
      | node :: rest => node :: walk_queue fuel' (rest ++ ast_children node)%list
      end
  end.

Definition ast_walk (tree : ast) : list ast := walk_queue (ast_size tree) [tree].

Definition class_names (nodes : list ast) : list string :=
  flat_map (fun n => match n with Node (ClassDef name) _ => [name] | _ => [] end) nodes.

Definition function_names (nodes : list ast) : list string :=
  flat_map (fun n => match n with Node (FunctionDef name) _ => [name] | _ => [] end) nodes.

(** ElementTree elements: tag, attributes, child elements. *)
Inductive element : Type :=
| Element (tag : string) (attrib : list (string * string)) (children : list element).

Definition tag (e : element) : string :=
  match e with Element t _ _ => t end.

(** [Element.iter()]: the element, then its descendants in document order. *)
Fixpoint iter (e : element) : list element :=
  match e with
  | Element _ _ children => e :: flat_map iter children
  end.

(** [root.findall(".//" + name)]: descendants of [root] (not [root]) with
    that tag, in document order. *)
Definition findall_descendants (name : string) (root : element) : list element :=
  match root with
  | Element _ _ children => filter (fun e => tag e =? name) (flat_map iter children)
  end.

(** [r.get(key, default)] *)
Definition get_attrib (key default : string) (e : element) : string :=
  match e with
  | Element _ attrib _ =>
      match find (fun kv => fst kv =? key) attrib with
      | Some kv => snd kv
      | None => default
      end
  end.

(** Values [ast.literal_eval] can return. *)
Inductive pyvalue : Type :=
| PyNone
| PyEllipsis
| PyBool (b : bool)
| PyInt (z : Z)
| PyFloat (repr : string)
| PyComplex (repr : string)
| PyStr (s : string)
| PyBytes (s : string)
| PyList (l : list pyvalue)
| PyTuple (l : list pyvalue)
| PySet (l : list pyvalue)
| PyDict (d : list (pyvalue * pyvalue)).

(** [d.get(key, default)] on a [dict] for a [str] key. *)
Definition dict_get (d : list (pyvalue * pyvalue)) (key : string) (default : pyvalue) : pyvalue :=
  match find (fun kv => match fst kv with PyStr k => k =? key | _ => false end) d with
  | Some kv => snd kv
  | None => default
  end.

(** An [int] that [int.__repr__] converts: at most 4300 decimal digits,
    the default limit of the int-to-str conversion; beyond it the encoder's
    call raises [ValueError]. *)
Definition int_to_str_ok (z : Z) : bool := (Z.abs z <? 10 ^ 4300)%Z.

(** A [str] that can be written to a file opened with [encoding="utf-8"].
    Strings are their UTF-8 bytes here; a [str] with a lone surrogate, which
    an escape in a literal can produce, has no UTF-8 form and is held as
    bytes that are not well-formed: writing it raises [UnicodeEncodeError]. *)
Definition str_writable (s : string) : bool := Utf8.valid s.

(** What [json.dump] accepts as a key of an object and can write. *)
Definition json_key (k : pyvalue) : bool :=
  match k with
  | PyStr s => str_writable s
  | PyInt z => int_to_str_ok z
  | PyFloat _ | PyBool _ | PyNone => true
  | _ => false
  end.

(** What [json.dump(..., ensure_ascii=False)] writes to the UTF-8 file
    without raising: [TypeError] for a value of no JSON type or a key
    that is none of [str], [int], [float], [bool], [None]; [ValueError]
    for an [int] too long to convert; [UnicodeEncodeError] for a lone
    surrogate. *)
Fixpoint json_serializable (v : pyvalue) : bool :=
  match v with
  | PyNone | PyBool _ | PyFloat _ => true
  | PyInt z => int_to_str_ok z
  | PyStr s => str_writable s
  | PyEllipsis | PyComplex _ | PyBytes _ | PySet _ => false
  | PyList l | PyTuple l => forallb json_serializable l
  | PyDict d => forallb (fun kv => json_key (fst kv) && json_serializable (snd kv)) d
  end.

(** ** Records written by the assembler *)

(** An entry of [file_index]: the keys [path], [size], [type], [checksum]. *)
Record FileRecord : Type := mk_record {
  rec_path : string;
  rec_size : N;
  rec_type : string;
  rec_checksum : string
}.

(** The fields of the extractor object. *)
Record extractor : Type := mk_extractor {
  module_name : string;
  module_info : pyvalue;
  file_index : list FileRecord;
  total_size : N
}.

Record statistics : Type := mk_statistics {
  total_files : nat;
  total_size_bytes : N;
  total_size_mb : string;
  file_types : list (string * N)
}.

Record summary : Type := mk_summary {
  sum_module_name : string;
  extraction_date : string;
  sum_module_info : pyvalue;
  sum_statistics : statistics;
  dependencies : pyvalue;
  version : pyvalue;
  author : pyvalue;
  category : pyvalue
}.

Record index : Type := mk_index {
  idx_module : string;
  idx_files : list FileRecord;
  idx_total_files : nat;
  idx_total_size : N
}.

(** The three readings of [datetime.now()] of one run. *)
Record clock : Type := mk_clock {
  structure_time : string;
  content_time : string;
  summary_time : string
}.

(** The four artifacts; the two text files as the sequence of strings
    passed to [write]. *)
Record outputs : Type := mk_outputs {
  structure_txt : list string;
  content_txt : list string;
  summary_json : summary;
  index_json : index
}.

(** The bytes of a text artifact. *)
Definition file_bytes (chunks : list string) : string := String.concat "" chunks.

Definition separator : string :=
  Text.nl ++ Text.repeat_char "="%char 80 ++ Text.nl.

Definition BINARY_MARKER : string := "CONTENT: [Binary file - skipped]" ++ Text.nl.

(** [__init__] *)
Definition new_extractor (name : string) : extractor :=
  mk_extractor name (PyDict []) [] 0.

(** [_calculate_checksum] *)
Definition _calculate_checksum (data : string + string) : string :=
  match data with
  | inl raw => String.substring 0 8 (MD5.hexdigest raw)
  | inr _ => "error"
  end.

(** [_count_file_types]: a [dict] from extension to count, in insertion
    order. *)
Fixpoint bump (ext : string) (type_count : list (string * N)) : list (string * N) :=
  match type_count with
  | [] => [(ext, 1%N)]
  | (e, n) :: rest =>
      if e =? ext then (e, (n + 1)%N) :: rest else (e, n) :: bump ext rest
  end.

Definition _count_file_types (self : extractor) : list (string * N) :=
  fold_left (fun type_count file => bump (rec_type file) type_count) (file_index self) [].

(** [_create_index] *)
Definition _create_index (self : extractor) : index :=
  mk_index (module_name self) (file_index self)
           (List.length (file_index self)) (total_size self).

(** ** A sample module and a sample host *)

Module Sample.

Definition eol : string := String Text.LF "".

(** Two bytes that no UTF-8 text holds. *)
Definition invalid_utf8 : string := String "255"%char (String "254"%char "").

(** A class with a method, a coroutine, and a function that holds a nested
    function. *)
Definition sale_source : string :=
  "class Sale:" ++ eol
  ++ "    def confirm(self): pass" ++ eol
  ++ "async def notify(): pass" ++ eol
  ++ "def outer():" ++ eol
  ++ "    def inner(): pass" ++ eol.

(** Its syntax tree: besides the definitions, the [arguments], [arg] and
    [Pass] nodes that [ast.iter_child_nodes] yields. *)
Definition sale_tree : ast :=
  Node OtherNode
       [Node (ClassDef "Sale")
             [Node (FunctionDef "confirm")
                   [Node OtherNode [Node OtherNode []]; Node OtherNode []]];
        Node (AsyncFunctionDef "notify") [Node OtherNode []; Node OtherNode []];
        Node (FunctionDef "outer")
             [Node OtherNode [];
              Node (FunctionDef "inner") [Node OtherNode []; Node OtherNode []]]].

(** One class and twelve functions. *)
Definition twelve_source : string :=
  "class Foo: pass" ++ eol
  ++ "def f1(): pass" ++ eol
  ++ "def f2(): pass" ++ eol
  ++ "def f3(): pass" ++ eol
  ++ "def f4(): pass" ++ eol
  ++ "def f5(): pass" ++ eol
  ++ "def f6(): pass" ++ eol
  ++ "def f7(): pass" ++ eol
  ++ "def f8(): pass" ++ eol
  ++ "def f9(): pass" ++ eol
  ++ "def f10(): pass" ++ eol
  ++ "def f11(): pass" ++ eol
  ++ "def f12(): pass" ++ eol.

Definition twelve_tree : ast :=
  Node OtherNode
       (Node (ClassDef "Foo") [Node OtherNode []]
          :: map (fun name => Node (FunctionDef name) [Node OtherNode []; Node OtherNode []])
                 ["f1"; "f2"; "f3"; "f4"; "f5"; "f6"; "f7"; "f8"; "f9"; "f10"; "f11"; "f12"]).

(** A document with three records. *)
Definition three_records_xml : string :=
  "<odoo><data><record id='a'/><record id='b'/><record id='c'/></data></odoo>".

Definition three_records : element :=
  Element "odoo" []
          [Element "data" []
                   [Element "record" [("id", "a")] [];
                    Element "record" [("id", "b")] [];
                    Element "record" [("id", "c")] []]].

(** A document with one template and no record. *)
Definition templates_only_xml : string := "<odoo><template id='t'/></odoo>".

Definition templates_only : element :=
  Element "odoo" [] [Element "template" [("id", "t")] []].

(** A manifest, a manifest that calls a function, and one that is a list. *)
Definition manifest_source : string :=
  "{'name': 'Sale', 'version': '1.0', 'depends': ['base']}".

Definition manifest_value : pyvalue :=
  PyDict [(PyStr "name", PyStr "Sale");
          (PyStr "version", PyStr "1.0");
          (PyStr "depends", PyList [PyStr "base"])].

Definition unsafe_manifest_source : string := "__import__('os').system('true')".

Definition list_manifest_source : string := "[]".

(** The host's parsers at these texts; each raises on any other text. *)
Definition lookup {A : Type} (table : list (string * A)) (content : string) : option A :=
  option_map snd (find (fun kv => fst kv =? content) table).

(** A node that is neither a class nor a function definition. *)
Definition other (children : list ast) : ast := Node OtherNode children.

Definition ast_parse : string -> option ast :=
  lookup [(sale_source, sale_tree);
          (twelve_source, twelve_tree);
          ("", other []);
          ("pass", other [other []]);
          ("x=1", other [other [other [other []]; other []]]);
          (manifest_source,
           other [other [other [other []; other []; other []; other []; other [];
                                other [other []; other []]]]]);
          (unsafe_manifest_source,
           other [other [other [other [other [other [other []]; other []]; other []];
                                other []]]]);
          (list_manifest_source, other [other [other [other []]]])].

Definition xml_fromstring : string -> option element :=
  lookup [(three_records_xml, three_records); (templates_only_xml, templates_only)].

Definition literal_eval : string -> option pyvalue :=
  lookup [(manifest_source, manifest_value); (list_manifest_source, PyList [])].

Definition decode_error (raw : string) : string :=
  "'utf-8' codec can't decode byte 0xff in position 0: invalid start byte".

Definition models : entry :=
  Dir "models" (Some [File "sale.py" 100 (inl sale_source);
                      File "__init__.py" 0 (inl "");
                      Dir "mixins" (Some [File "tracked.py" 3 (inl "x=1")])]).

(** The same directory, listed in another order. *)
Definition models_relisted : entry :=
  Dir "models" (Some [File "__init__.py" 0 (inl "");
                      File "sale.py" 100 (inl sale_source);
                      Dir "mixins" (Some [File "tracked.py" 3 (inl "x=1")])]).

Definition git : entry :=
  Dir ".git" (Some [File "hooks.py" 4 (inl "pass")]).

Definition children : list entry :=
  [File "notes.txt" 5 (inl "hello");
   models;
   git;
   File "__init__.py" 0 (inl "");
   File "logo.css" 2 (inl invalid_utf8);
   Dir "views" (Some [File "sale.xml" 74 (inl three_records_xml)]);
   Dir "private" None].

Definition listing : option (list entry) := Some children.

(** [children] with the first two entries exchanged and [models]
    relisted. *)
Definition relisted_children : list entry :=
  [models_relisted;
   File "notes.txt" 5 (inl "hello");
   git;
   File "__init__.py" 0 (inl "");
   File "logo.css" 2 (inl invalid_utf8);
   Dir "views" (Some [File "sale.xml" 74 (inl three_records_xml)]);
   Dir "private" None].

Definition relisted : option (list entry) := Some relisted_children.

(** [children] and a manifest file, in three versions. *)
Definition with_manifest : option (list entry) :=
  Some (File "__manifest__.py" 55 (inl manifest_source) :: children).

Definition with_unsafe_manifest : option (list entry) :=
  Some (File "__manifest__.py" 31 (inl unsafe_manifest_source) :: children).

Definition with_list_manifest : option (list entry) :=
  Some (File "__manifest__.py" 2 (inl list_manifest_source) :: children).

Definition broken_py : file_item :=
  mk_file_item "broken.py" ["models"; "broken.py"] 2 (inl invalid_utf8).

Definition logo_css : file_item :=
  mk_file_item "logo.css" ["logo.css"] 2 (inl invalid_utf8).

(** [num / den] rounded to the nearest integer, ties to even. *)
Definition round_half_even (num den : N) : N :=
  let q := (num / den)%N in
  let r := (num mod den)%N in
  if (2 * r <? den)%N then q
  else if (den <? 2 * r)%N then (q + 1)%N
  else if N.even q then q else (q + 1)%N.

(** [f"{size / 1024:.1f}"], exact while [size] is below [2^53]. *)
Definition format_kb (size : N) : string :=
  let tenths := round_half_even (size * 10) 1024 in
  Text.dec (tenths / 10) ++ "." ++ Text.dec (tenths mod 10).

(** [round(total / 1024 / 1024, 2)] as [json.dump] prints it, in the
    same range. *)
Definition round_mb (total : N) : string :=
  let hundredths := round_half_even (total * 100) 1048576 in
  let whole := (hundredths / 100)%N in
  let part := (hundredths mod 100)%N in
  if (part mod 10 =? 0)%N then Text.dec whole ++ "." ++ Text.dec (part / 10)
  else Text.dec whole ++ "." ++ (if (part <? 10)%N then "0" else "") ++ Text.dec part.

Definition now : clock := mk_clock "2024-01-01 10:00:00" "2024-01-01 10:00:01"
                                   "2024-01-01T10:00:02".

Definition later : clock := mk_clock "2024-06-30 23:59:58" "2024-06-30 23:59:59"
                                     "2024-07-01T00:00:00".

End Sample.

(** ** File sizes in the structure listing *)

(** [size / 1024] and its rendering by [:.1f] (lines 123-124), on exact
    numbers.  A float is held by the integer [m] with value [m / 1024].
    Sizes are [st_size] values, below [2^63]; the division overflows only
    from [2^1034] on. *)
Module Float.
Local Open Scope N_scope.

(** [num / den] rounded to the nearest integer, ties to even. *)
Definition round_half_even (num den : N) : N :=
  let q := num / den in
  let r := num mod den in
  if 2 * r <? den then q
  else if den <? 2 * r then q + 1
  else if N.even q then q else q + 1.

(** The float nearest to a non-negative [int]: the [int] itself up to 53
    bits, else its leading 53 bits rounded, ties to even.  True division
    by 1024, a power of two, rounds the exact quotient the same way, so
    [size / 1024] is the float [nearest size / 1024]. *)
Definition nearest (n : N) : N :=
  if N.size n <=? 53 then n
  else
    let shift := N.size n - 53 in
    round_half_even n (2 ^ shift) * 2 ^ shift.

(** The tenths [:.1f] prints for [size / 1024]: the exact value of the
    float rounded to one decimal, ties to even. *)
Definition tenths_of_kb (size : N) : N := round_half_even (nearest size * 10) 1024.

(** [f"{size / 1024:.1f}"] *)
Definition format_kb (size : N) : string :=
  Text.dec (tenths_of_kb size / 10) ++ "." ++ Text.dec (tenths_of_kb size mod 10).

End Float.

Section Extractor.

(** Library calls whose results the extractor only consumes: the three
    parsers ([None] when they raise), the message of a
    [UnicodeDecodeError] for given bytes, and the two floating-point
    renderings, [f"{size / 1024:.1f}"] and [round(total / 1024 / 1024, 2)].
    What holds for every rendering is stated with the variable;
    [Float.format_kb] is the first rendering itself, and the statement
    about the sizes in the structure listing is made with it. *)
Variable ast_parse : string -> option ast.
Variable xml_fromstring : string -> option element.
Variable literal_eval : string -> option pyvalue.
Variable decode_error : string -> string.
Variable format_kb : N -> string.
Variable round_mb : N -> string.

(** [open(path, "r", encoding="utf-8").read()]: the text, or the message
    of the exception. *)
Definition read_text (data : string + string) : string + string :=
  match data with
  | inr oserror => inr oserror
  | inl raw =>
      match Utf8.decode raw with
      | Some content => inl content
      | None => inr (decode_error raw)
      end
  end.

(** [_extract_manifest].  The source does not list the root: it asks
    [manifest_path.exists()] and opens the path.  On a root that can be
    listed these agree with the listing, which is where the manifest is
    looked up here.  A root whose listing is refused tells nothing about
    its manifest: the object is left as it is there, and the statements
    about the module information take a root that can be listed. *)
Definition _extract_manifest (self : extractor) (listing : option (list entry)) : extractor :=
  let set_info info :=
    mk_extractor (module_name self) info (file_index self) (total_size self) in
  match listing with
  | None => self
  | Some children =>
      match find (fun e => entry_name e =? "__manifest__.py") children with
      | None => self
      | Some (Dir _ _) => set_info (PyDict [])
      | Some (File _ _ data) =>
          match read_text data with
          | inr _ => set_info (PyDict [])
          | inl content =>
              match literal_eval content with
              | Some info => set_info info
              | None => set_info (PyDict [])
              end
          end
      end
  end.

(** One line of the structure listing. *)
Definition tree_line (it : item) : string :=
  let level := (List.length (item_path it) - 1)%nat in
  let indent := String.concat "" (repeat "  " level) in
  match it with
  | DirItem name _ => indent ++ name ++ "/" ++ Text.nl
  | FileItem f => indent ++ fi_name f ++ " (" ++ format_kb (fi_size f) ++ "KB)" ++ Text.nl
  end.

(** [_generate_tree_structure] *)
Definition _generate_tree_structure (self : extractor) (listing : option (list entry))
           (now : string) : list string :=
  ("# " ++ module_name self ++ " 目录结构" ++ Text.nl)
    :: ("# 生成时间: " ++ now ++ Text.nl ++ Text.nl)
    :: map tree_line (walk_module listing).

(** The block written inside the inner [try] of [_write_python_file]. *)
Definition python_parsed_info (content : string) : list string :=
  match ast_parse content with
  | None => []
  | Some tree =>
      let classes := class_names (ast_walk tree) in
      let functions := function_names (ast_walk tree) in
      let class_line :=
        match classes with
        | [] => []
        | _ => ["  Classes: " ++ Text.join ", " classes ++ Text.nl]
        end in
      let function_line :=
        match functions with
        | [] => []
        | _ => ["  Functions: " ++ Text.join ", " (firstn 10 functions)
                  ++ (if (10 <? List.length functions)%nat then "..." else "")
                  ++ Text.nl]
        end in
      match classes, functions with
      | [], [] => []
      | _, _ => ("PARSED_INFO:" ++ Text.nl) :: app class_line function_line
      end
  end.

(** [_write_python_file] *)
Definition _write_python_file (data : string + string) : list string :=
  match read_text data with
  | inl content => app (python_parsed_info content) ["CONTENT:" ++ Text.nl; content]
  | inr e => ["ERROR: 无法读取文件 - " ++ e ++ Text.nl]
  end.

(** What is written once the root tag is [odoo] or [openerp]. *)
Definition xml_root_info (root : element) : list string :=
  let records := findall_descendants "record" root in
  let templates := findall_descendants "template" root in
  let record_lines :=
    match records with
    | [] => []
    | _ =>
        let record_ids := map (get_attrib "id" "no-id") (firstn 5 records) in
        ["  Records: " ++ Text.dec (N.of_nat (List.length records)) ++ Text.nl;
         "  Record IDs: " ++ Text.join ", " record_ids
           ++ (if (5 <? List.length records)%nat then "..." else "")
           ++ Text.nl]
    end in
  let template_line :=
    match templates with
    | [] => []
    | _ => ["  Templates: " ++ Text.dec (N.of_nat (List.length templates)) ++ Text.nl]
    end in
  ("PARSED_INFO:" ++ Text.nl) :: app record_lines template_line.

(** The block written inside the inner [try] of [_write_xml_file]. *)
Definition xml_parsed_info (content : string) : list string :=
  match xml_fromstring content with
  | None => []
  | Some root =>
      if (tag root =? "odoo") || (tag root =? "openerp") then xml_root_info root else []
  end.

(** [_write_xml_file] *)
Definition _write_xml_file (data : string + string) : list string :=
  match read_text data with
  | inl content => app (xml_parsed_info content) ["CONTENT:" ++ Text.nl; content]
  | inr e => ["ERROR: 无法读取文件 - " ++ e ++ Text.nl]
  end.

(** [_write_generic_file] *)
Definition _write_generic_file (data : string + string) : list string :=
  match read_text data with
  | inl content => ["CONTENT:" ++ Text.nl; content]
  | inr _ => [BINARY_MARKER]
  end.

(** The dispatch on the suffix in [_write_file_content]. *)
Definition render_body (f : file_item) : list string :=
  if suffix (fi_name f) =? ".py" then _write_python_file (fi_data f)
  else if suffix (fi_name f) =? ".xml" then _write_xml_file (fi_data f)
  else _write_generic_file (fi_data f).

Definition section_header (f : file_item) : list string :=
  [separator;
   "FILE: " ++ rel_str (fi_path f) ++ Text.nl;
   "SIZE: " ++ Text.dec (fi_size f) ++ " bytes" ++ Text.nl;
   "TYPE: " ++ suffix (fi_name f) ++ Text.nl].

(** The strings [_write_file_content] writes for one file. *)
Definition render_section (f : file_item) : list string :=
  app (section_header f) (app (render_body f) [separator]).

(** The record it appends to [file_index]. *)
Definition record_of (f : file_item) : FileRecord :=
  mk_record (rel_str (fi_path f)) (fi_size f) (suffix (fi_name f))
            (_calculate_checksum (fi_data f)).

(** [_write_file_content]: the strings written and the updated object. *)
Definition _write_file_content (self : extractor) (f : file_item) : list string * extractor :=
  (render_section f,
   mk_extractor (module_name self) (module_info self)
                (file_index self ++ [record_of f])%list
                (total_size self + fi_size f)%N).

(** The loop [for file_item in all_files]. *)
Fixpoint write_files (self : extractor) (all_files : list file_item)
  : list string * extractor :=
  match all_files with
  | [] => ([], self)
  | f :: rest =>
      let '(written, self1) := _write_file_content self f in
      let '(more, self2) := write_files self1 rest in
      ((written ++ more)%list, self2)
  end.

Definition priority_of (f : file_item) : Z := _get_file_priority (rel_str (fi_path f)).

(** [all_files.sort(key=...)] *)
Definition sort_files (all_files : list file_item) : list file_item :=
  stable_sort (fun a b => (priority_of a <? priority_of b)%Z) all_files.

Definition content_header (self : extractor) (now : string) (count : nat) : list string :=
  ["# " ++ module_name self ++ " 模块代码内容" ++ Text.nl;
   "# 生成时间: " ++ now ++ Text.nl;
   "# 文件总数: " ++ Text.dec (N.of_nat count) ++ Text.nl ++ Text.nl].

(** [_extract_files] *)
Definition _extract_files (self : extractor) (listing : option (list entry)) (now : string)
  : list string * extractor :=
  let all_files := sort_files (files_of (walk_module listing)) in
  let '(sections, self') := write_files self all_files in
  (app (content_header self now (List.length all_files)) sections, self').

(** [_generate_summary]; [None] when it raises: [module_info] has no
    [get] unless it is a [dict], and [json.dump] refuses some values. *)
Definition _generate_summary (self : extractor) (now : string) : option summary :=
  match module_info self with
  | PyDict d =>
      let s :=
        mk_summary (module_name self) now (module_info self)
                   (mk_statistics (List.length (file_index self)) (total_size self)
                                  (round_mb (total_size self)) (_count_file_types self))
                   (dict_get d "depends" (PyList []))
                   (dict_get d "version" (PyStr "unknown"))
                   (dict_get d "author" (PyStr "unknown"))
                   (dict_get d "category" (PyStr "unknown")) in
      if json_serializable (module_info self) then Some s else None
  | _ => None
  end.

(** [OdooModuleExtractor(module_path, output_dir).extract()] on a module
    directory called [name]; [None] when [_generate_summary] raises.  The
    output directory is taken to lie outside the module root, so that
    writing the artifacts does not change what the walker sees and both
    walks read one listing.  A tree is made of regular files and
    directories with names that are text: what the source raises on other
    entries, on names that cannot be encoded, or beyond the recursion
    limit is outside this model, so [Some] says what a run writes if it
    completes, not that it does. *)
Definition extract (name : string) (listing : option (list entry)) (now : clock)
  : option outputs :=
  let self0 := new_extractor name in
  let self1 := _extract_manifest self0 listing in
  let structure := _generate_tree_structure self1 listing (structure_time now) in
  let '(content, self2) := _extract_files self1 listing (content_time now) in
  match _generate_summary self2 (summary_time now) with
  | None => None
  | Some s => Some (mk_outputs structure content s (_create_index self2))
  end.

(** ** Vocabulary of the statements *)

(** The section of the content bundle that belongs to an index record:
    its header lines carry the record's path, size and type. *)
Definition section_for (r : FileRecord) (sec : list string) : Prop :=
  exists body,
    sec = app [separator;
               "FILE: " ++ rec_path r ++ Text.nl;
               "SIZE: " ++ Text.dec (rec_size r) ++ " bytes" ++ Text.nl;
               "TYPE: " ++ rec_type r ++ Text.nl]
              (app body [separator]).

(** The module root has no readable, evaluable [__manifest__.py]: it is
    absent, or opening, decoding or evaluating it raises. *)
Inductive manifest_missing_or_bad : option (list entry) -> Prop :=
| manifest_absent children :
    find (fun e => entry_name e =? "__manifest__.py") children = None ->
    manifest_missing_or_bad (Some children)
| manifest_is_directory children name sub :
    find (fun e => entry_name e =? "__manifest__.py") children = Some (Dir name sub) ->
    manifest_missing_or_bad (Some children)
| manifest_unreadable children name size data message :
    find (fun e => entry_name e =? "__manifest__.py") children = Some (File name size data) ->
    read_text data = inr message ->
    manifest_missing_or_bad (Some children)
| manifest_unparsable children name size data content :
    find (fun e => entry_name e =? "__manifest__.py") children = Some (File name size data) ->
    read_text data = inl content ->
    literal_eval content = None ->
    manifest_missing_or_bad (Some children).

(** Two snapshots of one unchanged tree: the same entries with the same
    contents, each directory possibly listed in another order. *)
Inductive same_entry : entry -> entry -> Prop :=
| same_file name size data : same_entry (File name size data) (File name size data)
| same_denied name : same_entry (Dir name None) (Dir name None)
| same_dir name children1 children2 reordered :
    Permutation reordered children2 ->
    Forall2 same_entry children1 reordered ->
    same_entry (Dir name (Some children1)) (Dir name (Some children2)).

(** No directory holds two entries of one name. *)
Inductive distinct_names : entry -> Prop :=
| distinct_file name size data : distinct_names (File name size data)
| distinct_denied name : distinct_names (Dir name None)
| distinct_dir name children :
    NoDup (map entry_name children) ->
    Forall distinct_names children ->
    distinct_names (Dir name (Some children)).

(** The reading of "top-level function/method declaration": a function
    or coroutine declared directly in the module, or a method declared
    directly in one of the module's classes. *)
Definition declares (node : ast) (name : string) : Prop :=
  exists children,
    node = Node (FunctionDef name) children \/ node = Node (AsyncFunctionDef name) children.

Definition declared_at_top (tree : ast) (name : string) : Prop :=
  exists node,
    In node (ast_children tree)
    /\ (declares node name
        \/ exists class_name members method,
            node = Node (ClassDef class_name) members
            /\ In method members /\ declares method name).

(** All nodes of a syntax tree, the tree itself first. *)
Fixpoint ast_nodes (t : ast) : list ast :=
  match t with
  | Node _ children => t :: flat_map ast_nodes children
  end.

(** The line [# generated at ...] of the two text artifacts is where
    [now] goes; [stamped head now tail] are the bytes around it. *)
Definition stamped (head now tail : string) : string := head ++ now ++ tail.

(** Every item lies below the directory being walked, along names the
    filter lets through. *)
Definition below_unfiltered (path : list string) (items : list item) : Prop :=
  forall it, In it items ->
             exists rest, item_path it = (path ++ rest)%list
                          /\ Forall (fun c => name_excluded c = false) rest.

(** [sum(f.size for f in files)] *)
Definition sum_sizes (files : list file_item) : N :=
  fold_right N.add 0%N (map fi_size files).

Definition sum_record_sizes (records : list FileRecord) : N :=
  fold_right N.add 0%N (map rec_size records).

(** ** Vocabulary of the further properties *)

(** [reachable listing path e]: the entry [e] lies in the tree under
    [listing], and [path] holds the names from there down to [e]. *)
Inductive reachable : option (list entry) -> list string -> entry -> Prop :=
| reach_child children e :
    In e children -> reachable (Some children) [entry_name e] e
| reach_below children name sub path e :
    In (Dir name sub) children ->
    reachable sub path e ->
    reachable (Some children) (name :: path) e.

(** The item [_walk_directory] builds for an entry found at [path]. *)
Definition item_of (path : list string) (e : entry) : item :=
  match e with
  | File name size data => FileItem (mk_file_item name path size data)
  | Dir name _ => DirItem name path
  end.

(** What [_should_exclude] lets through along a path: no name on it is
    excluded, and a file at its end has an allowed extension. *)
Definition kept (path : list string) (e : entry) : Prop :=
  Forall (fun c => name_excluded c = false) path
  /\ (is_file e = true -> In (suffix (entry_name e)) INCLUDE_EXTENSIONS).

(** The method [extract] on an extractor object in any state, with the
    object as the call leaves it; [extract] above is this method on a new
    object, and what is said there of the tree and of [None] holds here. *)
Definition extract_from (self : extractor) (listing : option (list entry)) (now : clock)
  : option (outputs * extractor) :=
  let self1 := _extract_manifest self listing in
  let structure := _generate_tree_structure self1 listing (structure_time now) in
  let '(content, self2) := _extract_files self1 listing (content_time now) in
  match _generate_summary self2 (summary_time now) with
  | None => None
  | Some s => Some (mk_outputs structure content s (_create_index self2), self2)
  end.

(** The count [_count_file_types] holds for an extension, [0] when it has
    no key for it. *)
Definition type_count_of (ext : string) (type_count : list (string * N)) : N :=
  match find (fun kv => fst kv =? ext) type_count with
  | Some kv => snd kv
  | None => 0%N
  end.

(** The number of records of a given type. *)
Definition records_of_type (ext : string) (records : list FileRecord) : N :=
  N.of_nat (List.length (filter (fun r => rec_type r =? ext) records)).

(** No two adjacent backslashes. *)
Fixpoint no_double_backslash (s : string) : bool :=
  match s with
  | "" => true
  | String c rest =>
      match rest with
      | String d _ =>
          negb (Ascii.eqb c Text.backslash && Ascii.eqb d Text.backslash)
          && no_double_backslash rest
      | "" => true
      end
  end.

(** In a walk below [pfx], every item that lies deeper than one level has
    the item of its directory before it. *)
Definition parents_first (pfx : list string) (items : list item) : Prop :=
  forall before it after,
    items = (before ++ it :: after)%list ->
    forall dirs name,
      item_path it = (pfx ++ dirs ++ [name])%list ->
      dirs <> [] ->
      exists dir_name, In (DirItem dir_name (pfx ++ dirs)%list) before.

(** * Properties *)

(** ** Strings *)

Lemma append_assoc (a b c : string) : (a ++ b) ++ c = a ++ (b ++ c).
Proof. induction a as [|x a IH]; simpl; [reflexivity|now rewrite IH]. Qed.

(** ** Stable sorting *)

Section StableSort.
Context {A : Type}.
Variable lt : A -> A -> bool.
Hypothesis lt_asym : forall x y, lt x y = true -> lt y x = false.
Hypothesis lt_negtrans :
  forall x y z, lt y x = false -> lt z y = false -> lt z x = false.

Lemma insert_sorted_perm (x : A) (l : list A) :
  Permutation (x :: l) (insert_sorted lt x l).
Proof.
  induction l as [|y l IH]; simpl.
  - apply Permutation_refl.
  - destruct (lt y x).
    + eapply perm_trans; [apply perm_swap|]. now apply perm_skip.
    + apply Permutation_refl.
Qed.

Lemma stable_sort_perm (l : list A) : Permutation l (stable_sort lt l).
Proof.
  induction l as [|x l IH]; simpl.
  - constructor.
  - eapply perm_trans; [apply perm_skip, IH|]. apply insert_sorted_perm.
Qed.

(** Sortedness: no element is smaller than one before it. *)
Lemma insert_sorted_sorted (x : A) (l : list A) :
  StronglySorted (fun a b => lt b a = false) l ->
  StronglySorted (fun a b => lt b a = false) (insert_sorted lt x l).
Proof.
  induction 1 as [|y l Hs IH Hall]; simpl.
  - repeat constructor.
  - destruct (lt y x) eqn:Hyx.
    + constructor; [exact IH|].
      apply (Permutation_Forall (insert_sorted_perm x l)).
      constructor; [|exact Hall].
      now apply lt_asym.
    + constructor; [now constructor|].
      constructor; [exact Hyx|].
      apply Forall_forall. intros z Hz.
      rewrite Forall_forall in Hall. specialize (Hall z Hz).
      now apply (lt_negtrans x y z).
Qed.

Lemma stable_sort_sorted (l : list A) :
  StronglySorted (fun a b => lt b a = false) (stable_sort lt l).
Proof.
  induction l as [|x l IH]; simpl.
  - constructor.
  - now apply insert_sorted_sorted.
Qed.

(** Stability: elements that do not compare keep their order. *)
Lemma insert_sorted_filter (p : A -> bool) (x : A) (l : list A) :
  (forall a b, p a = true -> p b = true -> lt a b = false) ->
  filter p (insert_sorted lt x l) = filter p (x :: l).
Proof.
  intros Hp. induction l as [|y l IH]; [reflexivity|].
  simpl. destruct (lt y x) eqn:Hyx; [|reflexivity].
  simpl. rewrite IH. simpl.
  destruct (p y) eqn:Hy, (p x) eqn:Hx; try reflexivity.
  rewrite (Hp y x Hy Hx) in Hyx. discriminate.
Qed.

Lemma stable_sort_filter (p : A -> bool) (l : list A) :
  (forall a b, p a = true -> p b = true -> lt a b = false) ->
  filter p (stable_sort lt l) = filter p l.
Proof.
  intros Hp. induction l as [|x l IH]; [reflexivity|].
  simpl. rewrite (insert_sorted_filter p x _ Hp). simpl. now rewrite IH.
Qed.

End StableSort.

(** ** Priority resolver *)

Lemma exact_pass_first table s before pattern priority after :
  table = (before ++ (pattern, priority) :: after)%list ->
  pattern = s ->
  (forall kv, In kv before -> fst kv <> s) ->
  exact_pass table s = Some priority.
Proof.
  intros -> -> Hbefore. induction before as [|[k v] before IH]; simpl.
  - now rewrite String.eqb_refl.
  - destruct (String.eqb_spec k s) as [Heq|_].
    + exfalso. apply (Hbefore (k, v)); [now left|exact Heq].
    + apply IH. intros kv Hin. apply Hbefore. now right.
Qed.

Lemma exact_pass_none table s :
  (forall kv, In kv table -> fst kv <> s) -> exact_pass table s = None.
Proof.
  induction table as [|[k v] table IH]; intros Hall; simpl; [reflexivity|].
  destruct (String.eqb_spec k s) as [Heq|_].
  - exfalso. apply (Hall (k, v)); [now left|exact Heq].
  - apply IH. intros kv Hin. apply Hall. now right.
Qed.

Lemma glob_pass_first table s before pattern priority after :
  table = (before ++ (pattern, priority) :: after)%list ->
  Text.contains_char "*" pattern = true ->
  Fnmatch.fnmatch s pattern = true ->
  (forall kv, In kv before ->
              Text.contains_char "*" (fst kv) = true -> Fnmatch.fnmatch s (fst kv) = false) ->
  glob_pass table s = Some priority.
Proof.
  intros -> Hstar Hmatch Hbefore. induction before as [|[k v] before IH]; simpl.
  - now rewrite Hstar, Hmatch.
  - destruct (Text.contains_char "*" k) eqn:Hk.
    + rewrite (Hbefore (k, v) (or_introl eq_refl) Hk : Fnmatch.fnmatch s k = false).
      apply IH. intros kv Hin. apply Hbefore. now right.
    + apply IH. intros kv Hin. apply Hbefore. now right.
Qed.

Lemma glob_pass_none table s :
  (forall kv, In kv table ->
              Text.contains_char "*" (fst kv) = true -> Fnmatch.fnmatch s (fst kv) = false) ->
  glob_pass table s = None.
Proof.
  induction table as [|[k v] table IH]; intros Hall; simpl; [reflexivity|].
  destruct (Text.contains_char "*" k) eqn:Hk.
  - rewrite (Hall (k, v) (or_introl eq_refl) Hk : Fnmatch.fnmatch s k = false).
    apply IH. intros kv Hin. apply Hall. now right.
  - apply IH. intros kv Hin. apply Hall. now right.
Qed.

Lemma exact_pass_declared table s p :
  exact_pass table s = Some p -> In p (map snd table).
Proof.
  induction table as [|[k v] table IH]; simpl; [discriminate|].
  destruct (k =? s); [intros [= <-]; now left|intros H; right; now apply IH].
Qed.

Lemma glob_pass_declared table s p :
  glob_pass table s = Some p -> In p (map snd table).
Proof.
  induction table as [|[k v] table IH]; simpl; [discriminate|].
  destruct (Text.contains_char "*" k); [destruct (Fnmatch.fnmatch s k)|].
  - intros [= <-]; now left.
  - intros H; right; now apply IH.
  - intros H; right; now apply IH.
Qed.

Lemma declared_below_default :
  forall kv, In kv PRIORITY_FILES -> (snd kv < DEFAULT_PRIORITY)%Z.
Proof.
  apply Forall_forall. unfold PRIORITY_FILES, DEFAULT_PRIORITY.
  repeat constructor.
Qed.

Lemma priority_at_most_default rel_path :
  (_get_file_priority rel_path <= DEFAULT_PRIORITY)%Z.
Proof.
  unfold _get_file_priority, get_file_priority_in.
  destruct (exact_pass _ _) as [p|] eqn:He.
  - apply exact_pass_declared, in_map_iff in He. destruct He as [kv [<- Hin]].
    apply Z.lt_le_incl. now apply declared_below_default.
  - destruct (glob_pass _ _) as [p|] eqn:Hg; [|apply Z.le_refl].
    apply glob_pass_declared, in_map_iff in Hg. destruct Hg as [kv [<- Hin]].
    apply Z.lt_le_incl. now apply declared_below_default.
Qed.

(** The comparison of [sort_files] is a strict weak order. *)
Lemma priority_lt_asym (a b : file_item) :
  (priority_of a <? priority_of b)%Z = true -> (priority_of b <? priority_of a)%Z = false.
Proof. rewrite Z.ltb_lt, Z.ltb_ge. lia. Qed.

Lemma priority_lt_negtrans (x y z : file_item) :
  (priority_of y <? priority_of x)%Z = false ->
  (priority_of z <? priority_of y)%Z = false ->
  (priority_of z <? priority_of x)%Z = false.
Proof. rewrite !Z.ltb_ge. lia. Qed.

Lemma sort_files_perm (files : list file_item) : Permutation files (sort_files files).
Proof. apply stable_sort_perm. Qed.

Lemma sort_files_sorted (files : list file_item) :
  StronglySorted (fun a b => (priority_of a <= priority_of b)%Z) (sort_files files).
Proof.
  pose proof (stable_sort_sorted _ priority_lt_asym priority_lt_negtrans files) as H.
  unfold sort_files.
  induction H as [|x l Hs IH Hall]; constructor; [exact IH|].
  eapply Forall_impl; [|exact Hall]. intros a Ha. now apply Z.ltb_ge.
Qed.

Lemma sort_files_stable (files : list file_item) (p : Z) :
  filter (fun f => (priority_of f =? p)%Z) (sort_files files)
  = filter (fun f => (priority_of f =? p)%Z) files.
Proof.
  apply stable_sort_filter. intros a b Ha Hb.
  apply Z.eqb_eq in Ha, Hb. apply Z.ltb_ge. lia.
Qed.

(** The stable ordering is unique: whatever algorithm [list.sort] runs,
    a result that is sorted by priority and keeps the files of each
    priority in their former order is the list [sort_files] computes. *)
Lemma sorted_stable_unique (l1 : list file_item) :
  forall l2,
    StronglySorted (fun a b => (priority_of a <= priority_of b)%Z) l1 ->
    StronglySorted (fun a b => (priority_of a <= priority_of b)%Z) l2 ->
    (forall p, filter (fun f => (priority_of f =? p)%Z) l1
               = filter (fun f => (priority_of f =? p)%Z) l2) ->
    l1 = l2.
Proof.
  induction l1 as [|x l1 IH]; intros l2 Hs1 Hs2 Hsame.
  - destruct l2 as [|y l2]; [reflexivity|].
    specialize (Hsame (priority_of y)). simpl in Hsame.
    rewrite Z.eqb_refl in Hsame. discriminate.
  - destruct l2 as [|y l2].
    { specialize (Hsame (priority_of x)). simpl in Hsame.
      rewrite Z.eqb_refl in Hsame. discriminate. }
    inversion_clear Hs1 as [|? ? Hs1' Hall1]. inversion_clear Hs2 as [|? ? Hs2' Hall2].
    rewrite Forall_forall in Hall1, Hall2.
    assert (Hkey : priority_of x = priority_of y).
    { destruct (Z.eq_dec (priority_of x) (priority_of y)) as [|Hne]; [assumption|].
      assert (Hy : In y l1).
      { pose proof (Hsame (priority_of y)) as H. simpl in H.
        rewrite Z.eqb_refl in H. destruct (Z.eqb_spec (priority_of x) (priority_of y)) as [|_];
          [contradiction|].
        assert (Hin : In y (filter (fun f => (priority_of f =? priority_of y)%Z) l1))
          by (rewrite H; now left).
        now apply filter_In in Hin. }
      assert (Hx : In x l2).
      { pose proof (Hsame (priority_of x)) as H. simpl in H.
        rewrite Z.eqb_refl in H. destruct (Z.eqb_spec (priority_of y) (priority_of x)) as [e|_];
          [symmetry in e; contradiction|].
        assert (Hin : In x (filter (fun f => (priority_of f =? priority_of x)%Z) l2))
          by (rewrite <- H; now left).
        now apply filter_In in Hin. }
      specialize (Hall1 y Hy). specialize (Hall2 x Hx). lia. }
    assert (Hxy : x = y).
    { pose proof (Hsame (priority_of x)) as H. simpl in H.
      rewrite <- Hkey, Z.eqb_refl in H. now injection H. }
    subst y. f_equal. apply IH; try assumption.
    intros p. specialize (Hsame p). simpl in Hsame.
    destruct (priority_of x =? p)%Z; [now injection Hsame|exact Hsame].
Qed.

Lemma sort_files_unique (files sorted : list file_item) :
  StronglySorted (fun a b => (priority_of a <= priority_of b)%Z) sorted ->
  (forall p, filter (fun f => (priority_of f =? p)%Z) sorted
             = filter (fun f => (priority_of f =? p)%Z) files) ->
  sorted = sort_files files.
Proof.
  intros Hsorted Hstable. apply sorted_stable_unique.
  - exact Hsorted.
  - apply sort_files_sorted.
  - intros p. now rewrite Hstable, sort_files_stable.
Qed.

(** In a list sorted by a key bounded by [m], the elements of key [m]
    form the tail. *)
Lemma sorted_split_at_max {A : Type} (key : A -> Z) (m : Z) (l : list A) :
  StronglySorted (fun a b => (key a <= key b)%Z) l ->
  Forall (fun a => (key a <= m)%Z) l ->
  l = (filter (fun a => (key a <? m)%Z) l ++ filter (fun a => (key a =? m)%Z) l)%list.
Proof.
  induction 1 as [|x l Hs IH Hall]; intros Hb; [reflexivity|].
  inversion_clear Hb as [|? ? Hx Hl]. simpl.
  destruct (Z.ltb_spec (key x) m) as [Hlt|Hge].
  - destruct (Z.eqb_spec (key x) m); [lia|]. simpl. f_equal. now apply IH.
  - destruct (Z.eqb_spec (key x) m); [|lia].
    assert (Hnone : filter (fun a => (key a <? m)%Z) l = []).
    { clear IH Hs. induction l as [|y l IHl]; [reflexivity|].
      inversion_clear Hall as [|? ? Hxy Hall']. inversion_clear Hl as [|? ? Hy Hl'].
      simpl. destruct (Z.ltb_spec (key y) m); [lia|]. now apply IHl. }
    assert (Hall' : filter (fun a => (key a =? m)%Z) l = l).
    { clear IH Hs Hnone. induction l as [|y l IHl]; [reflexivity|].
      inversion_clear Hall as [|? ? Hxy Hall']. inversion_clear Hl as [|? ? Hy Hl'].
      simpl. destruct (Z.eqb_spec (key y) m); [|lia]. f_equal. now apply IHl. }
    rewrite Hnone, Hall'. reflexivity.
Qed.

(** C3: the priority resolver returns the priority of the first key equal
    to the normalised path; when no key is equal, that of the first key
    holding a [*] that matches as a glob; when nothing matches, the default,
    which lies above every declared priority.  A file with the default
    priority is kept by the sort and placed after every matched file. *)
Theorem C3_priority_resolver (rel_path : string) :
  let rel := Text.replace_double_backslash rel_path in
  (forall before pattern priority after,
      PRIORITY_FILES = (before ++ (pattern, priority) :: after)%list ->
      pattern = rel ->
      (forall kv, In kv before -> fst kv <> rel) ->
      _get_file_priority rel_path = priority)
  /\ ((forall kv, In kv PRIORITY_FILES -> fst kv <> rel) ->
      forall before pattern priority after,
        PRIORITY_FILES = (before ++ (pattern, priority) :: after)%list ->
        Text.contains_char "*" pattern = true ->
        Fnmatch.fnmatch rel pattern = true ->
        (forall kv, In kv before -> Text.contains_char "*" (fst kv) = true ->
                    Fnmatch.fnmatch rel (fst kv) = false) ->
        _get_file_priority rel_path = priority)
  /\ ((forall kv, In kv PRIORITY_FILES -> fst kv <> rel) ->
      (forall kv, In kv PRIORITY_FILES -> Text.contains_char "*" (fst kv) = true ->
                  Fnmatch.fnmatch rel (fst kv) = false) ->
      _get_file_priority rel_path = DEFAULT_PRIORITY)
  /\ (forall kv, In kv PRIORITY_FILES -> (snd kv < DEFAULT_PRIORITY)%Z)
  /\ (forall files : list file_item,
         exists matched,
           sort_files files
           = (matched ++ filter (fun f => (priority_of f =? DEFAULT_PRIORITY)%Z) files)%list
           /\ Forall (fun f => (priority_of f < DEFAULT_PRIORITY)%Z) matched).
Proof.
  intros rel. unfold _get_file_priority, get_file_priority_in. fold rel.
  split; [|split; [|split; [|split]]].
  - intros before pattern priority after Htab Hpat Hbefore.
    now rewrite (exact_pass_first _ _ _ _ _ _ Htab Hpat Hbefore).
  - intros Hno before pattern priority after Htab Hstar Hmatch Hbefore.
    rewrite (exact_pass_none _ _ Hno).
    now rewrite (glob_pass_first _ _ _ _ _ _ Htab Hstar Hmatch Hbefore).
  - intros Hno Hnoglob.
    now rewrite (exact_pass_none _ _ Hno), (glob_pass_none _ _ Hnoglob).
  - exact declared_below_default.
  - intros files.
    exists (filter (fun f => (priority_of f <? DEFAULT_PRIORITY)%Z) (sort_files files)).
    split.
    + rewrite <- (sort_files_stable files DEFAULT_PRIORITY).
      apply sorted_split_at_max; [apply sort_files_sorted|].
      apply Forall_forall. intros f _. apply priority_at_most_default.
    + apply Forall_forall. intros f Hf. apply filter_In in Hf.
      now apply Z.ltb_lt.
Qed.

(** *** The glob pass and nested paths *)

Lemma replace_double_backslash_other (c : ascii) (s : string) :
  c <> Text.backslash ->
  Text.replace_double_backslash (String c s) = String c (Text.replace_double_backslash s).
Proof.
  intros Hc. destruct s as [|d s]; [reflexivity|].
  cbn [Text.replace_double_backslash].
  destruct (Ascii.eqb_spec c Text.backslash) as [Heq|_]; [contradiction|reflexivity].
Qed.

Lemma replace_double_backslash_pair (a b : ascii) (s : string) :
  Text.replace_double_backslash (String a (String b s))
  = if Ascii.eqb a Text.backslash && Ascii.eqb b Text.backslash
    then String "/" (Text.replace_double_backslash s)
    else String a (Text.replace_double_backslash (String b s)).
Proof. reflexivity. Qed.

(** A tail that holds no backslash is left alone, whatever precedes it. *)
Lemma replace_double_backslash_tail (c : ascii) (t x : string) :
  c <> Text.backslash ->
  Text.replace_double_backslash (String c t) = String c t ->
  Text.replace_double_backslash (x ++ String c t)
  = Text.replace_double_backslash x ++ String c t.
Proof.
  intros Hc Ht.
  assert (H : forall n x, (String.length x <= n)%nat ->
                          Text.replace_double_backslash (x ++ String c t)
                          = Text.replace_double_backslash x ++ String c t).
  { clear x. induction n as [|n IH]; intros x Hlen.
    - destruct x; [exact Ht|simpl in Hlen; lia].
    - destruct x as [|a [|b x]].
      + exact Ht.
      + change (String a "" ++ String c t) with (String a (String c t)).
        rewrite replace_double_backslash_pair.
        destruct (Ascii.eqb_spec c Text.backslash) as [Heq|_]; [contradiction|].
        rewrite andb_false_r, Ht. reflexivity.
      + change (String a (String b x) ++ String c t)
          with (String a (String b (x ++ String c t))).
        rewrite !replace_double_backslash_pair.
        destruct (Ascii.eqb a Text.backslash && Ascii.eqb b Text.backslash).
        * cbn [String.append]. f_equal. apply IH. simpl in Hlen. lia.
        * change (String b (x ++ String c t)) with (String b x ++ String c t).
          rewrite IH by (simpl in *; lia). reflexivity. }
  now apply (H (String.length x)).
Qed.

Lemma fnmatch_star_skips (pat t z : string) :
  Fnmatch.fnmatchcase_pat pat t = true ->
  Fnmatch.fnmatchcase_pat (String "*" pat) (z ++ t) = true.
Proof.
  intros Ht. induction z as [|a z IH].
  - cbn. destruct t; rewrite Ht; reflexivity.
  - cbn in IH |- *. rewrite IH. apply orb_true_r.
Qed.

Lemma exact_pass_hit table s p :
  exact_pass table s = Some p -> In (s, p) table.
Proof.
  induction table as [|[k v] table IH]; simpl; [discriminate|].
  destruct (String.eqb_spec k s) as [->|_].
  - intros [= <-]. now left.
  - intros H. right. now apply IH.
Qed.

(** The resolver's answer when a wildcard key matches: its priority, as
    long as every earlier wildcard key fails and no key of another
    priority equals the path. *)
Lemma resolve_by_glob table s before pattern priority after :
  table = (before ++ (pattern, priority) :: after)%list ->
  (forall p, In (s, p) table -> p = priority) ->
  Text.contains_char "*" pattern = true ->
  Fnmatch.fnmatch s pattern = true ->
  (forall kv, In kv before -> Text.contains_char "*" (fst kv) = true ->
              Fnmatch.fnmatch s (fst kv) = false) ->
  match exact_pass table s with
  | Some p => p
  | None => match glob_pass table s with Some p => p | None => DEFAULT_PRIORITY end
  end = priority.
Proof.
  intros Htab Hexact Hstar Hmatch Hbefore.
  destruct (exact_pass table s) as [p|] eqn:He.
  - apply Hexact. now apply exact_pass_hit.
  - now rewrite (glob_pass_first _ _ _ _ _ _ Htab Hstar Hmatch Hbefore).
Qed.

(** One wildcard key of the table against a path below its directory:
    [n] keys precede it. *)
Ltac solve_glob_rule n pattern extension priority :=
  unfold _get_file_priority, get_file_priority_in;
  cbn [String.append];
  repeat (rewrite replace_double_backslash_other by discriminate);
  rewrite replace_double_backslash_tail by (reflexivity || discriminate);
  match goal with
  | |- context [Text.replace_double_backslash ?x] =>
      generalize (Text.replace_double_backslash x)
  end;
  let z := fresh "z" in
  intros z;
  apply (resolve_by_glob PRIORITY_FILES _ (firstn n PRIORITY_FILES) pattern priority
                         (skipn (S n) PRIORITY_FILES));
  [ reflexivity
  | let q := fresh "q" in
    let Hq := fresh "Hq" in
    intros q Hq; unfold PRIORITY_FILES in Hq; simpl in Hq;
    repeat (destruct Hq as [Hq|Hq]; [try discriminate Hq; inversion Hq; reflexivity|]);
    contradiction
  | reflexivity
  | unfold Fnmatch.fnmatch; exact (fnmatch_star_skips extension extension z eq_refl)
  | let kv := fresh "kv" in
    let Hk := fresh "Hk" in
    let Hstar := fresh "Hstar" in
    intros kv Hk Hstar; simpl in Hk;
    repeat (destruct Hk as [Hk|Hk]; [subst kv; try discriminate Hstar; reflexivity|]);
    contradiction ].

(** C10: in the glob pass [*] also matches path separators.  Every
    wildcard key of the table has the form [directory/*extension], and a
    file at any depth below that directory, [directory/subdir/name] with
    that extension, gets the key's priority and not the default. *)
Theorem C10_glob_crosses_separators :
  filter (fun kv => Text.contains_char "*" (fst kv)) PRIORITY_FILES = map glob_key GLOB_RULES
  /\ forall directory extension priority,
      In (directory, extension, priority) GLOB_RULES ->
      forall subdir name,
        _get_file_priority (directory ++ "/" ++ subdir ++ "/" ++ name ++ extension) = priority
        /\ priority <> DEFAULT_PRIORITY.
Proof.
  split; [reflexivity|].
  intros d e p Hin sub name.
  assert (Hassoc : forall t, sub ++ "/" ++ name ++ t = (sub ++ "/" ++ name) ++ t).
  { intros t. rewrite !append_assoc. reflexivity. }
  rewrite Hassoc. generalize (sub ++ "/" ++ name). intros x. clear Hassoc.
  unfold GLOB_RULES in Hin. simpl in Hin.
  repeat (destruct Hin as [Hin|Hin]; [inversion Hin; subst; clear Hin|]);
    [..|contradiction]; (split; [|discriminate]).
  - solve_glob_rule 2%nat "models/*.py" ".py" 3%Z.
  - solve_glob_rule 3%nat "views/*.xml" ".xml" 4%Z.
  - solve_glob_rule 4%nat "security/*.csv" ".csv" 5%Z.
  - solve_glob_rule 5%nat "data/*.xml" ".xml" 6%Z.
  - solve_glob_rule 6%nat "wizard/*.py" ".py" 7%Z.
  - solve_glob_rule 7%nat "controllers/*.py" ".py" 8%Z.
  - solve_glob_rule 8%nat "static/src/*.js" ".js" 9%Z.
  - solve_glob_rule 9%nat "reports/*.xml" ".xml" 10%Z.
Qed.

(** ** Path filter *)

(** A set has no fixed iteration order; the loop over the exclusion
    patterns gives the same answer in every order. *)
Lemma excluded_by_any_order (patterns patterns' : list string) (name : string) :
  Permutation patterns patterns' ->
  excluded_by patterns name = excluded_by patterns' name.
Proof.
  unfold excluded_by. induction 1 as [|p l l' _ IH|p q l|l l' l'' _ IH1 _ IH2]; simpl.
  - reflexivity.
  - now rewrite IH.
  - now rewrite !orb_assoc, (orb_comm (if Text.startswith q "*" then _ else _)).
  - now rewrite IH1.
Qed.

(** ** Tree walker *)

Lemma should_exclude_name (e : entry) :
  _should_exclude e = false -> name_excluded (entry_name e) = false.
Proof.
  unfold _should_exclude. destruct (name_excluded (entry_name e)); [discriminate|reflexivity].
Qed.

Lemma walk_loop_below walk path todo items :
  (forall p l r, walk p l = Some r -> below_unfiltered p r) ->
  walk_loop walk path todo = Some items ->
  below_unfiltered path items.
Proof.
  intros Hwalk. revert items.
  induction todo as [|e todo IH]; intros items Hloop; simpl in Hloop.
  - injection Hloop as <-. intros it [].
  - destruct (_should_exclude e) eqn:Hex; [now apply IH|].
    apply should_exclude_name in Hex.
    destruct e as [name size data|name sub]; simpl in Hex.
    + destruct (walk_loop walk path todo) as [rest|]; [|discriminate].
      injection Hloop as <-. intros it [<-|Hin].
      * exists [name]. split; [reflexivity|]. now repeat constructor.
      * now apply (IH rest).
    + destruct (walk _ sub) as [below|] eqn:Hsub; [|discriminate].
      destruct (walk_loop walk path todo) as [rest|]; [|discriminate].
      injection Hloop as <-. intros it [<-|Hin].
      * exists [name]. split; [reflexivity|]. now repeat constructor.
      * apply in_app_or in Hin. destruct Hin as [Hin|Hin]; [|now apply (IH rest)].
        destruct (Hwalk _ _ _ Hsub it Hin) as [tail [Hpath Hok]].
        exists (name :: tail). split; [|now constructor].
        rewrite Hpath, <- app_assoc. reflexivity.
Qed.

Lemma walk_directory_below fuel :
  forall path listing items,
    _walk_directory fuel path listing = Some items -> below_unfiltered path items.
Proof.
  induction fuel as [|fuel IH]; intros path listing items Hw; [discriminate|].
  simpl in Hw. destruct listing as [children|].
  - now apply (walk_loop_below _ _ _ _ IH Hw).
  - injection Hw as <-. intros it [].
Qed.

Lemma walk_loop_mono walk1 walk2 path todo items :
  (forall p l r, walk1 p l = Some r -> walk2 p l = Some r) ->
  walk_loop walk1 path todo = Some items ->
  walk_loop walk2 path todo = Some items.
Proof.
  intros Hmono. revert items.
  induction todo as [|e todo IH]; intros items Hloop; simpl in *; [exact Hloop|].
  destruct (_should_exclude e); [now apply IH|].
  destruct e as [name size data|name sub].
  - destruct (walk_loop walk1 path todo) as [rest|]; [|discriminate].
    now rewrite (IH rest eq_refl).
  - destruct (walk1 _ sub) as [below|] eqn:Hsub; [|discriminate].
    rewrite (Hmono _ _ _ Hsub).
    destruct (walk_loop walk1 path todo) as [rest|]; [|discriminate].
    now rewrite (IH rest eq_refl).
Qed.

Lemma walk_directory_mono fuel :
  forall fuel' path listing items,
    (fuel <= fuel')%nat ->
    _walk_directory fuel path listing = Some items ->
    _walk_directory fuel' path listing = Some items.
Proof.
  induction fuel as [|fuel IH]; intros fuel' path listing items Hle Hw; [discriminate|].
  destruct fuel' as [|fuel']; [lia|].
  simpl in *. destruct listing as [children|]; [|exact Hw].
  apply (walk_loop_mono (_walk_directory fuel)); [|exact Hw].
  intros p l r. apply IH. lia.
Qed.

Lemma walk_loop_total walk path todo :
  (forall name sub, In (Dir name sub) todo -> forall p, exists r, walk p sub = Some r) ->
  exists items, walk_loop walk path todo = Some items.
Proof.
  induction todo as [|e todo IH]; intros Hdirs; simpl; [now exists []|].
  destruct IH as [rest Hrest].
  { intros name sub Hin. apply (Hdirs name sub). now right. }
  destruct (_should_exclude e); [now exists rest|].
  destruct e as [name size data|name sub].
  - rewrite Hrest. simpl. eauto.
  - destruct (Hdirs name sub (or_introl eq_refl) (path ++ [name])%list) as [below ->].
    rewrite Hrest. simpl. eauto.
Qed.

Lemma list_max_bound (l : list nat) (n : nat) :
  In n l -> (n <= list_max l)%nat.
Proof.
  induction l as [|m l IH]; simpl; [intros []|].
  intros [->|Hin]; [lia|]. specialize (IH Hin). lia.
Qed.

(** The walk terminates: the depth of the tree is fuel enough. *)
Lemma walk_directory_total fuel :
  forall name path listing,
    (entry_depth (Dir name listing) <= fuel)%nat ->
    exists items, _walk_directory fuel path listing = Some items.
Proof.
  induction fuel as [|fuel IH]; intros name path listing Hd.
  - destruct listing; simpl in Hd; lia.
  - simpl. destruct listing as [children|]; [|now exists []].
    apply walk_loop_total. intros n sub Hin p. apply (IH n).
    apply (Permutation_in _ (Permutation_sym (stable_sort_perm path_lt children))) in Hin.
    simpl in Hd.
    pose proof (list_max_bound (map entry_depth children) (entry_depth (Dir n sub))
                               (in_map entry_depth _ _ Hin)).
    lia.
Qed.

Lemma walk_module_spec (listing : option (list entry)) (fuel : nat) :
  (entry_depth (Dir "" listing) <= fuel)%nat ->
  _walk_directory fuel [] listing = Some (walk_module listing).
Proof.
  intros Hfuel. unfold walk_module.
  destruct (walk_directory_total _ "" [] listing (Nat.le_refl _)) as [items Hitems].
  rewrite Hitems. now apply (walk_directory_mono _ _ _ _ _ Hfuel).
Qed.

Lemma walk_module_unfiltered (listing : option (list entry)) (it : item) :
  In it (walk_module listing) ->
  Forall (fun c => name_excluded c = false) (item_path it).
Proof.
  intros Hin.
  pose proof (walk_module_spec listing _ (Nat.le_refl _)) as Hw.
  destruct (walk_directory_below _ _ _ _ Hw it Hin) as [rest [Hpath Hok]].
  now rewrite Hpath.
Qed.

(** ** The assembler's accumulator *)

Lemma write_files_spec (files : list file_item) :
  forall self,
    write_files self files
    = (flat_map render_section files,
       mk_extractor (module_name self) (module_info self)
                    (file_index self ++ map record_of files)%list
                    (total_size self + sum_sizes files)%N).
Proof.
  induction files as [|f files IH]; intros self; simpl.
  - rewrite app_nil_r, N.add_0_r. now destruct self.
  - rewrite IH. cbn [module_name module_info file_index total_size].
    f_equal. f_equal.
    + now rewrite <- app_assoc.
    + unfold sum_sizes. cbn [map fold_right]. lia.
Qed.

Lemma extract_manifest_fields (self : extractor) (listing : option (list entry)) :
  module_name (_extract_manifest self listing) = module_name self
  /\ file_index (_extract_manifest self listing) = file_index self
  /\ total_size (_extract_manifest self listing) = total_size self.
Proof.
  unfold _extract_manifest.
  destruct listing as [children|]; [|now repeat split].
  destruct (find _ children) as [[name size data|name sub]|]; [| |]; try now repeat split.
  destruct (read_text data) as [content|message]; [|now repeat split].
  destruct (literal_eval content); now repeat split.
Qed.

(** What a completed run has written. *)
Lemma extract_inv name listing now o :
  extract name listing now = Some o ->
  let self1 := _extract_manifest (new_extractor name) listing in
  let files := sort_files (files_of (walk_module listing)) in
  let self2 := mk_extractor name (module_info self1) (map record_of files) (sum_sizes files) in
  structure_txt o = _generate_tree_structure self1 listing (structure_time now)
  /\ content_txt o
     = (content_header self1 (content_time now) (List.length files)
        ++ flat_map render_section files)%list
  /\ _generate_summary self2 (summary_time now) = Some (summary_json o)
  /\ index_json o = _create_index self2.
Proof.
  intros H. cbv zeta. unfold extract, _extract_files in H. cbv zeta in H.
  rewrite write_files_spec in H.
  destruct (extract_manifest_fields (new_extractor name) listing) as [Hn [Hi Ht]].
  cbn [new_extractor module_name file_index total_size] in Hn, Hi, Ht.
  rewrite Hn, Hi, Ht in H. cbn [app N.add] in H.
  destruct (_generate_summary _ (summary_time now)) as [s|]; [|discriminate].
  injection H as <-. now repeat split.
Qed.

Lemma sum_record_sizes_map (files : list file_item) :
  sum_record_sizes (map record_of files) = sum_sizes files.
Proof.
  unfold sum_record_sizes, sum_sizes. rewrite map_map. reflexivity.
Qed.

Lemma render_section_for (f : file_item) : section_for (record_of f) (render_section f).
Proof. exists (render_body f). reflexivity. Qed.

(** C1: in a completed run the content bundle is its header followed by
    one section per index record, in the order of the index; record and
    section are those of the same file, and the files are the walker's
    files sorted by priority, ascending, files of one priority keeping
    the walker's order. *)
Theorem C1_index_matches_sections name listing now o :
  extract name listing now = Some o ->
  exists (files : list file_item) (sections : list (list string)),
    content_txt o
    = (content_header (new_extractor name) (content_time now) (List.length files)
       ++ List.concat sections)%list
    /\ sections = map render_section files
    /\ idx_files (index_json o) = map record_of files
    /\ Forall2 section_for (idx_files (index_json o)) sections
    /\ Permutation (files_of (walk_module listing)) files
    /\ StronglySorted (fun a b => (priority_of a <= priority_of b)%Z) files
    /\ (forall p : Z,
           filter (fun f => (priority_of f =? p)%Z) files
           = filter (fun f => (priority_of f =? p)%Z) (files_of (walk_module listing))).
Proof.
  intros Hrun. destruct (extract_inv _ _ _ _ Hrun) as [_ [Hcontent [_ Hindex]]].
  exists (sort_files (files_of (walk_module listing))).
  exists (map render_section (sort_files (files_of (walk_module listing)))).
  split.
  { rewrite Hcontent, flat_map_concat_map. f_equal. unfold content_header.
    now destruct (extract_manifest_fields (new_extractor name) listing) as [-> _]. }
  split; [reflexivity|].
  rewrite Hindex. cbn [_create_index idx_files file_index].
  split; [reflexivity|]. split.
  - generalize (sort_files (files_of (walk_module listing))). clear.
    intros l. induction l as [|f l IH]; simpl; [constructor|].
    constructor; [apply render_section_for|exact IH].
  - split; [apply sort_files_perm|].
    split; [apply sort_files_sorted|apply sort_files_stable].
Qed.

(** C2: the summary's statistics agree with the index: its file count is
    the number of records and its byte total the sum of their sizes. *)
Theorem C2_statistics_consistent name listing now o :
  extract name listing now = Some o ->
  total_files (sum_statistics (summary_json o)) = List.length (idx_files (index_json o))
  /\ total_size_bytes (sum_statistics (summary_json o))
     = sum_record_sizes (idx_files (index_json o)).
Proof.
  intros Hrun. destruct (extract_inv _ _ _ _ Hrun) as [_ [_ [Hsum Hindex]]].
  rewrite Hindex. cbn [_create_index idx_files file_index].
  unfold _generate_summary in Hsum. cbn [module_info file_index total_size] in Hsum.
  destruct (module_info _) as [| | | | | | | | | | |d]; try discriminate.
  destruct (json_serializable (PyDict d)); [|discriminate].
  injection Hsum as <-. cbn [sum_statistics total_files total_size_bytes].
  split; [reflexivity|]. now rewrite sum_record_sizes_map.
Qed.

(** C6: a directory whose name is in the exclusion set is left out with
    all that lies below it: no item of the walk, no record of the index
    and no section of the bundle has that name on its path. *)
Theorem C6_excluded_directories_pruned (listing : option (list entry)) (d : string) :
  name_excluded d = true ->
  (forall it, In it (walk_module listing) -> ~ In d (item_path it))
  /\ (forall name now o,
         extract name listing now = Some o ->
         exists files,
           idx_files (index_json o) = map record_of files
           /\ (exists header, content_txt o = (header ++ flat_map render_section files)%list)
           /\ forall f, In f files ->
                        In (FileItem f) (walk_module listing) /\ ~ In d (fi_path f)).
Proof.
  intros Hd.
  assert (Hwalk : forall it, In it (walk_module listing) -> ~ In d (item_path it)).
  { intros it Hin Hpath.
    pose proof (walk_module_unfiltered listing it Hin) as Hok.
    rewrite Forall_forall in Hok. specialize (Hok d Hpath). congruence. }
  split; [exact Hwalk|].
  intros name now o Hrun.
  destruct (extract_inv _ _ _ _ Hrun) as [_ [Hcontent [_ Hindex]]].
  exists (sort_files (files_of (walk_module listing))).
  split; [now rewrite Hindex|]. split; [eexists; exact Hcontent|].
  intros f Hf.
  apply (Permutation_in _ (Permutation_sym (sort_files_perm _))) in Hf.
  unfold files_of in Hf. apply in_flat_map in Hf. destruct Hf as [it [Hit Hf]].
  destruct it as [n p|g]; [contradiction|]. destruct Hf as [<-|[]].
  split; [exact Hit|]. exact (Hwalk _ Hit).
Qed.

(** ** Markup-aware rendering *)

(** C4, as amended: for a decodable [.xml] file whose root tag is [odoo] or
    [openerp] and that holds at least one [record] or [template] element,
    the renderer writes a [PARSED_INFO] block before the content.  The
    block has the two record lines exactly when a record exists: the
    count, and the [id] (or [no-id]) of the first five records followed by
    [...] exactly when there are more than five.  It has the template
    count exactly when a template exists. *)
Theorem C4_xml_parsed_info (raw content : string) (root : element) :
  Utf8.decode raw = Some content ->
  xml_fromstring content = Some root ->
  tag root = "odoo" \/ tag root = "openerp" ->
  let records := findall_descendants "record" root in
  let templates := findall_descendants "template" root in
  records <> [] \/ templates <> [] ->
  exists (record_lines template_line : list string) (marker : string),
    _write_xml_file (inl raw)
    = ("PARSED_INFO:" ++ Text.nl)
        :: app record_lines (app template_line ["CONTENT:" ++ Text.nl; content])
    /\ (records = [] -> record_lines = [])
    /\ (records <> [] ->
        record_lines
        = ["  Records: " ++ Text.dec (N.of_nat (List.length records)) ++ Text.nl;
           "  Record IDs: "
             ++ Text.join ", " (map (get_attrib "id" "no-id") (firstn 5 records))
             ++ marker ++ Text.nl])
    /\ ((5 < List.length records)%nat -> marker = "...")
    /\ ((List.length records <= 5)%nat -> marker = "")
    /\ (templates = [] -> template_line = [])
    /\ (templates <> [] ->
        template_line
        = ["  Templates: " ++ Text.dec (N.of_nat (List.length templates)) ++ Text.nl]).
Proof.
  intros Hdec Hparse Htag records templates _.
  unfold _write_xml_file, read_text, xml_parsed_info. rewrite Hdec, Hparse.
  assert (Hrec : (tag root =? "odoo") || (tag root =? "openerp") = true).
  { destruct Htag as [-> | ->]; reflexivity. }
  rewrite Hrec. unfold xml_root_info. fold records. fold templates.
  exists (match records with
          | [] => []
          | _ => ["  Records: " ++ Text.dec (N.of_nat (List.length records)) ++ Text.nl;
                  "  Record IDs: "
                    ++ Text.join ", " (map (get_attrib "id" "no-id") (firstn 5 records))
                    ++ (if (5 <? List.length records)%nat then "..." else "") ++ Text.nl]
          end).
  exists (match templates with
          | [] => []
          | _ => ["  Templates: " ++ Text.dec (N.of_nat (List.length templates)) ++ Text.nl]
          end).
  exists (if (5 <? List.length records)%nat then "..." else "").
  split; [cbn [app]; now rewrite <- app_assoc|].
  split; [now intros ->|].
  split; [destruct records; [congruence|reflexivity]|].
  split; [intros H; apply Nat.ltb_lt in H; now rewrite H|].
  split; [intros H; apply Nat.ltb_ge in H; now rewrite H|].
  split; [now intros ->|].
  destruct templates; [congruence|reflexivity].
Qed.

(** ** Declaration-aware rendering *)

Lemma walk_queue_perm (fuel : nat) :
  forall todo,
    (list_sum (map ast_size todo) <= fuel)%nat ->
    Permutation (walk_queue fuel todo) (flat_map ast_nodes todo).
Proof.
  induction fuel as [|fuel IH]; intros todo Hsize.
  - destruct todo as [|[k cs] rest]; [constructor|simpl in Hsize; lia].
  - destruct todo as [|[k cs] rest]; [constructor|].
    cbn [walk_queue ast_children flat_map ast_nodes app].
    apply perm_skip.
    eapply perm_trans; [apply IH|].
    + rewrite map_app, list_sum_app. simpl in Hsize. lia.
    + rewrite flat_map_app. apply Permutation_app_comm.
Qed.

(** [ast.walk] visits every node of the tree once. *)
Lemma ast_walk_perm (tree : ast) : Permutation (ast_walk tree) (ast_nodes tree).
Proof.
  unfold ast_walk.
  eapply perm_trans; [apply walk_queue_perm; simpl; lia|].
  simpl. now rewrite app_nil_r.
Qed.

Lemma walk_queue_prefix (front : list ast) :
  forall fuel back,
    (List.length front <= fuel)%nat ->
    walk_queue fuel (front ++ back)
    = (front ++ walk_queue (fuel - List.length front)
                           (back ++ flat_map ast_children front))%list.
Proof.
  induction front as [|n front IH]; intros fuel back Hlen.
  - simpl. now rewrite Nat.sub_0_r, app_nil_r.
  - destruct fuel as [|fuel]; [simpl in Hlen; lia|].
    cbn [app walk_queue List.length Nat.sub flat_map]. f_equal.
    rewrite <- app_assoc, IH by (simpl in Hlen; lia).
    now rewrite <- !app_assoc.
Qed.

(** It is breadth-first: the tree, then its children in order, then what
    lies deeper. *)
Lemma ast_walk_breadth_first (tree : ast) :
  exists deeper, ast_walk tree = (tree :: ast_children tree ++ deeper)%list.
Proof.
  destruct tree as [k cs]. unfold ast_walk. cbn [ast_size walk_queue ast_children app].
  eexists. f_equal.
  rewrite <- (app_nil_r cs) at 2. rewrite walk_queue_prefix; [reflexivity|].
  clear. induction cs as [|[k' cs'] cs IH]; simpl; lia.
Qed.

(** C5, as amended: for a decodable [.py] file, a failed scan leaves the
    content alone.  A successful scan visits every node of the syntax
    tree once, breadth-first, and collects the names of the [ClassDef]
    and of the [FunctionDef] nodes at every depth; when it finds none the
    content stands alone, and otherwise a [PARSED_INFO] block precedes
    it, with all class names when there is a class, and the first ten
    function names when there is a function, followed by [...] exactly
    when there are more than ten. *)
Theorem C5_python_parsed_info (raw content : string) :
  Utf8.decode raw = Some content ->
  (ast_parse content = None ->
   _write_python_file (inl raw) = ["CONTENT:" ++ Text.nl; content])
  /\ (forall tree,
         ast_parse content = Some tree ->
         let classes := class_names (ast_walk tree) in
         let functions := function_names (ast_walk tree) in
         Permutation (ast_walk tree) (ast_nodes tree)
         /\ (exists deeper, ast_walk tree = (tree :: ast_children tree ++ deeper)%list)
         /\ (classes = [] -> functions = [] ->
             _write_python_file (inl raw) = ["CONTENT:" ++ Text.nl; content])
         /\ (classes <> [] \/ functions <> [] ->
             exists (class_line function_line : list string) (marker : string),
               _write_python_file (inl raw)
               = ("PARSED_INFO:" ++ Text.nl)
                   :: app class_line (app function_line ["CONTENT:" ++ Text.nl; content])
               /\ (classes = [] -> class_line = [])
               /\ (classes <> [] ->
                   class_line = ["  Classes: " ++ Text.join ", " classes ++ Text.nl])
               /\ (functions = [] -> function_line = [])
               /\ (functions <> [] ->
                   function_line
                   = ["  Functions: " ++ Text.join ", " (firstn 10 functions)
                        ++ marker ++ Text.nl])
               /\ ((10 < List.length functions)%nat -> marker = "...")
               /\ ((List.length functions <= 10)%nat -> marker = ""))).
Proof.
  intros Hdec. split.
  { intros Hnone. unfold _write_python_file, read_text, python_parsed_info.
    now rewrite Hdec, Hnone. }
  intros tree Htree classes functions.
  split; [apply ast_walk_perm|]. split; [apply ast_walk_breadth_first|].
  unfold _write_python_file, read_text, python_parsed_info. rewrite Hdec, Htree.
  fold classes. fold functions.
  split; [now intros -> ->|].
  intros Hsome.
  exists (match classes with
          | [] => []
          | _ => ["  Classes: " ++ Text.join ", " classes ++ Text.nl]
          end).
  exists (match functions with
          | [] => []
          | _ => ["  Functions: " ++ Text.join ", " (firstn 10 functions)
                    ++ (if (10 <? List.length functions)%nat then "..." else "")
                    ++ Text.nl]
          end).
  exists (if (10 <? List.length functions)%nat then "..." else "").
  split.
  { destruct classes as [|c cl]; destruct functions as [|f fl];
      [destruct Hsome; congruence| | |]; cbn [app]; now rewrite <- ?app_assoc. }
  split; [now intros ->|].
  split; [destruct classes; [congruence|reflexivity]|].
  split; [now intros ->|].
  split; [destruct functions; [congruence|reflexivity]|].
  split; [intros H; apply Nat.ltb_lt in H; now rewrite H|].
  intros H; apply Nat.ltb_ge in H; now rewrite H.
Qed.

(** ** Manifest *)

Lemma manifest_bad_info (self : extractor) (listing : option (list entry)) :
  module_info self = PyDict [] ->
  manifest_missing_or_bad listing ->
  module_info (_extract_manifest self listing) = PyDict [].
Proof.
  intros Hself Hbad. unfold _extract_manifest.
  destruct Hbad as [children Hfind|children name sub Hfind
                    |children name size data message Hfind Hread
                    |children name size data content Hfind Hread Heval];
    try rewrite Hfind; try rewrite Hread; try rewrite Heval; auto.
Qed.

(** A manifest that evaluates, but not to a [dict], is kept as the module
    information: no exception is raised where the handler could catch it,
    and [_generate_summary] raises on it. *)
Lemma non_dict_manifest_stops_the_run name children file_name size data content value now :
  find (fun e => entry_name e =? "__manifest__.py") children
  = Some (File file_name size data) ->
  read_text data = inl content ->
  literal_eval content = Some value ->
  (forall d, value <> PyDict d) ->
  module_info (_extract_manifest (new_extractor name) (Some children)) = value
  /\ extract name (Some children) now = None.
Proof.
  intros Hfind Hread Heval Hnot.
  assert (Hinfo : module_info (_extract_manifest (new_extractor name) (Some children)) = value).
  { unfold _extract_manifest. now rewrite Hfind, Hread, Heval. }
  split; [exact Hinfo|].
  unfold extract, _extract_files. cbv zeta. rewrite write_files_spec.
  unfold _generate_summary. cbn [module_info]. rewrite Hinfo.
  destruct value; try reflexivity. now destruct (Hnot d).
Qed.

(** ** Checksums *)

Lemma hexdigit_is_hex (n : Z) : MD5.is_hex (MD5.hexdigit n) = true.
Proof.
  unfold MD5.hexdigit. generalize (Z.to_nat n). intros k.
  do 16 (destruct k as [|k]; [reflexivity|]).
  destruct k; reflexivity.
Qed.

Lemma hex_bytes_length (l : list Z) :
  List.length (flat_map MD5.hex_byte l) = (2 * List.length l)%nat.
Proof. induction l as [|b l IH]; simpl; [reflexivity|]. rewrite IH. lia. Qed.

Lemma hex_bytes_hex (l : list Z) :
  Forall (fun c => MD5.is_hex c = true) (flat_map MD5.hex_byte l).
Proof.
  induction l as [|b l IH]; simpl; [constructor|].
  constructor; [apply hexdigit_is_hex|]. constructor; [apply hexdigit_is_hex|exact IH].
Qed.

Lemma digest_length (msg : string) : List.length (MD5.digest msg) = 16%nat.
Proof.
  unfold MD5.digest. destruct (MD5.process _ _ _) as [[[a b] c] d]. reflexivity.
Qed.

(** A hex digest is 32 characters out of [0-9a-f]. *)
Lemma hexdigest_shape (msg : string) :
  List.length (list_ascii_of_string (MD5.hexdigest msg)) = 32%nat
  /\ Forall (fun c => MD5.is_hex c = true) (list_ascii_of_string (MD5.hexdigest msg)).
Proof.
  unfold MD5.hexdigest. rewrite list_ascii_of_string_of_list_ascii.
  split; [|apply hex_bytes_hex].
  rewrite hex_bytes_length, digest_length. reflexivity.
Qed.

Lemma substring_firstn (n : nat) (s : string) :
  list_ascii_of_string (String.substring 0 n s) = firstn n (list_ascii_of_string s).
Proof.
  revert s. induction n as [|n IH]; intros [|c s]; simpl; try reflexivity.
  now rewrite IH.
Qed.

Lemma string_length_list (s : string) :
  String.length s = List.length (list_ascii_of_string s).
Proof. induction s as [|c s IH]; simpl; [reflexivity|now rewrite IH]. Qed.

(** The checksum of readable bytes: eight hexadecimal characters. *)
Lemma checksum_shape (raw : string) :
  String.length (_calculate_checksum (inl raw)) = 8%nat
  /\ Forall (fun c => MD5.is_hex c = true)
            (list_ascii_of_string (_calculate_checksum (inl raw))).
Proof.
  destruct (hexdigest_shape raw) as [Hlen Hhex].
  unfold _calculate_checksum. rewrite string_length_list, substring_firstn.
  split.
  - rewrite length_firstn, Hlen. reflexivity.
  - rewrite <- (firstn_skipn 8) in Hhex. now apply Forall_app in Hhex.
Qed.

(** C8, as amended: a file whose bytes are not UTF-8 gets the binary-skip
    marker as its whole content block when its suffix is neither [.py]
    nor [.xml]; with one of those two suffixes its section carries an
    [ERROR] line and no content block.  In both cases none of its bytes
    are written, and its record joins the index with a checksum of eight
    hexadecimal characters, the head of the MD5 digest of the bytes. *)
Theorem C8_undecodable_file (self : extractor) (f : file_item) (raw : string) :
  fi_data f = inl raw ->
  Utf8.decode raw = None ->
  (suffix (fi_name f) <> ".py" -> suffix (fi_name f) <> ".xml" ->
   fst (_write_file_content self f)
   = app (section_header f) [BINARY_MARKER; separator])
  /\ (suffix (fi_name f) = ".py" \/ suffix (fi_name f) = ".xml" ->
      fst (_write_file_content self f)
      = app (section_header f)
            ["ERROR: 无法读取文件 - " ++ decode_error raw ++ Text.nl; separator])
  /\ file_index (snd (_write_file_content self f))
     = app (file_index self) [record_of f]
  /\ rec_checksum (record_of f) = String.substring 0 8 (MD5.hexdigest raw)
  /\ String.length (rec_checksum (record_of f)) = 8%nat
  /\ Forall (fun c => MD5.is_hex c = true)
            (list_ascii_of_string (rec_checksum (record_of f))).
Proof.
  intros Hdata Hdec.
  unfold _write_file_content, render_section, render_body. cbn [fst snd file_index].
  unfold _write_python_file, _write_xml_file, _write_generic_file, read_text.
  rewrite Hdata, Hdec.
  split.
  { intros Hpy Hxml.
    destruct (String.eqb_spec (suffix (fi_name f)) ".py"); [contradiction|].
    destruct (String.eqb_spec (suffix (fi_name f)) ".xml"); [contradiction|].
    reflexivity. }
  split.
  { intros [H|H]; rewrite H; reflexivity. }
  split; [reflexivity|].
  unfold record_of. cbn [rec_checksum]. rewrite Hdata.
  split; [reflexivity|]. apply checksum_shape.
Qed.

(** ** The order of names *)

Lemma ascii_compare_lt_trans (a b c : ascii) :
  Ascii.compare a b = Lt -> Ascii.compare b c = Lt -> Ascii.compare a c = Lt.
Proof.
  unfold Ascii.compare. rewrite !N.compare_lt_iff. apply N.lt_trans.
Qed.

Lemma string_compare_lt_trans (a : string) :
  forall b c, String.compare a b = Lt -> String.compare b c = Lt -> String.compare a c = Lt.
Proof.
  induction a as [|x a IH]; intros [|y b] [|z c]; simpl; try discriminate; try reflexivity.
  destruct (Ascii.compare x y) eqn:Hxy; try discriminate;
    destruct (Ascii.compare y z) eqn:Hyz; try discriminate; intros Hab Hbc.
  - apply Ascii.compare_eq_iff in Hxy, Hyz. subst.
    assert (Hzz : Ascii.compare z z = Eq).
    { unfold Ascii.compare. apply N.compare_refl. }
    rewrite Hzz. now apply (IH b c).
  - apply Ascii.compare_eq_iff in Hxy. subst. now rewrite Hyz.
  - apply Ascii.compare_eq_iff in Hyz. subst. now rewrite Hxy.
  - now rewrite (ascii_compare_lt_trans x y z Hxy Hyz).
Qed.

Lemma string_ltb_asym (a b : string) : String.ltb a b = true -> String.ltb b a = false.
Proof.
  unfold String.ltb. rewrite (String.compare_antisym b a).
  destruct (String.compare a b); simpl; congruence.
Qed.

Lemma string_ltb_antisym (a b : string) :
  String.ltb a b = false -> String.ltb b a = false -> a = b.
Proof.
  unfold String.ltb. rewrite (String.compare_antisym b a).
  destruct (String.compare a b) eqn:Hab; simpl; try discriminate.
  intros _ _. now apply String.compare_eq_iff.
Qed.

Lemma string_ltb_negtrans (x y z : string) :
  String.ltb y x = false -> String.ltb z y = false -> String.ltb z x = false.
Proof.
  intros Hyx Hzy. destruct (String.ltb z x) eqn:Hzx; [|reflexivity].
  exfalso. unfold String.ltb in *.
  destruct (String.compare z x) eqn:Czx; try discriminate.
  destruct (String.compare y x) eqn:Cyx; try discriminate.
  - apply String.compare_eq_iff in Cyx. subst y. now rewrite Czx in Hzy.
  - destruct (String.compare z y) eqn:Czy; try discriminate.
    + apply String.compare_eq_iff in Czy. subst z. congruence.
    + rewrite String.compare_antisym in Cyx, Czy.
      destruct (String.compare x y) eqn:Cxy; try discriminate.
      destruct (String.compare y z) eqn:Cyz; try discriminate.
      pose proof (string_compare_lt_trans _ _ _ Czx Cxy) as Hzy'.
      rewrite String.compare_antisym, Cyz in Hzy'. discriminate.
Qed.

Lemma path_lt_asym (a b : entry) : path_lt a b = true -> path_lt b a = false.
Proof. apply string_ltb_asym. Qed.

Lemma path_lt_negtrans (x y z : entry) :
  path_lt y x = false -> path_lt z y = false -> path_lt z x = false.
Proof. apply string_ltb_negtrans. Qed.

Lemma sorted_entries_perm (l : list entry) : Permutation l (sorted_entries l).
Proof. apply stable_sort_perm. Qed.

Lemma sorted_entries_sorted (l : list entry) :
  StronglySorted (fun a b => path_lt b a = false) (sorted_entries l).
Proof. apply stable_sort_sorted; [apply path_lt_asym|apply path_lt_negtrans]. Qed.

Lemma nodup_map_injective {A B : Type} (f : A -> B) (l : list A) (a b : A) :
  NoDup (map f l) -> In a l -> In b l -> f a = f b -> a = b.
Proof.
  induction l as [|x l IH]; intros Hnd Ha Hb Hf; [contradiction|].
  simpl in Hnd. inversion_clear Hnd as [|? ? Hx Hl].
  destruct Ha as [->|Ha], Hb as [->|Hb].
  - reflexivity.
  - exfalso. apply Hx. rewrite Hf. now apply in_map.
  - exfalso. apply Hx. rewrite <- Hf. now apply in_map.
  - now apply IH.
Qed.

(** Two listings of one directory sort to the same list. *)
Lemma sorted_listing_unique (l1 : list entry) :
  forall l2,
    StronglySorted (fun a b => path_lt b a = false) l1 ->
    StronglySorted (fun a b => path_lt b a = false) l2 ->
    Permutation l1 l2 ->
    NoDup (map entry_name l1) ->
    l1 = l2.
Proof.
  induction l1 as [|x l1 IH]; intros l2 Hs1 Hs2 Hperm Hnd.
  - now apply Permutation_nil in Hperm.
  - destruct l2 as [|y l2]; [apply Permutation_sym, Permutation_nil in Hperm; discriminate|].
    assert (Hxy : x = y).
    { assert (Hx : In x (y :: l2)) by (apply (Permutation_in _ Hperm); now left).
      assert (Hy : In y (x :: l1))
        by (apply (Permutation_in _ (Permutation_sym Hperm)); now left).
      destruct Hx as [Hx|Hx]; [now symmetry|].
      destruct Hy as [Hy|Hy]; [exact Hy|].
      inversion_clear Hs1 as [|? ? _ Hall1]. inversion_clear Hs2 as [|? ? _ Hall2].
      rewrite Forall_forall in Hall1, Hall2.
      apply (nodup_map_injective entry_name (x :: l1)); [exact Hnd|now left|now right|].
      apply string_ltb_antisym; [exact (Hall2 x Hx)|exact (Hall1 y Hy)]. }
    subst y. f_equal.
    inversion_clear Hs1. inversion_clear Hs2. inversion_clear Hnd.
    apply IH; try assumption. now apply Permutation_cons_inv in Hperm.
Qed.

Lemma sorted_entries_of_perm (l1 l2 : list entry) :
  Permutation l1 l2 -> NoDup (map entry_name l1) ->
  sorted_entries l1 = sorted_entries l2.
Proof.
  intros Hperm Hnd.
  apply sorted_listing_unique; try apply sorted_entries_sorted.
  - eapply perm_trans; [apply Permutation_sym, sorted_entries_perm|].
    eapply perm_trans; [exact Hperm|apply sorted_entries_perm].
  - apply (Permutation_NoDup (l := map entry_name l1)); [|exact Hnd].
    apply Permutation_map, sorted_entries_perm.
Qed.

(** ** Two runs over one tree *)

Lemma same_entry_name (a b : entry) : same_entry a b -> entry_name a = entry_name b.
Proof. now destruct 1. Qed.

Lemma same_entry_is_file (a b : entry) : same_entry a b -> is_file a = is_file b.
Proof. now destruct 1. Qed.

Lemma same_entry_exclude (a b : entry) :
  same_entry a b -> _should_exclude a = _should_exclude b.
Proof.
  intros H. unfold _should_exclude.
  now rewrite (same_entry_name _ _ H), (same_entry_is_file _ _ H).
Qed.

Lemma same_entries_names (l1 l2 : list entry) :
  Forall2 same_entry l1 l2 -> map entry_name l1 = map entry_name l2.
Proof.
  induction 1 as [|a b l1 l2 Hab _ IH]; simpl; [reflexivity|].
  now rewrite (same_entry_name _ _ Hab), IH.
Qed.

Lemma insert_sorted_same (x y : entry) (l1 l2 : list entry) :
  same_entry x y -> Forall2 same_entry l1 l2 ->
  Forall2 same_entry (insert_sorted path_lt x l1) (insert_sorted path_lt y l2).
Proof.
  intros Hxy. induction 1 as [|a b l1 l2 Hab Hl IH]; simpl.
  - now repeat constructor.
  - unfold path_lt at 1 3.
    rewrite (same_entry_name _ _ Hxy), (same_entry_name _ _ Hab).
    destruct (String.ltb (entry_name b) (entry_name y)).
    + now constructor.
    + constructor; [exact Hxy|now constructor].
Qed.

Lemma sorted_entries_same (l1 l2 : list entry) :
  Forall2 same_entry l1 l2 ->
  Forall2 same_entry (sorted_entries l1) (sorted_entries l2).
Proof.
  induction 1 as [|a b l1 l2 Hab _ IH]; simpl; [constructor|].
  now apply insert_sorted_same.
Qed.

(** The sorted listings of the two snapshots of a directory agree entry
    by entry. *)
Lemma sorted_snapshots_same (children1 children2 reordered : list entry) :
  Permutation reordered children2 ->
  Forall2 same_entry children1 reordered ->
  NoDup (map entry_name children1) ->
  Forall2 same_entry (sorted_entries children1) (sorted_entries children2).
Proof.
  intros Hperm Hsame Hnd.
  rewrite <- (sorted_entries_of_perm reordered children2 Hperm).
  - now apply sorted_entries_same.
  - now rewrite <- (same_entries_names _ _ Hsame).
Qed.

Lemma walk_loop_same walk path (l1 l2 : list entry) :
  Forall2 same_entry l1 l2 ->
  Forall distinct_names l1 ->
  (forall name sub1 sub2 p,
      same_entry (Dir name sub1) (Dir name sub2) ->
      distinct_names (Dir name sub1) ->
      walk p sub1 = walk p sub2) ->
  walk_loop walk path l1 = walk_loop walk path l2.
Proof.
  intros Hsame Hdist Hwalk.
  induction Hsame as [|a b l1 l2 Hab _ IH]; [reflexivity|].
  inversion_clear Hdist as [|? ? Ha Hl1]. specialize (IH Hl1).
  cbn [walk_loop]. rewrite (same_entry_exclude _ _ Hab), IH.
  destruct (_should_exclude b); [reflexivity|].
  destruct Hab as [name size data|name|name c1 c2 r Hperm Hforall].
  - reflexivity.
  - reflexivity.
  - rewrite (Hwalk name (Some c1) (Some c2) (path ++ [name])%list); [reflexivity| |exact Ha].
    now apply (same_dir name c1 c2 r).
Qed.

Lemma walk_directory_same (fuel : nat) :
  forall path name listing1 listing2,
    same_entry (Dir name listing1) (Dir name listing2) ->
    distinct_names (Dir name listing1) ->
    _walk_directory fuel path listing1 = _walk_directory fuel path listing2.
Proof.
  induction fuel as [|fuel IH]; intros path name listing1 listing2 Hsame Hdist;
    [reflexivity|].
  inversion Hsame as [| |n c1 c2 r Hperm Hforall]; subst; [reflexivity|].
  inversion_clear Hdist as [| |? ? Hnd Hall].
  cbn [_walk_directory].
  apply walk_loop_same.
  - now apply (sorted_snapshots_same c1 c2 r).
  - apply (Permutation_Forall (sorted_entries_perm c1) Hall).
  - intros n sub1 sub2 p Hs Hd. now apply (IH p n).
Qed.

Lemma walk_module_same name listing1 listing2 :
  same_entry (Dir name listing1) (Dir name listing2) ->
  distinct_names (Dir name listing1) ->
  walk_module listing1 = walk_module listing2.
Proof.
  intros Hsame Hdist.
  set (fuel := Nat.max (entry_depth (Dir "" listing1)) (entry_depth (Dir "" listing2))).
  pose proof (walk_module_spec listing1 fuel (Nat.le_max_l _ _)) as H1.
  pose proof (walk_module_spec listing2 fuel (Nat.le_max_r _ _)) as H2.
  rewrite (walk_directory_same fuel [] name listing1 listing2 Hsame Hdist) in H1.
  congruence.
Qed.

Lemma find_name_same (k : string) (l1 l2 : list entry) :
  Forall2 same_entry l1 l2 ->
  match find (fun e => entry_name e =? k) l1, find (fun e => entry_name e =? k) l2 with
  | Some a, Some b => same_entry a b
  | None, None => True
  | _, _ => False
  end.
Proof.
  induction 1 as [|a b l1 l2 Hab _ IH]; simpl; [exact I|].
  rewrite (same_entry_name _ _ Hab).
  destruct (entry_name b =? k); [exact Hab|exact IH].
Qed.

Lemma find_name_perm (k : string) (l1 l2 : list entry) :
  Permutation l1 l2 -> NoDup (map entry_name l1) ->
  find (fun e => entry_name e =? k) l1 = find (fun e => entry_name e =? k) l2.
Proof.
  intros Hperm Hnd.
  destruct (find _ l1) as [a|] eqn:H1; destruct (find _ l2) as [b|] eqn:H2.
  - apply find_some in H1, H2. destruct H1 as [Ha Hka], H2 as [Hb Hkb].
    apply String.eqb_eq in Hka, Hkb. f_equal.
    apply (nodup_map_injective entry_name l1); try assumption; [|congruence].
    now apply (Permutation_in _ (Permutation_sym Hperm)).
  - apply find_some in H1. destruct H1 as [Ha Hka].
    apply (Permutation_in _ Hperm) in Ha.
    now rewrite (find_none _ _ H2 a Ha) in Hka.
  - apply find_some in H2. destruct H2 as [Hb Hkb].
    apply (Permutation_in _ (Permutation_sym Hperm)) in Hb.
    now rewrite (find_none _ _ H1 b Hb) in Hkb.
  - reflexivity.
Qed.

Lemma extract_manifest_same (self : extractor) name listing1 listing2 :
  same_entry (Dir name listing1) (Dir name listing2) ->
  distinct_names (Dir name listing1) ->
  _extract_manifest self listing1 = _extract_manifest self listing2.
Proof.
  intros Hsame Hdist.
  inversion Hsame as [| |n c1 c2 r Hperm Hforall]; subst; [reflexivity|].
  inversion_clear Hdist as [| |? ? Hnd Hall].
  unfold _extract_manifest.
  rewrite <- (find_name_perm "__manifest__.py" r c2 Hperm)
    by now rewrite <- (same_entries_names _ _ Hforall).
  pose proof (find_name_same "__manifest__.py" c1 r Hforall) as Hfind.
  destruct (find _ c1) as [a|]; destruct (find _ r) as [b|]; try contradiction;
    [|reflexivity].
  destruct Hfind; reflexivity.
Qed.

(** ** The bytes of the text artifacts *)

Lemma append_nil_r (s : string) : s ++ "" = s.
Proof. induction s as [|c s IH]; simpl; [reflexivity|now rewrite IH]. Qed.

Lemma file_bytes_cons (chunk : string) (chunks : list string) :
  file_bytes (chunk :: chunks) = chunk ++ file_bytes chunks.
Proof.
  unfold file_bytes. destruct chunks; simpl; [now rewrite append_nil_r|reflexivity].
Qed.

Lemma structure_bytes (self : extractor) listing now :
  file_bytes (_generate_tree_structure self listing now)
  = stamped ("# " ++ module_name self ++ " 目录结构" ++ Text.nl ++ "# 生成时间: ")
            now
            (Text.nl ++ Text.nl ++ file_bytes (map tree_line (walk_module listing))).
Proof.
  unfold _generate_tree_structure, stamped. rewrite !file_bytes_cons.
  now rewrite !append_assoc.
Qed.

Lemma content_bytes (self : extractor) now count (sections : list string) :
  file_bytes (app (content_header self now count) sections)
  = stamped ("# " ++ module_name self ++ " 模块代码内容" ++ Text.nl ++ "# 生成时间: ")
            now
            (Text.nl ++ "# 文件总数: " ++ Text.dec (N.of_nat count) ++ Text.nl ++ Text.nl
               ++ file_bytes sections).
Proof.
  unfold content_header, stamped. cbn [app]. rewrite !file_bytes_cons.
  now rewrite !append_assoc.
Qed.

(** C9: take two snapshots of one module tree, with the same entries and
    contents and each directory listed in whatever order the host gives.
    If a run on the first completes, a run on the second completes, and
    the structure listing and the content bundle of the two runs are the
    same bytes around their time stamps. *)
Theorem C9_rerun_identical name listing1 listing2 :
  same_entry (Dir name listing1) (Dir name listing2) ->
  distinct_names (Dir name listing1) ->
  exists structure_head structure_tail content_head content_tail,
  forall now1 now2 o1,
    extract name listing1 now1 = Some o1 ->
    exists o2,
      extract name listing2 now2 = Some o2
      /\ file_bytes (structure_txt o1)
         = stamped structure_head (structure_time now1) structure_tail
      /\ file_bytes (structure_txt o2)
         = stamped structure_head (structure_time now2) structure_tail
      /\ file_bytes (content_txt o1)
         = stamped content_head (content_time now1) content_tail
      /\ file_bytes (content_txt o2)
         = stamped content_head (content_time now2) content_tail.
Proof.
  intros Hsame Hdist.
  pose proof (walk_module_same _ _ _ Hsame Hdist) as Hwalk.
  pose proof (extract_manifest_same (new_extractor name) _ _ _ Hsame Hdist) as Hman.
  destruct (extract_manifest_fields (new_extractor name) listing1) as [Hname _].
  cbn [new_extractor module_name] in Hname.
  do 4 eexists. intros now1 now2 o1 Hrun1.
  destruct (extract_inv _ _ _ _ Hrun1) as [Hs1 [Hc1 [Hsum1 _]]].
  assert (Hrun2 : exists o2, extract name listing2 now2 = Some o2).
  { unfold extract, _extract_files. cbv zeta. rewrite write_files_spec.
    rewrite <- Hman, <- Hwalk.
    destruct (extract_manifest_fields (new_extractor name) listing1) as [Hn [Hi Ht]].
    cbn [new_extractor module_name file_index total_size] in Hn, Hi, Ht.
    rewrite Hn, Hi, Ht. cbn [app N.add].
    unfold _generate_summary in Hsum1 |- *. cbn [module_info] in Hsum1 |- *.
    destruct (module_info _) as [| | | | | | | | | | |d]; try discriminate.
    destruct (json_serializable (PyDict d)); [|discriminate]. eauto. }
  destruct Hrun2 as [o2 Hrun2]. exists o2. split; [exact Hrun2|].
  destruct (extract_inv _ _ _ _ Hrun2) as [Hs2 [Hc2 _]].
  rewrite Hs1, Hs2, Hc1, Hc2, !structure_bytes, !content_bytes.
  rewrite <- Hman, <- Hwalk, Hname.
  repeat split; reflexivity.
Qed.

(** * Further properties of the extractor *)

(** ** The filter and file names *)

Lemma substring_all (s : string) : String.substring 0 (String.length s) s = s.
Proof. induction s as [|c s IH]; simpl; [reflexivity|now rewrite IH]. Qed.

Lemma substring_split (s : string) :
  forall i, (i <= String.length s)%nat ->
            s = String.substring 0 i s ++ String.substring i (String.length s - i) s.
Proof.
  induction s as [|c s IH]; intros [|i] Hi; simpl in *; try reflexivity; try lia.
  - now rewrite substring_all.
  - f_equal. apply IH. lia.
Qed.

Lemma substring_prefix_length (s : string) :
  forall i, (i <= String.length s)%nat -> String.length (String.substring 0 i s) = i.
Proof.
  induction s as [|c s IH]; intros [|i] Hi; simpl in *; try reflexivity; try lia.
  rewrite IH; lia.
Qed.

Lemma substring_after (a b : string) (m : nat) :
  String.substring (String.length a) m (a ++ b) = String.substring 0 m b.
Proof.
  induction a as [|c a IH]; simpl; [reflexivity|].
  destruct m; exact IH.
Qed.

Lemma append_length (a b : string) :
  String.length (a ++ b) = (String.length a + String.length b)%nat.
Proof. induction a as [|c a IH]; simpl; [reflexivity|now rewrite IH]. Qed.

Lemma rfind_dot_bound (s : string) (i : nat) :
  Text.rfind_dot s = Some i -> (i < String.length s)%nat.
Proof.
  revert i. induction s as [|c s IH]; intros i; [discriminate|].
  cbn [Text.rfind_dot String.length].
  destruct (Text.rfind_dot s) as [j|].
  - intros [= <-]. specialize (IH j eq_refl). lia.
  - destruct (Ascii.eqb c "."); [intros [= <-]; lia|discriminate].
Qed.

Lemma rfind_dot_none (s : string) :
  Text.contains_char "." s = false -> Text.rfind_dot s = None.
Proof.
  induction s as [|c s IH]; [reflexivity|].
  cbn [Text.contains_char Text.rfind_dot].
  intros H. apply orb_false_iff in H. destruct H as [Hc Hs].
  rewrite (IH Hs). rewrite Ascii.eqb_sym in Hc. now rewrite Hc.
Qed.

Lemma rfind_dot_app (a b : string) (j : nat) :
  Text.rfind_dot b = Some j ->
  Text.rfind_dot (a ++ b) = Some (String.length a + j)%nat.
Proof.
  intros Hb. induction a as [|c a IH]; [exact Hb|].
  cbn [String.append Text.rfind_dot String.length Nat.add]. now rewrite IH.
Qed.

(** A name that ends in a dot-free extension has that extension as its
    suffix, provided something precedes it. *)
Lemma suffix_of_extension (stem rest : string) :
  stem <> "" -> rest <> "" -> Text.contains_char "." rest = false ->
  suffix (stem ++ String "." rest) = String "." rest.
Proof.
  intros Hstem Hrest Hdot. unfold suffix.
  assert (Hext : Text.rfind_dot (String "." rest) = Some O).
  { cbn [Text.rfind_dot]. now rewrite (rfind_dot_none rest Hdot). }
  rewrite (rfind_dot_app stem _ _ Hext), Nat.add_0_r.
  rewrite append_length. cbn [String.length].
  assert (0 < String.length stem)%nat by (destruct stem; [congruence|simpl; lia]).
  assert (0 < String.length rest)%nat by (destruct rest; [congruence|simpl; lia]).
  replace (0 <? String.length stem)%nat with true by (symmetry; apply Nat.ltb_lt; lia).
  replace (String.length stem <? String.length stem + S (String.length rest) - 1)%nat
    with true by (symmetry; apply Nat.ltb_lt; lia).
  cbn [andb]. rewrite substring_after.
  replace (String.length stem + S (String.length rest) - String.length stem)%nat
    with (String.length (String "." rest)) by (simpl; lia).
  apply substring_all.
Qed.

(** A non-empty suffix is the end of the name, after a non-empty stem. *)
Lemma suffix_splits_name (name : string) :
  suffix name <> "" -> exists stem, name = stem ++ suffix name /\ stem <> "".
Proof.
  unfold suffix. destruct (Text.rfind_dot name) as [i|] eqn:Hi; [|congruence].
  destruct ((0 <? i)%nat && (i <? String.length name - 1)%nat) eqn:Hrange; [|congruence].
  intros _. apply andb_true_iff in Hrange. destruct Hrange as [Hpos Hlt].
  apply Nat.ltb_lt in Hpos, Hlt.
  exists (String.substring 0 i name). split.
  - apply substring_split. lia.
  - intros Hempty.
    pose proof (substring_prefix_length name i ltac:(lia)) as Hlen.
    rewrite Hempty in Hlen. simpl in Hlen. lia.
Qed.

(** X1: the filter keeps a file exactly when its name matches no exclusion
    pattern and ends, after a non-empty stem, in one of the allowed
    extensions; it judges a directory by its name alone. *)
Theorem X1_filter_keeps (name : string) :
  (forall size data,
      _should_exclude (File name size data) = false
      <-> name_excluded name = false
          /\ exists stem ext,
              name = stem ++ ext /\ stem <> "" /\ In ext INCLUDE_EXTENSIONS)
  /\ (forall listing, _should_exclude (Dir name listing) = name_excluded name).
Proof using.
  split.
  - intros size data. unfold _should_exclude. cbn [entry_name is_file].
    destruct (name_excluded name); [split; [discriminate|intros [H _]; discriminate]|].
    destruct (existsb (String.eqb (suffix name)) INCLUDE_EXTENSIONS) eqn:Hallowed; cbn [negb].
    + split; [intros _|reflexivity]. split; [reflexivity|].
      apply existsb_exists in Hallowed. destruct Hallowed as [ext [Hin Heq]].
      apply String.eqb_eq in Heq.
      destruct (suffix_splits_name name) as [stem [Hname Hstem]].
      { rewrite Heq. intros ->. simpl in Hin.
        repeat (destruct Hin as [Hin'|Hin]; [discriminate Hin'|]). exact Hin. }
      exists stem, ext. rewrite <- Heq. now repeat split; [| |rewrite Heq].
    + split; [discriminate|]. intros [_ [stem [ext [-> [Hstem Hin]]]]]. exfalso.
      assert (Hsuffix : suffix (stem ++ ext) = ext).
      { simpl in Hin.
        repeat (destruct Hin as [<-|Hin];
                [apply suffix_of_extension; [exact Hstem|discriminate|reflexivity]|]).
        contradiction. }
      rewrite Hsuffix in Hallowed.
      assert (Hex : existsb (String.eqb ext) INCLUDE_EXTENSIONS = true).
      { apply existsb_exists. exists ext. split; [exact Hin|apply String.eqb_refl]. }
      congruence.
  - intros listing. unfold _should_exclude. cbn [entry_name is_file].
    now destruct (name_excluded name).
Qed.

(** ** What the walker returns *)

Lemma should_exclude_kept (e : entry) :
  _should_exclude e = false
  <-> name_excluded (entry_name e) = false
      /\ (is_file e = true -> In (suffix (entry_name e)) INCLUDE_EXTENSIONS).
Proof.
  unfold _should_exclude.
  destruct (name_excluded (entry_name e)); [split; [discriminate|intros [H _]; discriminate]|].
  destruct (is_file e).
  - destruct (existsb (String.eqb (suffix (entry_name e))) INCLUDE_EXTENSIONS) eqn:Hallowed;
      cbn [negb].
    + split; [intros _|reflexivity]. split; [reflexivity|]. intros _.
      apply existsb_exists in Hallowed. destruct Hallowed as [ext [Hin Heq]].
      apply String.eqb_eq in Heq. now rewrite Heq.
    + split; [discriminate|]. intros [_ Hin]. specialize (Hin eq_refl).
      assert (Hex : existsb (String.eqb (suffix (entry_name e))) INCLUDE_EXTENSIONS = true).
      { apply existsb_exists. eexists. split; [exact Hin|apply String.eqb_refl]. }
      congruence.
  - split; [intros _; split; [reflexivity|discriminate]|reflexivity].
Qed.

Lemma walk_loop_items walk pfx todo items :
  (forall p l r, walk p l = Some r ->
                 forall it, In it r
                            <-> exists path e,
                                reachable l path e /\ it = item_of (p ++ path) e /\ kept path e) ->
  walk_loop walk pfx todo = Some items ->
  forall it,
    In it items
    <-> exists e,
        In e todo /\ _should_exclude e = false
        /\ (it = item_of (pfx ++ [entry_name e]) e
            \/ exists name sub path e',
                e = Dir name sub /\ reachable sub path e'
                /\ it = item_of ((pfx ++ [name]) ++ path) e' /\ kept path e').
Proof.
  intros Hwalk. revert items.
  induction todo as [|e todo IH]; intros items Hloop it; simpl in Hloop.
  - injection Hloop as <-. split; [intros []|intros [e [[] _]]].
  - destruct (_should_exclude e) eqn:Hex.
    + rewrite (IH items Hloop it). split.
      * intros [e0 [Hin H]]. exists e0. split; [now right|exact H].
      * intros [e0 [[<-|Hin] [Hkeep H]]]; [congruence|]. exists e0. now split.
    + destruct e as [name size data|name sub].
      * destruct (walk_loop walk pfx todo) as [rest|]; [|discriminate].
        injection Hloop as <-. specialize (IH rest eq_refl it). split.
        -- intros [<-|Hin].
           ++ eexists. split; [now left|]. split; [exact Hex|]. now left.
           ++ apply IH in Hin. destruct Hin as [e0 [Hin H]].
              exists e0. split; [now right|exact H].
        -- intros [e0 [[<-|Hin] [Hkeep H]]].
           ++ destruct H as [->|[n [s [p [e' [Habs _]]]]]]; [now left|discriminate].
           ++ right. apply IH. exists e0. now split.
      * destruct (walk _ sub) as [below|] eqn:Hsub; [|discriminate].
        destruct (walk_loop walk pfx todo) as [rest|]; [|discriminate].
        injection Hloop as <-. specialize (IH rest eq_refl it).
        pose proof (Hwalk _ _ _ Hsub it) as Hbelow. split.
        -- intros [<-|Hin].
           ++ eexists. split; [now left|]. split; [exact Hex|]. now left.
           ++ apply in_app_or in Hin. destruct Hin as [Hin|Hin].
              ** apply Hbelow in Hin. destruct Hin as [path [e' [Hr [Hit Hk]]]].
                 eexists. split; [now left|]. split; [exact Hex|].
                 right. exists name, sub, path, e'.
                 split; [reflexivity|]. split; [exact Hr|]. split; [exact Hit|exact Hk].
              ** apply IH in Hin. destruct Hin as [e0 [Hin H]].
                 exists e0. split; [now right|exact H].
        -- intros [e0 [[<-|Hin] [Hkeep H]]].
           ++ destruct H as [->|[n [s [p [e' [Heq [Hr [Hit Hk]]]]]]]]; [now left|].
              injection Heq as <- <-. right. apply in_or_app. left.
              apply Hbelow. exists p, e'. split; [exact Hr|]. split; [exact Hit|exact Hk].
           ++ right. apply in_or_app. right. apply IH. exists e0. now split.
Qed.

Lemma walk_directory_items fuel :
  forall pfx listing items,
    _walk_directory fuel pfx listing = Some items ->
    forall it,
      In it items
      <-> exists path e,
          reachable listing path e /\ it = item_of (pfx ++ path) e /\ kept path e.
Proof.
  induction fuel as [|fuel IH]; intros pfx listing items Hw it; [discriminate|].
  simpl in Hw. destruct listing as [children|].
  - rewrite (walk_loop_items _ _ _ _ (IH) Hw it). split.
    + intros [e [Hin [Hex H]]].
      apply (Permutation_in _ (Permutation_sym (sorted_entries_perm children))) in Hin.
      apply should_exclude_kept in Hex. destruct Hex as [Hname Hfile].
      destruct H as [->|[name [sub [path [e' [-> [Hr [-> [Hpath Hfile']]]]]]]]].
      * exists [entry_name e], e. split; [now apply reach_child|]. split; [reflexivity|].
        split; [now repeat constructor|exact Hfile].
      * exists (name :: path), e'. split; [now apply (reach_below _ name sub)|].
        split; [now rewrite <- app_assoc|]. split; [now constructor|exact Hfile'].
    + intros [path [e [Hr [-> [Hpath Hfile]]]]].
      inversion Hr as [cs e0 Hin|cs name sub path' e0 Hin Hsub]; subst.
      * exists e. split; [now apply (Permutation_in _ (sorted_entries_perm children))|].
        inversion_clear Hpath as [|? ? Hname _].
        split; [apply should_exclude_kept; now split|]. now left.
      * exists (Dir name sub).
        split; [now apply (Permutation_in _ (sorted_entries_perm children))|].
        inversion_clear Hpath as [|? ? Hname Hrest].
        split; [apply should_exclude_kept; split; [exact Hname|discriminate]|].
        right. exists name, sub, path', e. split; [reflexivity|]. split; [exact Hsub|].
        split; [now rewrite <- app_assoc|now split].
  - injection Hw as <-. split; [intros []|].
    intros [path [e [Hr _]]]. inversion Hr.
Qed.

Lemma walk_module_items (listing : option (list entry)) (it : item) :
  In it (walk_module listing)
  <-> exists path e, reachable listing path e /\ it = item_of path e /\ kept path e.
Proof.
  apply (walk_directory_items (entry_depth (Dir "" listing)) [] listing (walk_module listing)).
  apply walk_module_spec. apply Nat.le_refl.
Qed.

(** X2: the walk holds exactly the entries of the tree that the filter
    lets through on every level: an item is returned if and only if it is
    the item of an entry reachable along names that are not excluded, with
    an allowed extension when the entry is a file.  A directory that cannot
    be listed is itself returned and hides what it holds. *)
Theorem X2_walk_exact (listing : option (list entry)) (it : item) :
  In it (walk_module listing)
  <-> exists path e, reachable listing path e /\ it = item_of path e /\ kept path e.
Proof.
  apply (walk_directory_items (entry_depth (Dir "" listing)) [] listing (walk_module listing)).
  apply walk_module_spec. apply Nat.le_refl.
Qed.

(** ** The order of the walk *)

Lemma split_cons_app {A : Type} (x : A) (l before after : list A) (y : A) :
  x :: l = (before ++ y :: after)%list ->
  (before = [] /\ x = y /\ l = after)
  \/ exists before', before = x :: before' /\ l = (before' ++ y :: after)%list.
Proof.
  destruct before as [|b before]; simpl; intros [= -> ->]; [now left|].
  right. now exists before.
Qed.

Lemma split_app_app {A : Type} (l1 l2 before after : list A) (y : A) :
  (l1 ++ l2)%list = (before ++ y :: after)%list ->
  (exists rest, l1 = (before ++ y :: rest)%list /\ after = (rest ++ l2)%list)
  \/ (exists before', before = (l1 ++ before')%list /\ l2 = (before' ++ y :: after)%list).
Proof.
  revert before. induction l1 as [|x l1 IH]; intros before H; simpl in H.
  - right. now exists before.
  - destruct before as [|b before]; simpl in H; injection H as -> H.
    + left. now exists l1.
    + destruct (IH before H) as [[rest [-> ->]]|[before' [-> ->]]].
      * left. now exists rest.
      * right. now exists before'.
Qed.

Lemma last_component (pfx dirs : list string) (name n : string) :
  (pfx ++ [n])%list = (pfx ++ dirs ++ [name])%list -> dirs = [].
Proof.
  intros H. apply app_inv_head in H.
  destruct dirs as [|d [|d' dirs]]; [reflexivity|discriminate|discriminate].
Qed.

Lemma walk_loop_parents_first walk pfx todo items :
  (forall p l r, walk p l = Some r -> parents_first p r /\ below_unfiltered p r) ->
  walk_loop walk pfx todo = Some items ->
  parents_first pfx items.
Proof.
  intros Hwalk. revert items.
  induction todo as [|e todo IH]; intros items Hloop; simpl in Hloop.
  - injection Hloop as <-. intros [|b before] it after H; discriminate.
  - destruct (_should_exclude e); [now apply IH|].
    destruct e as [name size data|name sub].
    + destruct (walk_loop walk pfx todo) as [rest|]; [|discriminate].
      injection Hloop as <-. specialize (IH rest eq_refl).
      intros before it after Hsplit dirs n Hpath Hdirs.
      apply split_cons_app in Hsplit.
      destruct Hsplit as [[-> [<- _]]|[before' [-> Hrest]]].
      * simpl in Hpath. now apply last_component in Hpath.
      * destruct (IH _ _ _ Hrest dirs n Hpath Hdirs) as [dn Hin].
        exists dn. now right.
    + destruct (walk _ sub) as [below|] eqn:Hsub; [|discriminate].
      destruct (walk_loop walk pfx todo) as [rest|]; [|discriminate].
      injection Hloop as <-. specialize (IH rest eq_refl).
      destruct (Hwalk _ _ _ Hsub) as [Hfirst Hbelow].
      intros before it after Hsplit dirs n Hpath Hdirs.
      apply split_cons_app in Hsplit.
      destruct Hsplit as [[-> [<- _]]|[before' [-> Hrest]]].
      * simpl in Hpath. now apply last_component in Hpath.
      * apply split_app_app in Hrest.
        destruct Hrest as [[tail [Hb _]]|[before'' [-> Hr]]].
        -- assert (Hin : In it below) by (rewrite Hb; apply in_elt).
           destruct (Hbelow it Hin) as [rest' [Hit _]].
           rewrite Hpath, <- app_assoc in Hit. apply app_inv_head in Hit.
           destruct dirs as [|d dirs]; [congruence|]. simpl in Hit.
           injection Hit as -> Hrest'.
           destruct dirs as [|d' dirs].
           ++ exists name. now left.
           ++ destruct (Hfirst _ _ _ Hb (d' :: dirs) n) as [dn Hdn].
              { rewrite Hpath, <- app_assoc. reflexivity. }
              { discriminate. }
              exists dn. right. rewrite <- app_assoc in Hdn. exact Hdn.
        -- destruct (IH _ _ _ Hr dirs n Hpath Hdirs) as [dn Hin].
           exists dn. right. apply in_or_app. now right.
Qed.

Lemma walk_directory_parents_first fuel :
  forall pfx listing items,
    _walk_directory fuel pfx listing = Some items -> parents_first pfx items.
Proof.
  induction fuel as [|fuel IH]; intros pfx listing items Hw; [discriminate|].
  simpl in Hw. destruct listing as [children|].
  - apply (walk_loop_parents_first _ _ _ _) in Hw; [exact Hw|].
    intros p l r Hr. split; [now apply (IH p l)|now apply (walk_directory_below fuel p l)].
  - injection Hw as <-. intros [|b before] it after H; discriminate.
Qed.

(** X3: the walk is in pre-order: an item that does not lie directly in
    the module root comes after the item of the directory it lies in. *)
Theorem X3_directory_before_contents (listing : option (list entry))
        (before after : list item) (it : item) (dirs : list string) (name : string) :
  walk_module listing = (before ++ it :: after)%list ->
  item_path it = (dirs ++ [name])%list ->
  dirs <> [] ->
  exists dir_name, In (DirItem dir_name dirs) before.
Proof.
  intros Hsplit Hpath Hdirs.
  exact (walk_directory_parents_first _ [] listing _
           (walk_module_spec listing _ (Nat.le_refl _))
           before it after Hsplit dirs name Hpath Hdirs).
Qed.

(** ** Counting file types *)

Lemma bump_count (ext ext' : string) (type_count : list (string * N)) :
  type_count_of ext' (bump ext type_count)
  = if ext' =? ext then (type_count_of ext' type_count + 1)%N
    else type_count_of ext' type_count.
Proof.
  unfold type_count_of.
  induction type_count as [|[e n] rest IH]; cbn [bump find fst snd].
  - rewrite (String.eqb_sym ext ext'). now destruct (ext' =? ext).
  - destruct (String.eqb_spec e ext) as [->|Hne]; cbn [find fst snd].
    + rewrite (String.eqb_sym ext ext'). now destruct (ext' =? ext).
    + destruct (String.eqb_spec e ext') as [->|Hne'].
      * destruct (String.eqb_spec ext' ext); [congruence|reflexivity].
      * exact IH.
Qed.

Lemma bump_keys (ext : string) (type_count : list (string * N)) (k : string) :
  In k (map fst (bump ext type_count)) <-> k = ext \/ In k (map fst type_count).
Proof using.
  induction type_count as [|[e n] rest IH]; cbn [bump map fst In].
  - split; [intros [H|[]]; left; now symmetry|intros [H|[]]; left; now symmetry].
  - destruct (String.eqb_spec e ext) as [->|Hne]; cbn [map fst In].
    + split; [intros [H|H]; [left; now symmetry|right; now right]|].
      intros [H|[H|H]]; [left; now symmetry|now left|now right].
    + rewrite IH. split.
      * intros [H|[H|H]]; [right; now left|now left|right; now right].
      * intros [H|[H|H]]; [right; now left|now left|right; now right].
Qed.

Lemma bump_nodup (ext : string) (type_count : list (string * N)) :
  NoDup (map fst type_count) -> NoDup (map fst (bump ext type_count)).
Proof.
  induction type_count as [|[e n] rest IH]; cbn [bump map fst]; intros Hnd.
  - repeat constructor. intros [].
  - inversion_clear Hnd as [|? ? Hout Hrest].
    destruct (String.eqb_spec e ext) as [->|Hne]; cbn [map fst].
    + now constructor.
    + constructor; [|now apply IH].
      rewrite bump_keys. intros [->|Hin]; [congruence|contradiction].
Qed.

Lemma bump_total (ext : string) (type_count : list (string * N)) :
  fold_right N.add 0%N (map snd (bump ext type_count))
  = (fold_right N.add 0%N (map snd type_count) + 1)%N.
Proof.
  induction type_count as [|[e n] rest IH]; cbn [bump map snd fold_right]; [lia|].
  destruct (e =? ext); cbn [map snd fold_right]; [lia|]. rewrite IH. lia.
Qed.

Lemma count_loop_spec (records : list FileRecord) :
  forall acc,
    let result := fold_left (fun type_count file => bump (rec_type file) type_count)
                            records acc in
    (NoDup (map fst acc) -> NoDup (map fst result))
    /\ (forall ext, type_count_of ext result
                    = (type_count_of ext acc + records_of_type ext records)%N)
    /\ (forall ext, In ext (map fst result)
                    <-> In ext (map fst acc) \/ In ext (map rec_type records))
    /\ fold_right N.add 0%N (map snd result)
       = (fold_right N.add 0%N (map snd acc) + N.of_nat (List.length records))%N.
Proof using.
  induction records as [|r records IH]; intros acc; cbn zeta.
  - cbn [fold_left]. unfold records_of_type. cbn [filter List.length map In].
    split; [exact (fun H => H)|]. split; [intros ext; lia|].
    split; [|lia]. intros ext. split; [intros H; now left|intros [H|[]]; exact H].
  - cbn [fold_left]. destruct (IH (bump (rec_type r) acc)) as [Hnd [Hcount [Hkeys Htotal]]].
    cbv zeta in Hnd, Hcount, Hkeys, Htotal.
    split; [intros H; now apply Hnd, bump_nodup|].
    split.
    { intros ext. rewrite Hcount, bump_count. unfold records_of_type. cbn [filter].
      rewrite (String.eqb_sym (rec_type r) ext).
      destruct (ext =? rec_type r); cbn [List.length]; lia. }
    split.
    { intros ext. rewrite Hkeys, bump_keys. cbn [map In]. split.
      - intros [[H|H]|H]; [right; left; now symmetry|now left|right; now right].
      - intros [H|[H|H]]; [left; now right|left; left; now symmetry|now right]. }
    rewrite Htotal, bump_total. cbn [List.length]. lia.
Qed.

(** X4: [_count_file_types] has one key per extension that occurs in the
    index and none besides, the count under an extension is the number of
    records of that type, and the counts add up to the number of records. *)
Theorem X4_count_file_types (self : extractor) :
  NoDup (map fst (_count_file_types self))
  /\ (forall ext, type_count_of ext (_count_file_types self)
                  = records_of_type ext (file_index self))
  /\ (forall ext, In ext (map fst (_count_file_types self))
                  <-> In ext (map rec_type (file_index self)))
  /\ fold_right N.add 0%N (map snd (_count_file_types self))
     = N.of_nat (List.length (file_index self)).
Proof using.
  unfold _count_file_types.
  destruct (count_loop_spec (file_index self) []) as [Hnd [Hcount [Hkeys Htotal]]].
  cbv zeta in Hnd, Hcount, Hkeys, Htotal.
  split; [apply Hnd; constructor|]. split; [intros ext; now rewrite Hcount|].
  split; [|rewrite Htotal; cbn; lia].
  intros ext. rewrite Hkeys. cbn [map In]. split; [intros [[]|H]; exact H|now right].
Qed.

(** ** The artifacts of one run agree *)

(** X5: in a completed run the four artifacts carry the same totals: the
    file count in the bundle header, the index's [total_files], the
    summary's [total_files] and the sum of its per-type counts are all the
    number of index records, and the index's [total_size] is the summary's
    [total_size_bytes]; index and summary name the module alike. *)
Theorem X5_totals_agree name listing now o :
  extract name listing now = Some o ->
  let count := List.length (idx_files (index_json o)) in
  idx_total_files (index_json o) = count
  /\ total_files (sum_statistics (summary_json o)) = count
  /\ fold_right N.add 0%N (map snd (file_types (sum_statistics (summary_json o))))
     = N.of_nat count
  /\ nth_error (content_txt o) 2
     = Some ("# 文件总数: " ++ Text.dec (N.of_nat count) ++ Text.nl ++ Text.nl)
  /\ idx_total_size (index_json o) = total_size_bytes (sum_statistics (summary_json o))
  /\ idx_module (index_json o) = name
  /\ sum_module_name (summary_json o) = name.
Proof.
  intros Hrun. destruct (extract_inv _ _ _ _ Hrun) as [_ [Hcontent [Hsum Hindex]]].
  cbv zeta. rewrite Hindex, Hcontent. cbn [_create_index idx_files idx_total_files
                                           idx_total_size idx_module file_index
                                           total_size module_name].
  unfold _generate_summary in Hsum. cbn [module_info file_index total_size module_name] in Hsum.
  destruct (module_info _) as [| | | | | | | | | | |d]; try discriminate.
  destruct (json_serializable (PyDict d)); [|discriminate].
  injection Hsum as <-.
  cbn [sum_statistics total_files total_size_bytes file_types sum_module_name].
  rewrite length_map.
  split; [reflexivity|]. split; [reflexivity|]. split.
  { unfold _count_file_types. cbn [file_index].
    destruct (count_loop_spec
                (map record_of (sort_files (files_of (walk_module listing)))) [])
      as [_ [_ [_ Htotal]]].
    cbv zeta in Htotal. rewrite Htotal, length_map. cbn. lia. }
  now repeat split.
Qed.

Lemma reachable_last (listing : option (list entry)) (path : list string) (e : entry) :
  reachable listing path e -> exists dirs, path = (dirs ++ [entry_name e])%list.
Proof.
  induction 1 as [children e Hin|children name sub path e Hin Hsub [dirs ->]].
  - now exists [].
  - now exists (name :: dirs).
Qed.

(** The line of a walk item: two spaces for each directory above the
    entry, its name, and a slash for a directory or the size for a file. *)
Lemma tree_line_layout (listing : option (list entry)) (it : item) :
  In it (walk_module listing) ->
  exists dirs e,
    reachable listing (dirs ++ [entry_name e])%list e
    /\ it = item_of (dirs ++ [entry_name e])%list e
    /\ tree_line it
       = String.concat "" (repeat "  " (List.length dirs)) ++ entry_name e
           ++ match e with
              | Dir _ _ => "/" ++ Text.nl
              | File _ size _ => " (" ++ format_kb size ++ "KB)" ++ Text.nl
              end.
Proof.
  intros Hin. apply walk_module_items in Hin.
  destruct Hin as [path [e [Hreach [-> _]]]].
  destruct (reachable_last _ _ _ Hreach) as [dirs ->].
  exists dirs, e. split; [exact Hreach|]. split; [reflexivity|].
  unfold tree_line.
  assert (Hlevel : (List.length (item_path (item_of (dirs ++ [entry_name e]) e)) - 1
                    = List.length dirs)%nat).
  { destruct e; cbn [item_of item_path fi_path]; rewrite length_app; simpl; lia. }
  rewrite Hlevel. now destruct e.
Qed.

(** ** The path normaliser *)

Lemma no_double_backslash_pair (a b : ascii) (s : string) :
  no_double_backslash (String a (String b s))
  = negb (Ascii.eqb a Text.backslash && Ascii.eqb b Text.backslash)
    && no_double_backslash (String b s).
Proof. reflexivity. Qed.

Lemma normalise_by_length (n : nat) :
  forall s,
    (String.length s <= n)%nat ->
    (no_double_backslash s = true -> Text.replace_double_backslash s = s)
    /\ (no_double_backslash s = false ->
        Text.contains_char "/" (Text.replace_double_backslash s) = true)
    /\ no_double_backslash (Text.replace_double_backslash s) = true
    /\ (forall c r, s = String c r -> c <> Text.backslash ->
                    exists r', Text.replace_double_backslash s = String c r').
Proof.
  induction n as [|n IH]; intros s Hlen.
  - destruct s; [|simpl in Hlen; lia]. repeat split; try discriminate.
  - destruct s as [|a [|b s]].
    + repeat split; try discriminate.
    + repeat split; try discriminate. intros c r [= <- <-] _. now exists "".
    + rewrite replace_double_backslash_pair, no_double_backslash_pair.
      destruct (IH (String b s) ltac:(simpl in *; lia)) as [Hid [Hslash [Hout Hhead]]].
      destruct (IH s ltac:(simpl in *; lia)) as [_ [_ [Hout' _]]].
      destruct (Ascii.eqb a Text.backslash && Ascii.eqb b Text.backslash) eqn:Hpair;
        cbn [negb andb].
      * split; [discriminate|]. split; [reflexivity|]. split.
        -- destruct (Text.replace_double_backslash s) as [|d t] eqn:Hr; [reflexivity|].
           rewrite no_double_backslash_pair. now rewrite Hout'.
        -- intros c r [= <- <-] Hc. apply andb_true_iff in Hpair.
           destruct Hpair as [Ha _]. now apply Ascii.eqb_eq in Ha.
      * split; [intros H; now rewrite (Hid H)|].
        split.
        { intros H. cbn [Text.contains_char]. rewrite (Hslash H). apply orb_true_r. }
        split.
        { destruct (Ascii.eqb_spec b Text.backslash) as [->|Hb].
          - rewrite andb_true_r in Hpair.
            destruct (Text.replace_double_backslash (String Text.backslash s)) as [|d t] eqn:Hr;
              [reflexivity|].
            rewrite no_double_backslash_pair, Hpair. exact Hout.
          - destruct (Hhead b s eq_refl Hb) as [r' Hr']. rewrite Hr' in Hout |- *.
            rewrite no_double_backslash_pair.
            destruct (Ascii.eqb_spec b Text.backslash); [contradiction|].
            rewrite andb_false_r. exact Hout. }
        intros c r [= <- <-] _. eauto.
Qed.

(** X7: normalising a relative path leaves a path without two adjacent
    backslashes as it is, and its result never holds two adjacent
    backslashes; so normalising twice is normalising once, and a path and
    its normal form get the same priority. *)
Theorem X7_normaliser (rel_path : string) :
  (no_double_backslash rel_path = true -> Text.replace_double_backslash rel_path = rel_path)
  /\ no_double_backslash (Text.replace_double_backslash rel_path) = true
  /\ Text.replace_double_backslash (Text.replace_double_backslash rel_path)
     = Text.replace_double_backslash rel_path
  /\ _get_file_priority (Text.replace_double_backslash rel_path) = _get_file_priority rel_path.
Proof.
  destruct (normalise_by_length _ rel_path (Nat.le_refl _)) as [Hid [_ [Hout _]]].
  destruct (normalise_by_length _ (Text.replace_double_backslash rel_path) (Nat.le_refl _))
    as [Hid' _].
  split; [exact Hid|]. split; [exact Hout|]. split; [exact (Hid' Hout)|].
  unfold _get_file_priority, get_file_priority_in. now rewrite (Hid' Hout).
Qed.

(** ** The top of the bundle *)

Lemma glob_pass_hit table s p :
  glob_pass table s = Some p ->
  exists k, In (k, p) table /\ Text.contains_char "*" k = true.
Proof.
  induction table as [|[k v] table IH]; simpl; [discriminate|].
  destruct (Text.contains_char "*" k) eqn:Hk; [destruct (Fnmatch.fnmatch s k)|].
  - intros [= <-]. exists k. split; [now left|exact Hk].
  - intros H. destruct (IH H) as [k' [Hin Hk']]. exists k'. split; [now right|exact Hk'].
  - intros H. destruct (IH H) as [k' [Hin Hk']]. exists k'. split; [now right|exact Hk'].
Qed.

Lemma priority_declared_or_default (rel_path : string) :
  In (_get_file_priority rel_path) (map snd PRIORITY_FILES)
  \/ _get_file_priority rel_path = DEFAULT_PRIORITY.
Proof.
  unfold _get_file_priority, get_file_priority_in.
  destruct (exact_pass _ _) as [p|] eqn:He; [left; now apply exact_pass_declared in He|].
  destruct (glob_pass _ _) as [p|] eqn:Hg; [left; now apply glob_pass_declared in Hg|].
  now right.
Qed.

(** Priority 1 belongs to the root manifest alone. *)
Lemma priority_one (rel_path : string) :
  _get_file_priority rel_path = 1%Z <-> rel_path = "__manifest__.py".
Proof.
  split; [|intros ->; reflexivity].
  unfold _get_file_priority, get_file_priority_in. intros H.
  destruct (normalise_by_length _ rel_path (Nat.le_refl _)) as [Hid [Hslash _]].
  assert (Hnorm : Text.replace_double_backslash rel_path = "__manifest__.py").
  { destruct (exact_pass _ _) as [p|] eqn:He.
    - subst p. apply exact_pass_hit in He. simpl in He.
      repeat (destruct He as [He|He]; [try discriminate He; now injection He|]).
      contradiction.
    - destruct (glob_pass _ _) as [p|] eqn:Hg; [|discriminate].
      subst p. apply glob_pass_hit in Hg. destruct Hg as [k [Hin Hstar]]. simpl in Hin.
      repeat (destruct Hin as [Hin|Hin];
              [try discriminate Hin; injection Hin as <-; discriminate Hstar|]).
      contradiction. }
  destruct (no_double_backslash rel_path) eqn:Hnd.
  - now rewrite <- (Hid eq_refl).
  - specialize (Hslash eq_refl). rewrite Hnorm in Hslash. discriminate.
Qed.

Lemma priority_at_least_one (rel_path : string) : (1 <= _get_file_priority rel_path)%Z.
Proof.
  destruct (priority_declared_or_default rel_path) as [Hin| ->]; [|unfold DEFAULT_PRIORITY; lia].
  simpl in Hin. lia.
Qed.

(** X8: a priority is one of the ten declared ranks or the default, and
    rank 1 goes to the path [__manifest__.py] and to no other.  So when the
    module root holds a file of that name, the first record of the index,
    and with it the first section of the bundle, is the manifest. *)
Theorem X8_manifest_first name children size data now o :
  In (File "__manifest__.py" size data) children ->
  extract name (Some children) now = Some o ->
  (forall rel_path,
      (1 <= _get_file_priority rel_path <= 10)%Z
      \/ _get_file_priority rel_path = DEFAULT_PRIORITY)
  /\ (forall rel_path, _get_file_priority rel_path = 1%Z <-> rel_path = "__manifest__.py")
  /\ exists first rest,
      idx_files (index_json o) = first :: rest
      /\ rec_path first = "__manifest__.py".
Proof.
  intros Hin Hrun.
  split.
  { intros r. destruct (priority_declared_or_default r) as [H|H]; [left|now right].
    simpl in H. lia. }
  split; [exact priority_one|].
  destruct (extract_inv _ _ _ _ Hrun) as [_ [_ [_ Hindex]]].
  rewrite Hindex. cbn [_create_index idx_files file_index].
  set (manifest := mk_file_item "__manifest__.py" ["__manifest__.py"] size data).
  assert (Hwalk : In manifest (files_of (walk_module (Some children)))).
  { unfold files_of. apply in_flat_map. exists (FileItem manifest). split; [|now left].
    apply walk_module_items. exists ["__manifest__.py"], (File "__manifest__.py" size data).
    split; [exact (reach_child children _ Hin)|]. split; [reflexivity|].
    split; [now repeat constructor|]. intros _. simpl. tauto. }
  apply (Permutation_in _ (sort_files_perm _)) in Hwalk.
  pose proof (sort_files_sorted (files_of (walk_module (Some children)))) as Hsorted.
  destruct (sort_files _) as [|first rest]; [contradiction|].
  exists (record_of first), (map record_of rest). split; [reflexivity|].
  cbn [record_of rec_path]. apply priority_one.
  pose proof (priority_at_least_one (rel_str (fi_path first))) as Hlow.
  assert (Hle : (priority_of first <= priority_of manifest)%Z).
  { destruct Hwalk as [->|Hrest]; [lia|].
    inversion_clear Hsorted as [|? ? _ Hall]. rewrite Forall_forall in Hall.
    exact (Hall manifest Hrest). }
  unfold priority_of in Hle. change (_get_file_priority (rel_str (fi_path manifest))) with 1%Z in Hle.
  lia.
Qed.

(** ** Files that cannot be read *)

(** X9: the checksum is the word [error] exactly when the file cannot be
    read; a file that can be read gets eight hexadecimal characters, which
    that word is not. *)
Theorem X9_checksum_sentinel (data : string + string) :
  (_calculate_checksum data = "error" <-> exists message, data = inr message)
  /\ (forall raw, data = inl raw ->
                  String.length (_calculate_checksum data) = 8%nat
                  /\ Forall (fun c => MD5.is_hex c = true)
                            (list_ascii_of_string (_calculate_checksum data))).
Proof.
  split.
  - destruct data as [raw|message].
    + split.
      * intros H. destruct (checksum_shape raw) as [Hlen _]. rewrite H in Hlen. discriminate.
      * intros [message H]. discriminate.
    + split; [intros _; now exists message|reflexivity].
  - intros raw ->. apply checksum_shape.
Qed.

(** X10: a file that cannot even be opened still gets its section and its
    record: the section holds an [ERROR] line with the message when the
    suffix is [.py] or [.xml] and the binary-skip marker otherwise, the
    record holds the size from the walk and the checksum [error], and the
    running total grows by that size. *)
Theorem X10_unreadable_file (self : extractor) (f : file_item) (message : string) :
  fi_data f = inr message ->
  fst (_write_file_content self f)
  = app (section_header f)
        [if (suffix (fi_name f) =? ".py") || (suffix (fi_name f) =? ".xml")
         then "ERROR: 无法读取文件 - " ++ message ++ Text.nl
         else BINARY_MARKER;
         separator]
  /\ file_index (snd (_write_file_content self f))
     = app (file_index self)
           [mk_record (rel_str (fi_path f)) (fi_size f) (suffix (fi_name f)) "error"]
  /\ total_size (snd (_write_file_content self f)) = (total_size self + fi_size f)%N.
Proof.
  intros Hdata.
  unfold _write_file_content, render_section, render_body, record_of.
  cbn [fst snd file_index total_size].
  unfold _write_python_file, _write_xml_file, _write_generic_file, read_text, _calculate_checksum.
  rewrite Hdata.
  split; [|now split].
  destruct (suffix (fi_name f) =? ".py"); [reflexivity|].
  destruct (suffix (fi_name f) =? ".xml"); reflexivity.
Qed.

(** ** Documents without parsed information *)

(** X11: for a decodable [.xml] file the renderer writes the content alone
    when the text does not parse or its root tag is neither [odoo] nor
    [openerp]; when the root is recognised but holds no record and no
    template, it writes the bare line [PARSED_INFO:] before the content. *)
Theorem X11_xml_without_records (raw content : string) :
  Utf8.decode raw = Some content ->
  (xml_fromstring content = None ->
   _write_xml_file (inl raw) = ["CONTENT:" ++ Text.nl; content])
  /\ (forall root,
         xml_fromstring content = Some root ->
         tag root <> "odoo" -> tag root <> "openerp" ->
         _write_xml_file (inl raw) = ["CONTENT:" ++ Text.nl; content])
  /\ (forall root,
         xml_fromstring content = Some root ->
         tag root = "odoo" \/ tag root = "openerp" ->
         findall_descendants "record" root = [] ->
         findall_descendants "template" root = [] ->
         _write_xml_file (inl raw)
         = ["PARSED_INFO:" ++ Text.nl; "CONTENT:" ++ Text.nl; content]).
Proof.
  intros Hdec. unfold _write_xml_file, read_text, xml_parsed_info. rewrite Hdec.
  split; [now intros ->|]. split.
  - intros root -> Hodoo Hopenerp.
    destruct (String.eqb_spec (tag root) "odoo"); [contradiction|].
    destruct (String.eqb_spec (tag root) "openerp"); [contradiction|]. reflexivity.
  - intros root -> Htag Hrecords Htemplates.
    assert (Hrec : (tag root =? "odoo") || (tag root =? "openerp") = true).
    { destruct Htag as [-> | ->]; reflexivity. }
    rewrite Hrec. unfold xml_root_info. now rewrite Hrecords, Htemplates.
Qed.

(** ** When a run completes *)

(** X12: in a completed run on a module root that can be listed, the module
    information is a [dict] that [json.dump] can write: what the manifest
    evaluates to, or the empty [dict] when the manifest is absent or
    reading or evaluating it raised.  The summary holds that [dict], with
    [depends], [version], [author] and [category] read from it or
    defaulted. *)
Theorem X12_completed_run_summary name children now o :
  extract name (Some children) now = Some o ->
  exists d,
    module_info (_extract_manifest (new_extractor name) (Some children)) = PyDict d
    /\ json_serializable (PyDict d) = true
    /\ (manifest_missing_or_bad (Some children) -> d = [])
    /\ (forall file_name size data content value,
           find (fun e => entry_name e =? "__manifest__.py") children
           = Some (File file_name size data) ->
           read_text data = inl content ->
           literal_eval content = Some value ->
           value = PyDict d)
    /\ sum_module_info (summary_json o) = PyDict d
    /\ dependencies (summary_json o) = dict_get d "depends" (PyList [])
    /\ version (summary_json o) = dict_get d "version" (PyStr "unknown")
    /\ author (summary_json o) = dict_get d "author" (PyStr "unknown")
    /\ category (summary_json o) = dict_get d "category" (PyStr "unknown").
Proof.
  intros Hrun. destruct (extract_inv _ _ _ _ Hrun) as [_ [_ [Hsum _]]].
  unfold _generate_summary in Hsum. cbn [module_info] in Hsum.
  destruct (module_info (_extract_manifest (new_extractor name) (Some children)))
    as [| | | | | | | | | | |d] eqn:Hinfo; try discriminate.
  destruct (json_serializable (PyDict d)) eqn:Hjson; [|discriminate].
  injection Hsum as <-. exists d.
  split; [reflexivity|]. split; [exact Hjson|].
  split.
  { intros Hbad.
    pose proof (manifest_bad_info (new_extractor name) (Some children) eq_refl Hbad) as Hempty.
    rewrite Hinfo in Hempty. now injection Hempty. }
  split.
  { intros file_name size data content value Hfind Hread Heval.
    unfold _extract_manifest in Hinfo. rewrite Hfind, Hread, Heval in Hinfo.
    exact Hinfo. }
  now repeat split.
Qed.

(** ** A module with nothing to extract *)

Lemma walk_loop_all_excluded walk pfx todo :
  Forall (fun e => _should_exclude e = true) todo -> walk_loop walk pfx todo = Some [].
Proof.
  induction 1 as [|e todo He _ IH]; simpl; [reflexivity|]. now rewrite He.
Qed.

Lemma not_excluded_manifest (e : entry) :
  entry_name e = "__manifest__.py" -> _should_exclude e = false.
Proof.
  intros Hname. unfold _should_exclude. rewrite Hname. now destruct (is_file e).
Qed.

(** X13: a module root that holds only entries the filter excludes (an
    empty root among them) has no manifest and an empty walk: the
    structure listing is its two header lines, the file step writes the
    three header lines of the bundle, announcing zero files, and leaves the
    object as it was, and a completed run has an empty index, totals of
    zero, no file types and the empty module information. *)
Theorem X13_nothing_to_extract name children now :
  Forall (fun e => _should_exclude e = true) children ->
  walk_module (Some children) = []
  /\ _extract_manifest (new_extractor name) (Some children) = new_extractor name
  /\ (forall self time,
         _generate_tree_structure self (Some children) time
         = ["# " ++ module_name self ++ " 目录结构" ++ Text.nl;
            "# 生成时间: " ++ time ++ Text.nl ++ Text.nl])
  /\ (forall self time,
         _extract_files self (Some children) time = (content_header self time 0, self))
  /\ (forall o,
         extract name (Some children) now = Some o ->
         idx_files (index_json o) = []
         /\ idx_total_files (index_json o) = 0%nat
         /\ idx_total_size (index_json o) = 0%N
         /\ total_files (sum_statistics (summary_json o)) = 0%nat
         /\ file_types (sum_statistics (summary_json o)) = []
         /\ sum_module_info (summary_json o) = PyDict []
         /\ content_txt o = content_header (new_extractor name) (content_time now) 0
         /\ List.length (structure_txt o) = 2%nat).
Proof.
  intros Hall.
  assert (Hwalk : walk_module (Some children) = []).
  { unfold walk_module. cbn [entry_depth _walk_directory].
    rewrite walk_loop_all_excluded; [reflexivity|].
    apply (Permutation_Forall (sorted_entries_perm children) Hall). }
  assert (Hmanifest : _extract_manifest (new_extractor name) (Some children)
                      = new_extractor name).
  { unfold _extract_manifest.
    destruct (find _ children) as [e|] eqn:Hfind; [|reflexivity].
    apply find_some in Hfind. destruct Hfind as [Hin Hname].
    apply String.eqb_eq in Hname. rewrite Forall_forall in Hall.
    specialize (Hall e Hin). cbv beta in Hall.
    rewrite (not_excluded_manifest e Hname) in Hall. discriminate. }
  assert (Hfiles : forall self time,
             _extract_files self (Some children) time = (content_header self time 0, self)).
  { intros self time. unfold _extract_files. rewrite Hwalk. reflexivity. }
  split; [exact Hwalk|]. split; [exact Hmanifest|].
  split; [intros self time; unfold _generate_tree_structure; now rewrite Hwalk|].
  split; [exact Hfiles|].
  intros o Hrun. unfold extract in Hrun. cbv zeta in Hrun.
  rewrite Hmanifest, Hfiles in Hrun. unfold _generate_tree_structure in Hrun.
  rewrite Hwalk in Hrun. cbn in Hrun. injection Hrun as <-. cbn. now repeat split.
Qed.

(** ** Calling [extract] again on the same object *)

Lemma extract_from_inv self listing now o self' :
  extract_from self listing now = Some (o, self') ->
  let self1 := _extract_manifest self listing in
  let files := sort_files (files_of (walk_module listing)) in
  self' = mk_extractor (module_name self1) (module_info self1)
                       (file_index self1 ++ map record_of files)%list
                       (total_size self1 + sum_sizes files)%N
  /\ content_txt o
     = (content_header self1 (content_time now) (List.length files)
        ++ flat_map render_section files)%list
  /\ _generate_summary self' (summary_time now) = Some (summary_json o)
  /\ index_json o = _create_index self'.
Proof.
  intros H. cbv zeta. unfold extract_from, _extract_files in H. cbv zeta in H.
  rewrite write_files_spec in H.
  destruct (_generate_summary _ (summary_time now)) as [s|] eqn:Hsum; [|discriminate].
  injection H as <- <-. now repeat split.
Qed.

Lemma manifest_info_stable (s1 s2 : extractor) (listing : option (list entry)) :
  module_info s2 = module_info (_extract_manifest s1 listing) ->
  module_info (_extract_manifest s2 listing) = module_info (_extract_manifest s1 listing).
Proof.
  unfold _extract_manifest. destruct listing as [children|]; [|trivial].
  destruct (find _ children) as [[n size data|n sub]|]; [| |trivial]; [|reflexivity].
  destruct (read_text data) as [content|message]; [|reflexivity].
  destruct (literal_eval content); reflexivity.
Qed.

(** X14: [extract] is the method run on a new object, and the object is
    not reset by it.  Run a second time on the same object and the same
    tree, the method completes again and writes the same sections, but
    appends to the index it already holds: every record is there twice, the
    totals are doubled, and the bundle header still announces the single
    count. *)
Theorem X14_extract_again name listing now1 now2 o1 self1 :
  extract_from (new_extractor name) listing now1 = Some (o1, self1) ->
  extract name listing now1 = Some o1
  /\ exists o2 self2,
      extract_from self1 listing now2 = Some (o2, self2)
      /\ idx_files (index_json o2)
         = (idx_files (index_json o1) ++ idx_files (index_json o1))%list
      /\ idx_total_size (index_json o2) = (2 * idx_total_size (index_json o1))%N
      /\ total_files (sum_statistics (summary_json o2))
         = (2 * List.length (idx_files (index_json o1)))%nat
      /\ skipn 3 (content_txt o2) = skipn 3 (content_txt o1)
      /\ nth_error (content_txt o2) 2 = nth_error (content_txt o1) 2.
Proof.
  intros Hfirst. split.
  { unfold extract. unfold extract_from in Hfirst.
    destruct (_extract_files _ listing (content_time now1)) as [content self2].
    destruct (_generate_summary self2 (summary_time now1)); [|discriminate].
    now injection Hfirst as <- _. }
  destruct (extract_from_inv _ _ _ _ _ Hfirst) as [Hself [Hcontent [Hsum Hindex]]].
  destruct (extract_manifest_fields (new_extractor name) listing) as [Hn [Hi Ht]].
  cbn [new_extractor module_name file_index total_size] in Hn, Hi, Ht.
  rewrite Hn, Hi, Ht in Hself. cbn [app N.add] in Hself.
  set (files := sort_files (files_of (walk_module listing))) in *.
  set (info := module_info (_extract_manifest (new_extractor name) listing)) in *.
  destruct (extract_manifest_fields self1 listing) as [Hn2 [Hi2 Ht2]].
  assert (Hinfo2 : module_info (_extract_manifest self1 listing) = info).
  { apply manifest_info_stable. now rewrite Hself. }
  assert (Hdict : exists d, info = PyDict d /\ json_serializable (PyDict d) = true).
  { unfold _generate_summary in Hsum. rewrite Hself in Hsum. cbn [module_info] in Hsum.
    destruct info as [| | | | | | | | | | |d]; try discriminate.
    destruct (json_serializable (PyDict d)) eqn:Hjson; [|discriminate]. now exists d. }
  destruct Hdict as [d [Hd Hjson]].
  assert (Hsecond : exists o2 self2, extract_from self1 listing now2 = Some (o2, self2)).
  { unfold extract_from, _extract_files. cbv zeta. rewrite write_files_spec.
    unfold _generate_summary. cbn [module_info]. rewrite Hinfo2, Hd, Hjson. eauto. }
  destruct Hsecond as [o2 [self2 Hsecond]]. exists o2, self2. split; [exact Hsecond|].
  destruct (extract_from_inv _ _ _ _ _ Hsecond) as [Hself2 [Hcontent2 [Hsum2 Hindex2]]].
  fold files in Hself2, Hcontent2.
  rewrite Hn2, Hi2, Ht2, Hinfo2 in Hself2.
  rewrite Hindex, Hindex2, Hcontent, Hcontent2, Hself2.
  unfold _generate_summary in Hsum2. rewrite Hself2 in Hsum2.
  cbn [module_info file_index total_size] in Hsum2. rewrite Hd, Hjson in Hsum2.
  injection Hsum2 as <-. rewrite Hself.
  cbn [_create_index idx_files idx_total_size file_index total_size sum_statistics
       total_files module_name].
  split; [reflexivity|]. split; [lia|]. split; [rewrite length_app; lia|].
  unfold content_header. cbn [app skipn nth_error]. now split.
Qed.

(** ** Text mode: what [f.read()] hands to the writers *)

Lemma newlines_step (c : ascii) (rest : string) :
  c <> Text.CR ->
  Utf8.universal_newlines (String c rest) = String c (Utf8.universal_newlines rest).
Proof.
  intros Hc. cbn [Utf8.universal_newlines].
  now destruct (Ascii.eqb_spec c Text.CR).
Qed.

Lemma newlines_cr (d : ascii) (rest : string) :
  Utf8.universal_newlines (String Text.CR (String d rest))
  = if Ascii.eqb d Text.LF then String Text.LF (Utf8.universal_newlines rest)
    else String Text.LF (Utf8.universal_newlines (String d rest)).
Proof. reflexivity. Qed.

Lemma high_byte_not_cr (lo hi : N) (b : ascii) :
  (14 <= lo)%N -> Utf8.between lo hi b = true -> b <> Text.CR.
Proof.
  intros Hlo Hb ->. unfold Utf8.between in Hb.
  apply andb_true_iff in Hb. destruct Hb as [Hb _].
  apply N.leb_le in Hb. change (N_of_ascii Text.CR) with 13%N in Hb. lia.
Qed.

Lemma newlines_bounded (n : nat) (s : string) :
  (String.length s <= n)%nat ->
  Text.contains_char Text.CR (Utf8.universal_newlines s) = false
  /\ (String.length (Utf8.universal_newlines s) <= String.length s)%nat
  /\ (Text.contains_char Text.CR s = false -> Utf8.universal_newlines s = s)
  /\ (Utf8.valid s = true -> Utf8.valid (Utf8.universal_newlines s) = true).
Proof.
  revert s. induction n as [|n IH]; intros s Hlen.
  { destruct s; [|cbn in Hlen; lia]. now cbn. }
  destruct s as [|b0 r0]; [now cbn|].
  cbn [String.length] in Hlen.
  assert (H0 : (String.length r0 <= n)%nat) by lia.
  destruct (IH r0 H0) as [Hcr0 [Hlen0 [Hid0 Hval0]]].
  destruct (Ascii.eqb_spec b0 Text.CR) as [->|Hb0].
  - (* a carriage return *)
    destruct r0 as [|b1 r1].
    + cbn. repeat split; try lia; discriminate.
    + cbn [String.length] in H0.
      assert (H1 : (String.length r1 <= n)%nat) by lia.
      destruct (IH r1 H1) as [Hcr1 [Hlen1 [Hid1 Hval1]]].
      rewrite newlines_cr.
      destruct (Ascii.eqb_spec b1 Text.LF) as [->|Hb1].
      * repeat split.
        -- cbn [Text.contains_char]. now rewrite Hcr1.
        -- cbn [String.length]. lia.
        -- cbn [Text.contains_char]. rewrite Ascii.eqb_refl. discriminate.
        -- intros Hv. change (Utf8.valid r1 = true) in Hv.
           change (Utf8.valid (Utf8.universal_newlines r1) = true). auto.
      * repeat split.
        -- cbn [Text.contains_char]. now rewrite Hcr0.
        -- cbn [String.length] in *. lia.
        -- cbn [Text.contains_char]. rewrite Ascii.eqb_refl. discriminate.
        -- intros Hv. change (Utf8.valid (String b1 r1) = true) in Hv.
           change (Utf8.valid (Utf8.universal_newlines (String b1 r1)) = true). auto.
  - rewrite (newlines_step b0 r0 Hb0). repeat split.
    + cbn [Text.contains_char]. rewrite Hcr0.
      destruct (Ascii.eqb_spec Text.CR b0); [congruence|reflexivity].
    + cbn [String.length]. lia.
    + cbn [Text.contains_char]. intros H. apply orb_false_iff in H.
      destruct H as [_ H]. now rewrite (Hid0 H).
    + (* validity: the bytes after a lead byte are not carriage returns *)
      intros Hv. cbn [Utf8.valid] in Hv |- *.
      destruct (Utf8.between 0 127 b0) eqn:Hascii; [auto|].
      destruct r0 as [|b1 r1]; [discriminate|].
      cbn [String.length] in H0.
      assert (H1 : (String.length r1 <= n)%nat) by lia.
      destruct (IH r1 H1) as [_ [_ [_ Hval1]]].
      assert (Hstep1 : forall lo hi, (14 <= lo)%N -> Utf8.between lo hi b1 = true ->
                Utf8.universal_newlines (String b1 r1)
                = String b1 (Utf8.universal_newlines r1)).
      { intros lo hi Hlo Hb. apply newlines_step. exact (high_byte_not_cr lo hi b1 Hlo Hb). }
      destruct (Utf8.between 194 223 b0) eqn:H2.
      { apply andb_true_iff in Hv. destruct Hv as [Hc Hv].
        rewrite (Hstep1 128%N 191%N ltac:(lia) Hc). rewrite Hc. cbn [andb]. auto. }
      destruct r1 as [|b2 r2]; [discriminate|].
      cbn [String.length] in H1.
      assert (H2' : (String.length r2 <= n)%nat) by lia.
      destruct (IH r2 H2') as [_ [_ [_ Hval2]]].
      assert (Hstep2 : forall lo hi, (14 <= lo)%N -> Utf8.between lo hi b2 = true ->
                Utf8.universal_newlines (String b2 r2)
                = String b2 (Utf8.universal_newlines r2)).
      { intros lo hi Hlo Hb. apply newlines_step. exact (high_byte_not_cr lo hi b2 Hlo Hb). }
      assert (Hthree : forall lo hi, (14 <= lo)%N ->
                Utf8.between lo hi b1 && Utf8.cont b2 && Utf8.valid r2 = true ->
                exists t, Utf8.universal_newlines (String b1 (String b2 r2))
                          = String b1 (String b2 t)
                          /\ Utf8.between lo hi b1 && Utf8.cont b2 && Utf8.valid t = true).
      { intros lo hi Hlo H. apply andb_true_iff in H. destruct H as [H Hr].
        apply andb_true_iff in H. destruct H as [Hb1 Hb2].
        exists (Utf8.universal_newlines r2).
        rewrite (newlines_step b1 _ (high_byte_not_cr lo hi b1 Hlo Hb1)).
        rewrite (Hstep2 128%N 191%N ltac:(lia) Hb2).
        split; [reflexivity|]. rewrite Hb1, Hb2. cbn [andb]. auto. }
      destruct (Utf8.between 224 224 b0) eqn:H3.
      { destruct (Hthree 160%N 191%N ltac:(lia) Hv) as [t [-> Ht]]. exact Ht. }
      destruct (Utf8.between 225 236 b0) eqn:H4.
      { destruct (Hthree 128%N 191%N ltac:(lia) Hv) as [t [-> Ht]]. exact Ht. }
      destruct (Utf8.between 237 237 b0) eqn:H5.
      { destruct (Hthree 128%N 159%N ltac:(lia) Hv) as [t [-> Ht]]. exact Ht. }
      destruct (Utf8.between 238 239 b0) eqn:H6.
      { destruct (Hthree 128%N 191%N ltac:(lia) Hv) as [t [-> Ht]]. exact Ht. }
      destruct r2 as [|b3 r3]; [discriminate|].
      cbn [String.length] in H2'.
      assert (H3' : (String.length r3 <= n)%nat) by lia.
      destruct (IH r3 H3') as [_ [_ [_ Hval3]]].
      assert (Hfour : forall lo hi, (14 <= lo)%N ->
                Utf8.between lo hi b1 && Utf8.cont b2 && Utf8.cont b3 && Utf8.valid r3 = true ->
                exists t, Utf8.universal_newlines (String b1 (String b2 (String b3 r3)))
                          = String b1 (String b2 (String b3 t))
                          /\ Utf8.between lo hi b1 && Utf8.cont b2 && Utf8.cont b3
                             && Utf8.valid t = true).
      { intros lo hi Hlo H. apply andb_true_iff in H. destruct H as [H Hr].
        apply andb_true_iff in H. destruct H as [H Hb3].
        apply andb_true_iff in H. destruct H as [Hb1 Hb2].
        exists (Utf8.universal_newlines r3).
        rewrite (newlines_step b1 _ (high_byte_not_cr lo hi b1 Hlo Hb1)).
        rewrite (newlines_step b2 _ (high_byte_not_cr 128%N 191%N b2 ltac:(lia) Hb2)).
        rewrite (newlines_step b3 _ (high_byte_not_cr 128%N 191%N b3 ltac:(lia) Hb3)).
        split; [reflexivity|]. rewrite Hb1, Hb2, Hb3. cbn [andb]. auto. }
      destruct (Utf8.between 240 240 b0) eqn:H7.
      { destruct (Hfour 144%N 191%N ltac:(lia) Hv) as [t [-> Ht]]. exact Ht. }
      destruct (Utf8.between 241 243 b0) eqn:H8.
      { destruct (Hfour 128%N 191%N ltac:(lia) Hv) as [t [-> Ht]]. exact Ht. }
      destruct (Utf8.between 244 244 b0) eqn:H9; [|discriminate].
      destruct (Hfour 128%N 143%N ltac:(lia) Hv) as [t [-> Ht]]. exact Ht.
Qed.

(** X15: the text the three writers put after [CONTENT:] is the file's bytes
    read in text mode, not the bytes themselves: it never holds a carriage
    return (CR LF and a lone CR are written as LF), it is the file byte for
    byte when the file has no carriage return, it is never longer than the
    file, and it is itself well-formed UTF-8 that reads back unchanged. *)
Theorem X15_text_mode_content (raw : string) (chunks : list string) :
  Utf8.valid raw = true ->
  In chunks [_write_python_file (inl raw); _write_xml_file (inl raw);
             _write_generic_file (inl raw)] ->
  exists info content,
    chunks = app info ["CONTENT:" ++ Text.nl; content]
    /\ content = Utf8.universal_newlines raw
    /\ Text.contains_char Text.CR content = false
    /\ (Text.contains_char Text.CR raw = false -> content = raw)
    /\ (String.length content <= String.length raw)%nat
    /\ Utf8.decode content = Some content.
Proof.
  intros Hvalid Hin.
  destruct (newlines_bounded (String.length raw) raw (le_n _)) as [Hcr [Hlen [Hid Hval]]].
  set (content := Utf8.universal_newlines raw) in *.
  assert (Hread : read_text (inl raw) = inl content).
  { unfold read_text, Utf8.decode. now rewrite Hvalid. }
  assert (Hback : Utf8.decode content = Some content).
  { unfold Utf8.decode. rewrite (Hval Hvalid). f_equal.
    destruct (newlines_bounded (String.length content) content (le_n _)) as [_ [_ [Hid' _]]].
    exact (Hid' Hcr). }
  destruct Hin as [<-|[<-|[<-|[]]]].
  - exists (python_parsed_info content), content.
    unfold _write_python_file. rewrite Hread. now repeat split.
  - exists (xml_parsed_info content), content.
    unfold _write_xml_file. rewrite Hread. now repeat split.
  - exists [], content.
    unfold _write_generic_file. rewrite Hread. now repeat split.
Qed.

End Extractor.

(** * The statements at the sample module *)

(** The MD5 embedding against the test suite of RFC 1321. *)
Example md5_empty : MD5.hexdigest "" = "d41d8cd98f00b204e9800998ecf8427e".
Proof. vm_compute. reflexivity. Qed.

Example md5_abc : MD5.hexdigest "abc" = "900150983cd24fb0d6963f7d28e17f72".
Proof. vm_compute. reflexivity. Qed.

Example md5_message_digest : MD5.hexdigest "message digest" = "f96b697d7cb7938d525a2f31aaf161d0".
Proof. vm_compute. reflexivity. Qed.

Example md5_two_blocks :
  MD5.hexdigest "12345678901234567890123456789012345678901234567890123456789012345678901234567890"
  = "57edf4a22be3c955ac49da2e2107b67a".
Proof. vm_compute. reflexivity. Qed.

(** The strict decoder: two-byte and three-byte characters pass, a lone
    continuation byte, an overlong form, a surrogate and a cut-off
    sequence do not. *)
Example utf8_accepts_text :
  Utf8.valid "无法读取文件" = true
  /\ Utf8.valid (String "195" (String "169" "")) = true.
Proof. split; reflexivity. Qed.

Example utf8_rejects_ill_formed :
  Utf8.valid (String "128" "") = false
  /\ Utf8.valid (String "192" (String "128" "")) = false
  /\ Utf8.valid (String "237" (String "160" (String "128" ""))) = false
  /\ Utf8.valid (String "226" (String "130" "")) = false
  /\ Utf8.valid (String "244" (String "144" (String "128" (String "128" "")))) = false.
Proof. repeat split; reflexivity. Qed.

(** The keys of the priority table hold no bracket expression and no [?]. *)
Example priority_keys_plain :
  forallb (fun kv => Fnmatch.plain_pattern (fst kv)
                     && negb (Text.contains_char "?" (fst kv))) PRIORITY_FILES = true.
Proof. reflexivity. Qed.

(** Three records [a], [b], [c]: the count, the three ids, no ellipsis. *)
Example xml_three_records :
  _write_xml_file Sample.xml_fromstring Sample.decode_error (inl Sample.three_records_xml)
  = ["PARSED_INFO:" ++ Text.nl;
     "  Records: 3" ++ Text.nl;
     "  Record IDs: a, b, c" ++ Text.nl;
     "CONTENT:" ++ Text.nl;
     Sample.three_records_xml].
Proof. vm_compute. reflexivity. Qed.

(** One class and twelve functions: the class, ten names, an ellipsis. *)
Example python_twelve_functions :
  _write_python_file Sample.ast_parse Sample.decode_error (inl Sample.twelve_source)
  = ["PARSED_INFO:" ++ Text.nl;
     "  Classes: Foo" ++ Text.nl;
     "  Functions: f1, f2, f3, f4, f5, f6, f7, f8, f9, f10..." ++ Text.nl;
     "CONTENT:" ++ Text.nl;
     Sample.twelve_source].
Proof. vm_compute. reflexivity. Qed.

(** A text the parser refuses is written as it is. *)
Example python_syntax_error :
  _write_python_file Sample.ast_parse Sample.decode_error (inl "def (")
  = ["CONTENT:" ++ Text.nl; "def ("].
Proof. vm_compute. reflexivity. Qed.

(** A manifest that evaluates to a [dict] reaches the summary. *)
Example manifest_reaches_summary :
  option_map (fun o => (version (summary_json o), dependencies (summary_json o)))
             (extract Sample.ast_parse Sample.xml_fromstring Sample.literal_eval
                      Sample.decode_error Sample.format_kb Sample.round_mb
                      "sale_ext" Sample.with_manifest Sample.now)
  = Some (PyStr "1.0", PyList [PyStr "base"]).
Proof. vm_compute. reflexivity. Qed.

(** C7: a manifest that holds a list literal.  Reading and evaluating it
    raise nothing, so the handler that would set the empty mapping is not
    entered: the module information is the list, not the empty mapping, and
    [_generate_summary] raises on it.  The run is stopped after the
    structure listing and the bundle: it has no summary and no index. *)
Theorem C7_list_manifest_stops_the_run :
  read_text Sample.decode_error (inl Sample.list_manifest_source)
  = inl Sample.list_manifest_source
  /\ Sample.literal_eval Sample.list_manifest_source = Some (PyList [])
  /\ module_info (_extract_manifest Sample.literal_eval Sample.decode_error
                                    (new_extractor "sale_ext") Sample.with_list_manifest)
     = PyList []
  /\ (forall self now,
         module_info self = PyList [] -> _generate_summary Sample.round_mb self now = None)
  /\ extract Sample.ast_parse Sample.xml_fromstring Sample.literal_eval
             Sample.decode_error Sample.format_kb Sample.round_mb
             "sale_ext" Sample.with_list_manifest Sample.now
     = None.
Proof.
  split; [reflexivity|]. split; [reflexivity|]. split; [reflexivity|].
  split; [|vm_compute; reflexivity].
  intros self now Hinfo. unfold _generate_summary. now rewrite Hinfo.
Qed.

Lemma C1_witness :
  exists o,
    extract Sample.ast_parse Sample.xml_fromstring Sample.literal_eval
            Sample.decode_error Sample.format_kb Sample.round_mb
            "sale_ext" Sample.listing Sample.now = Some o
    /\ exists (files : list file_item) (sections : list (list string)),
        content_txt o
        = (content_header (new_extractor "sale_ext") (content_time Sample.now)
                          (List.length files)
           ++ List.concat sections)%list
        /\ sections
           = map (render_section Sample.ast_parse Sample.xml_fromstring Sample.decode_error)
                 files
        /\ idx_files (index_json o) = map record_of files
        /\ Forall2 section_for (idx_files (index_json o)) sections
        /\ Permutation (files_of (walk_module Sample.listing)) files
        /\ StronglySorted (fun a b => (priority_of a <= priority_of b)%Z) files
        /\ (forall p : Z,
               filter (fun f => (priority_of f =? p)%Z) files
               = filter (fun f => (priority_of f =? p)%Z)
                        (files_of (walk_module Sample.listing))).
Proof.
  eexists. split; [vm_compute; reflexivity|].
  apply (C1_index_matches_sections
           Sample.ast_parse Sample.xml_fromstring Sample.literal_eval
           Sample.decode_error Sample.format_kb Sample.round_mb
           "sale_ext" Sample.listing Sample.now).
  vm_compute. reflexivity.
Defined.

Lemma C2_witness :
  exists o,
    extract Sample.ast_parse Sample.xml_fromstring Sample.literal_eval
            Sample.decode_error Sample.format_kb Sample.round_mb
            "sale_ext" Sample.listing Sample.now = Some o
    /\ total_files (sum_statistics (summary_json o)) = List.length (idx_files (index_json o))
    /\ total_size_bytes (sum_statistics (summary_json o))
       = sum_record_sizes (idx_files (index_json o)).
Proof.
  eexists. split; [vm_compute; reflexivity|].
  apply (C2_statistics_consistent
           Sample.ast_parse Sample.xml_fromstring Sample.literal_eval
           Sample.decode_error Sample.format_kb Sample.round_mb
           "sale_ext" Sample.listing Sample.now).
  vm_compute. reflexivity.
Defined.

Lemma C3_witness :
  _get_file_priority "__init__.py" = 2%Z
  /\ _get_file_priority "views/form.xml" = 4%Z
  /\ _get_file_priority "notes.txt" = DEFAULT_PRIORITY.
Proof.
  split; [|split].
  - destruct (C3_priority_resolver "__init__.py") as [Hexact _].
    apply (Hexact [("__manifest__.py", 1%Z)] "__init__.py" 2%Z (skipn 2 PRIORITY_FILES)).
    + reflexivity.
    + reflexivity.
    + intros kv [<-|[]]. discriminate.
  - destruct (C3_priority_resolver "views/form.xml") as [_ [Hglob _]].
    apply (Hglob) with (before := firstn 3 PRIORITY_FILES) (pattern := "views/*.xml")
                       (after := skipn 4 PRIORITY_FILES).
    + intros kv Hin. simpl in Hin.
      repeat (destruct Hin as [<-|Hin]; [discriminate|]). contradiction.
    + reflexivity.
    + reflexivity.
    + reflexivity.
    + intros kv Hin _. simpl in Hin.
      repeat (destruct Hin as [<-|Hin]; [reflexivity|]). contradiction.
  - destruct (C3_priority_resolver "notes.txt") as [_ [_ [Hdefault _]]].
    apply Hdefault.
    + intros kv Hin. simpl in Hin.
      repeat (destruct Hin as [<-|Hin]; [discriminate|]). contradiction.
    + intros kv Hin _. simpl in Hin.
      repeat (destruct Hin as [<-|Hin]; [reflexivity|]). contradiction.
Defined.

Lemma C4_witness :
  Utf8.decode Sample.three_records_xml = Some Sample.three_records_xml
  /\ Sample.xml_fromstring Sample.three_records_xml = Some Sample.three_records
  /\ (tag Sample.three_records = "odoo" \/ tag Sample.three_records = "openerp")
  /\ (findall_descendants "record" Sample.three_records <> []
      \/ findall_descendants "template" Sample.three_records <> [])
  /\ exists (record_lines template_line : list string) (marker : string),
      _write_xml_file Sample.xml_fromstring Sample.decode_error (inl Sample.three_records_xml)
      = ("PARSED_INFO:" ++ Text.nl)
          :: app record_lines
                 (app template_line ["CONTENT:" ++ Text.nl; Sample.three_records_xml])
      /\ (findall_descendants "record" Sample.three_records = [] -> record_lines = [])
      /\ (findall_descendants "record" Sample.three_records <> [] ->
          record_lines
          = ["  Records: "
               ++ Text.dec (N.of_nat (List.length
                                        (findall_descendants "record" Sample.three_records)))
               ++ Text.nl;
             "  Record IDs: "
               ++ Text.join ", "
                            (map (get_attrib "id" "no-id")
                                 (firstn 5 (findall_descendants "record" Sample.three_records)))
               ++ marker ++ Text.nl])
      /\ ((5 < List.length (findall_descendants "record" Sample.three_records))%nat ->
          marker = "...")
      /\ ((List.length (findall_descendants "record" Sample.three_records) <= 5)%nat ->
          marker = "")
      /\ (findall_descendants "template" Sample.three_records = [] -> template_line = [])
      /\ (findall_descendants "template" Sample.three_records <> [] ->
          template_line
          = ["  Templates: "
               ++ Text.dec (N.of_nat (List.length
                                        (findall_descendants "template" Sample.three_records)))
               ++ Text.nl]).
Proof.
  assert (Hrecords : findall_descendants "record" Sample.three_records <> []
                     \/ findall_descendants "template" Sample.three_records <> []).
  { left. vm_compute. discriminate. }
  split; [reflexivity|]. split; [reflexivity|]. split; [now left|]. split; [exact Hrecords|].
  exact (C4_xml_parsed_info Sample.xml_fromstring Sample.decode_error
                            Sample.three_records_xml Sample.three_records_xml
                            Sample.three_records
                            eq_refl eq_refl (or_introl eq_refl) Hrecords).
Defined.

(** At a document with a template and no record the block is written all
    the same: its presence is not equivalent to a record being found. *)
Lemma C4_counterexample :
  Sample.xml_fromstring Sample.templates_only_xml = Some Sample.templates_only
  /\ tag Sample.templates_only = "odoo"
  /\ _write_xml_file Sample.xml_fromstring Sample.decode_error (inl Sample.templates_only_xml)
     = ["PARSED_INFO:" ++ Text.nl;
        "  Templates: 1" ++ Text.nl;
        "CONTENT:" ++ Text.nl;
        Sample.templates_only_xml]
  /\ ~ (In ("PARSED_INFO:" ++ Text.nl)
           (_write_xml_file Sample.xml_fromstring Sample.decode_error
                            (inl Sample.templates_only_xml))
        <-> findall_descendants "record" Sample.templates_only <> []).
Proof.
  split; [reflexivity|]. split; [reflexivity|]. split; [vm_compute; reflexivity|].
  intros [Hemitted _]. apply Hemitted; [|reflexivity].
  vm_compute. now left.
Qed.

Lemma C5_witness :
  Utf8.decode Sample.sale_source = Some Sample.sale_source
  /\ (Sample.ast_parse Sample.sale_source = None ->
      _write_python_file Sample.ast_parse Sample.decode_error (inl Sample.sale_source)
      = ["CONTENT:" ++ Text.nl; Sample.sale_source])
  /\ (forall tree,
         Sample.ast_parse Sample.sale_source = Some tree ->
         Permutation (ast_walk tree) (ast_nodes tree)
         /\ (exists deeper, ast_walk tree = (tree :: ast_children tree ++ deeper)%list)
         /\ (class_names (ast_walk tree) = [] -> function_names (ast_walk tree) = [] ->
             _write_python_file Sample.ast_parse Sample.decode_error (inl Sample.sale_source)
             = ["CONTENT:" ++ Text.nl; Sample.sale_source])
         /\ (class_names (ast_walk tree) <> [] \/ function_names (ast_walk tree) <> [] ->
             exists (class_line function_line : list string) (marker : string),
               _write_python_file Sample.ast_parse Sample.decode_error (inl Sample.sale_source)
               = ("PARSED_INFO:" ++ Text.nl)
                   :: app class_line
                          (app function_line ["CONTENT:" ++ Text.nl; Sample.sale_source])
               /\ (class_names (ast_walk tree) = [] -> class_line = [])
               /\ (class_names (ast_walk tree) <> [] ->
                   class_line
                   = ["  Classes: " ++ Text.join ", " (class_names (ast_walk tree)) ++ Text.nl])
               /\ (function_names (ast_walk tree) = [] -> function_line = [])
               /\ (function_names (ast_walk tree) <> [] ->
                   function_line
                   = ["  Functions: "
                        ++ Text.join ", " (firstn 10 (function_names (ast_walk tree)))
                        ++ marker ++ Text.nl])
               /\ ((10 < List.length (function_names (ast_walk tree)))%nat -> marker = "...")
               /\ ((List.length (function_names (ast_walk tree)) <= 10)%nat -> marker = ""))).
Proof.
  split; [reflexivity|].
  exact (C5_python_parsed_info Sample.ast_parse Sample.decode_error
                               Sample.sale_source Sample.sale_source eq_refl).
Defined.

(** The scan of the sample source lists [inner], which is declared inside
    a function, and does not list the coroutine [notify], which is declared
    at the top of the module: the names it collects are not the top-level
    declarations. *)
Lemma C5_counterexample :
  Sample.ast_parse Sample.sale_source = Some Sample.sale_tree
  /\ _write_python_file Sample.ast_parse Sample.decode_error (inl Sample.sale_source)
     = ["PARSED_INFO:" ++ Text.nl;
        "  Classes: Sale" ++ Text.nl;
        "  Functions: outer, confirm, inner" ++ Text.nl;
        "CONTENT:" ++ Text.nl;
        Sample.sale_source]
  /\ declared_at_top Sample.sale_tree "notify"
  /\ ~ declared_at_top Sample.sale_tree "inner"
  /\ ~ (forall name,
           In name (function_names (ast_walk Sample.sale_tree))
           <-> declared_at_top Sample.sale_tree name).
Proof.
  assert (Hinner : ~ declared_at_top Sample.sale_tree "inner").
  { intros [node [Hnode Hdecl]]. simpl in Hnode.
    destruct Hnode as [<-|[<-|[<-|[]]]].
    - destruct Hdecl as [[cs [H|H]]|[c [ms [m [Hc [Hm [cs Hd]]]]]]]; try discriminate.
      injection Hc as <- <-. destruct Hm as [<-|[]]. destruct Hd as [H|H]; discriminate.
    - destruct Hdecl as [[cs [H|H]]|[c [ms [m [Hc _]]]]]; discriminate.
    - destruct Hdecl as [[cs [H|H]]|[c [ms [m [Hc _]]]]]; discriminate. }
  split; [reflexivity|]. split; [vm_compute; reflexivity|]. split.
  { exists (Node (AsyncFunctionDef "notify") [Node OtherNode []; Node OtherNode []]).
    split; [simpl; tauto|]. left. eexists. now right. }
  split; [exact Hinner|].
  intros Hclaim. apply Hinner. apply Hclaim. vm_compute. tauto.
Qed.

Lemma C6_witness :
  name_excluded ".git" = true
  /\ (forall it, In it (walk_module Sample.listing) -> ~ In ".git" (item_path it))
  /\ (forall name now o,
         extract Sample.ast_parse Sample.xml_fromstring Sample.literal_eval
                 Sample.decode_error Sample.format_kb Sample.round_mb
                 name Sample.listing now = Some o ->
         exists files,
           idx_files (index_json o) = map record_of files
           /\ (exists header,
                  content_txt o
                  = (header ++ flat_map (render_section Sample.ast_parse Sample.xml_fromstring
                                                        Sample.decode_error) files)%list)
           /\ forall f, In f files ->
                        In (FileItem f) (walk_module Sample.listing)
                        /\ ~ In ".git" (fi_path f)).
Proof.
  split; [reflexivity|].
  exact (C6_excluded_directories_pruned
           Sample.ast_parse Sample.xml_fromstring Sample.literal_eval
           Sample.decode_error Sample.format_kb Sample.round_mb
           Sample.listing ".git" eq_refl).
Defined.

Lemma C8_witness :
  fi_data Sample.logo_css = inl Sample.invalid_utf8
  /\ Utf8.decode Sample.invalid_utf8 = None
  /\ (suffix (fi_name Sample.logo_css) <> ".py" -> suffix (fi_name Sample.logo_css) <> ".xml" ->
      fst (_write_file_content Sample.ast_parse Sample.xml_fromstring Sample.decode_error
                               (new_extractor "sale_ext") Sample.logo_css)
      = app (section_header Sample.logo_css) [BINARY_MARKER; separator])
  /\ (suffix (fi_name Sample.logo_css) = ".py" \/ suffix (fi_name Sample.logo_css) = ".xml" ->
      fst (_write_file_content Sample.ast_parse Sample.xml_fromstring Sample.decode_error
                               (new_extractor "sale_ext") Sample.logo_css)
      = app (section_header Sample.logo_css)
            ["ERROR: 无法读取文件 - " ++ Sample.decode_error Sample.invalid_utf8 ++ Text.nl;
             separator])
  /\ file_index (snd (_write_file_content Sample.ast_parse Sample.xml_fromstring
                                          Sample.decode_error
                                          (new_extractor "sale_ext") Sample.logo_css))
     = app (file_index (new_extractor "sale_ext")) [record_of Sample.logo_css]
  /\ rec_checksum (record_of Sample.logo_css)
     = String.substring 0 8 (MD5.hexdigest Sample.invalid_utf8)
  /\ String.length (rec_checksum (record_of Sample.logo_css)) = 8%nat
  /\ Forall (fun c => MD5.is_hex c = true)
            (list_ascii_of_string (rec_checksum (record_of Sample.logo_css))).
Proof.
  split; [reflexivity|]. split; [reflexivity|].
  exact (C8_undecodable_file Sample.ast_parse Sample.xml_fromstring Sample.decode_error
                             (new_extractor "sale_ext") Sample.logo_css Sample.invalid_utf8
                             eq_refl eq_refl).
Defined.

(** A [.py] file that is not UTF-8: its extension is allowed, and its
    section holds an [ERROR] line where the marker would be. *)
Lemma C8_counterexample :
  existsb (String.eqb (suffix (fi_name Sample.broken_py))) INCLUDE_EXTENSIONS = true
  /\ Utf8.decode Sample.invalid_utf8 = None
  /\ fst (_write_file_content Sample.ast_parse Sample.xml_fromstring Sample.decode_error
                              (new_extractor "sale_ext") Sample.broken_py)
     = app (section_header Sample.broken_py)
           ["ERROR: 无法读取文件 - "
              ++ "'utf-8' codec can't decode byte 0xff in position 0: invalid start byte"
              ++ Text.nl;
            separator]
  /\ ~ In BINARY_MARKER
          (fst (_write_file_content Sample.ast_parse Sample.xml_fromstring Sample.decode_error
                                    (new_extractor "sale_ext") Sample.broken_py)).
Proof.
  split; [reflexivity|]. split; [reflexivity|]. split; [reflexivity|].
  vm_compute. intros H.
  repeat (destruct H as [H|H]; [discriminate H|]). exact H.
Qed.

(** An entry is the same as itself. *)
Ltac same_as_itself :=
  repeat first
         [ apply same_file
         | apply same_denied
         | eapply same_dir; [apply Permutation_refl|]
         | apply Forall2_nil
         | apply Forall2_cons ].

Lemma sample_same_entry :
  same_entry (Dir "sale_ext" Sample.listing) (Dir "sale_ext" Sample.relisted).
Proof.
  apply same_dir with (reordered := File "notes.txt" 5 (inl "hello")
                                      :: Sample.models_relisted
                                      :: skipn 2 Sample.children).
  - apply perm_swap.
  - apply Forall2_cons; [apply same_file|].
    apply Forall2_cons; [|same_as_itself].
    apply same_dir with (reordered := [File "sale.py" 100 (inl Sample.sale_source);
                                       File "__init__.py" 0 (inl "");
                                       Dir "mixins" (Some [File "tracked.py" 3 (inl "x=1")])]).
    + apply perm_swap.
    + same_as_itself.
Qed.

Ltac names_differ :=
  repeat (apply NoDup_cons; [simpl; intuition discriminate|]); apply NoDup_nil.

Lemma sample_distinct_names : distinct_names (Dir "sale_ext" Sample.listing).
Proof.
  repeat first
         [ apply distinct_file
         | apply distinct_denied
         | apply distinct_dir; [names_differ|]
         | apply Forall_nil
         | apply Forall_cons ].
Qed.

Lemma C9_witness :
  same_entry (Dir "sale_ext" Sample.listing) (Dir "sale_ext" Sample.relisted)
  /\ distinct_names (Dir "sale_ext" Sample.listing)
  /\ exists structure_head structure_tail content_head content_tail,
      forall now1 now2 o1,
        extract Sample.ast_parse Sample.xml_fromstring Sample.literal_eval
                Sample.decode_error Sample.format_kb Sample.round_mb
                "sale_ext" Sample.listing now1 = Some o1 ->
        exists o2,
          extract Sample.ast_parse Sample.xml_fromstring Sample.literal_eval
                  Sample.decode_error Sample.format_kb Sample.round_mb
                  "sale_ext" Sample.relisted now2 = Some o2
          /\ file_bytes (structure_txt o1)
             = stamped structure_head (structure_time now1) structure_tail
          /\ file_bytes (structure_txt o2)
             = stamped structure_head (structure_time now2) structure_tail
          /\ file_bytes (content_txt o1)
             = stamped content_head (content_time now1) content_tail
          /\ file_bytes (content_txt o2)
             = stamped content_head (content_time now2) content_tail.
Proof.
  split; [exact sample_same_entry|]. split; [exact sample_distinct_names|].
  exact (C9_rerun_identical
           Sample.ast_parse Sample.xml_fromstring Sample.literal_eval
           Sample.decode_error Sample.format_kb Sample.round_mb
           "sale_ext" Sample.listing Sample.relisted
           sample_same_entry sample_distinct_names).
Defined.

(** The two sample runs, at different times, written out. *)
Example sample_runs_differ_in_time_only :
  exists o1 o2,
    extract Sample.ast_parse Sample.xml_fromstring Sample.literal_eval
            Sample.decode_error Sample.format_kb Sample.round_mb
            "sale_ext" Sample.listing Sample.now = Some o1
    /\ extract Sample.ast_parse Sample.xml_fromstring Sample.literal_eval
               Sample.decode_error Sample.format_kb Sample.round_mb
               "sale_ext" Sample.relisted Sample.later = Some o2
    /\ skipn 2 (structure_txt o1) = skipn 2 (structure_txt o2)
    /\ skipn 3 (content_txt o1) = skipn 3 (content_txt o2)
    /\ index_json o1 = index_json o2.
Proof.
  do 2 eexists. split; [vm_compute; reflexivity|]. split; [vm_compute; reflexivity|].
  repeat split; vm_compute; reflexivity.
Qed.

Lemma C10_witness :
  In ("models", ".py", 3%Z) GLOB_RULES
  /\ _get_file_priority ("models" ++ "/" ++ "mixins" ++ "/" ++ "tracked" ++ ".py") = 3%Z
  /\ 3%Z <> DEFAULT_PRIORITY.
Proof.
  split; [now left|].
  exact (proj2 C10_glob_crosses_separators "models" ".py" 3%Z (or_introl eq_refl)
               "mixins" "tracked").
Defined.

(** ** The further properties at the sample module *)

Lemma X3_witness :
  item_path (FileItem (mk_file_item "tracked.py" ["models"; "mixins"; "tracked.py"] 3
                                    (inl "x=1")))
  = app ["models"; "mixins"] ["tracked.py"]
  /\ nth_error (walk_module Sample.listing) 5
     = Some (FileItem (mk_file_item "tracked.py" ["models"; "mixins"; "tracked.py"] 3
                                    (inl "x=1")))
  /\ exists dir_name,
      In (DirItem dir_name ["models"; "mixins"]) (firstn 5 (walk_module Sample.listing)).
Proof.
  split; [reflexivity|]. split; [vm_compute; reflexivity|].
  apply (X3_directory_before_contents
           Sample.listing
           (firstn 5 (walk_module Sample.listing))
           (skipn 6 (walk_module Sample.listing))
           (FileItem (mk_file_item "tracked.py" ["models"; "mixins"; "tracked.py"] 3
                                   (inl "x=1")))
           ["models"; "mixins"] "tracked.py").
  - vm_compute. reflexivity.
  - reflexivity.
  - discriminate.
Defined.

Lemma X5_witness :
  exists o,
    extract Sample.ast_parse Sample.xml_fromstring Sample.literal_eval
            Sample.decode_error Sample.format_kb Sample.round_mb
            "sale_ext" Sample.listing Sample.now = Some o
    /\ idx_total_files (index_json o) = List.length (idx_files (index_json o))
    /\ total_files (sum_statistics (summary_json o)) = List.length (idx_files (index_json o))
    /\ fold_right N.add 0%N (map snd (file_types (sum_statistics (summary_json o))))
       = N.of_nat (List.length (idx_files (index_json o)))
    /\ nth_error (content_txt o) 2
       = Some ("# 文件总数: " ++ Text.dec (N.of_nat (List.length (idx_files (index_json o))))
                 ++ Text.nl ++ Text.nl)
    /\ idx_total_size (index_json o) = total_size_bytes (sum_statistics (summary_json o))
    /\ idx_module (index_json o) = "sale_ext"
    /\ sum_module_name (summary_json o) = "sale_ext".
Proof.
  eexists. split; [vm_compute; reflexivity|].
  apply (X5_totals_agree
           Sample.ast_parse Sample.xml_fromstring Sample.literal_eval
           Sample.decode_error Sample.format_kb Sample.round_mb
           "sale_ext" Sample.listing Sample.now).
  vm_compute. reflexivity.
Defined.

(** Rounding to the nearest integer, ties to even. *)
Lemma round_half_even_nearest (num den : N) :
  den <> 0%N ->
  let q := Float.round_half_even num den in
  (2 * num <= 2 * (q * den) + den)%N
  /\ (2 * (q * den) <= 2 * num + den)%N
  /\ ((2 * num = 2 * (q * den) + den)%N \/ (2 * (q * den) = 2 * num + den)%N ->
      N.even q = true).
Proof.
  intros Hden. cbv zeta. unfold Float.round_half_even.
  pose proof (N.div_mod num den Hden) as Hdm.
  pose proof (N.mod_lt num den Hden) as Hlt.
  rewrite (N.mul_comm den) in Hdm.
  set (q := (num / den)%N) in *. set (r := (num mod den)%N) in *.
  destruct (N.ltb_spec (2 * r) den) as [Hlow|Hlow].
  { remember (q * den)%N as qd. repeat split; lia. }
  destruct (N.ltb_spec den (2 * r)) as [Hhigh|Hhigh].
  { rewrite N.mul_add_distr_r, N.mul_1_l. remember (q * den)%N as qd.
    repeat split; lia. }
  destruct (N.even q) eqn:Heven.
  { remember (q * den)%N as qd. repeat split; try lia. intros _. exact Heven. }
  rewrite N.mul_add_distr_r, N.mul_1_l.
  assert (Hsucc : N.even (q + 1) = true).
  { rewrite N.add_1_r, N.even_succ, <- N.negb_even, Heven. reflexivity. }
  remember (q * den)%N as qd. repeat split; try lia. intros _. exact Hsucc.
Qed.

(** An [int] below [2^53] is a float. *)
Lemma nearest_exact (n : N) : (n < 2 ^ 53)%N -> Float.nearest n = n.
Proof.
  intros Hn. unfold Float.nearest.
  destruct (N.leb_spec (N.size n) 53) as [_|Hsize]; [reflexivity|exfalso].
  destruct (N.eq_dec n 0) as [->|Hpos]; [cbn in Hsize; lia|].
  rewrite (N.size_log2 n Hpos) in Hsize.
  assert (N.log2 n < 53)%N by (apply N.log2_lt_pow2; lia). lia.
Qed.

(** X6: the structure listing is two header lines and then one line for each
    item of the walk, in the order of the walk.  The line of an entry is
    two spaces for each directory it lies in, its name, and a slash for a
    directory or, for a file, its size in units of 1024 bytes with one
    decimal, which for a size below [2^53] is the multiple of a tenth
    nearest to [size / 1024], the even one of two that are equally near. *)
Theorem X6_structure_listing (self : extractor) (listing : option (list entry))
        (now : string) :
  let lines := _generate_tree_structure Float.format_kb self listing now in
  List.length lines = (2 + List.length (walk_module listing))%nat
  /\ (forall n it,
         nth_error (walk_module listing) n = Some it ->
         exists dirs e,
           reachable listing (app dirs [entry_name e]) e
           /\ it = item_of (app dirs [entry_name e]) e
           /\ nth_error lines (2 + n)
              = Some (String.concat "" (repeat "  " (List.length dirs)) ++ entry_name e
                        ++ match e with
                           | Dir _ _ => "/" ++ Text.nl
                           | File _ size _ =>
                               " (" ++ Float.format_kb size ++ "KB)" ++ Text.nl
                           end))
  /\ (forall size,
         let tenths := Float.tenths_of_kb size in
         Float.format_kb size = Text.dec (tenths / 10) ++ "." ++ Text.dec (tenths mod 10)
         /\ ((size < 2 ^ 53)%N ->
             (20 * size <= 2048 * tenths + 1024)%N
             /\ (2048 * tenths <= 20 * size + 1024)%N
             /\ ((20 * size = 2048 * tenths + 1024)%N
                 \/ (2048 * tenths = 20 * size + 1024)%N ->
                 N.even tenths = true))).
Proof.
  cbv zeta. unfold _generate_tree_structure.
  split; [cbn [List.length]; now rewrite length_map|].
  split.
  - intros n it Hnth.
    destruct (tree_line_layout Float.format_kb listing it (nth_error_In _ _ Hnth))
      as [dirs [e [Hreach [Hit Hline]]]].
    exists dirs, e. split; [exact Hreach|]. split; [exact Hit|].
    cbn [Nat.add nth_error]. rewrite <- Hline. now apply map_nth_error.
  - intros size. split; [reflexivity|]. intros Hsize.
    unfold Float.tenths_of_kb. rewrite (nearest_exact size Hsize).
    pose proof (round_half_even_nearest (size * 10) 1024 ltac:(discriminate)) as Hround.
    cbv zeta in Hround.
    set (tenths := Float.round_half_even (size * 10) 1024) in *.
    destruct Hround as [Hup [Hdown Htie]].
    split; [lia|]. split; [lia|]. intros H. apply Htie. lia.
Qed.

Lemma X6_witness :
  nth_error (walk_module Sample.listing) 5
  = Some (FileItem (mk_file_item "tracked.py" ["models"; "mixins"; "tracked.py"] 3
                                 (inl "x=1")))
  /\ nth_error (_generate_tree_structure Float.format_kb (new_extractor "sale_ext")
                                         Sample.listing "2024-01-01 10:00:00") 7
     = Some ("    tracked.py (0.0KB)" ++ Text.nl)
  /\ (256 < 2 ^ 53)%N
  /\ (20 * 256 = 2048 * Float.tenths_of_kb 256 + 1024)%N
  /\ N.even (Float.tenths_of_kb 256) = true
  /\ Float.format_kb 256 = "0.2".
Proof.
  assert (Hnth : nth_error (walk_module Sample.listing) 5
                 = Some (FileItem (mk_file_item "tracked.py"
                                                ["models"; "mixins"; "tracked.py"] 3
                                                (inl "x=1")))).
  { vm_compute. reflexivity. }
  assert (Htie : (20 * 256 = 2048 * Float.tenths_of_kb 256 + 1024)%N).
  { vm_compute. reflexivity. }
  split; [exact Hnth|]. split; [vm_compute; reflexivity|].
  split; [reflexivity|]. split; [exact Htie|]. split; [|reflexivity].
  apply (proj2 (proj2 (X6_structure_listing (new_extractor "sale_ext") Sample.listing
                                            "2024-01-01 10:00:00")) 256%N).
  - reflexivity.
  - left. exact Htie.
Defined.

Lemma X7_witness :
  no_double_backslash "models/sale.py" = true
  /\ Text.replace_double_backslash "models/sale.py" = "models/sale.py".
Proof.
  split; [reflexivity|].
  apply (proj1 (X7_normaliser "models/sale.py")). reflexivity.
Defined.

Lemma X8_witness :
  In (File "__manifest__.py" 55 (inl Sample.manifest_source))
     (File "__manifest__.py" 55 (inl Sample.manifest_source) :: Sample.children)
  /\ exists o,
      extract Sample.ast_parse Sample.xml_fromstring Sample.literal_eval
              Sample.decode_error Sample.format_kb Sample.round_mb
              "sale_ext" Sample.with_manifest Sample.now = Some o
      /\ exists first rest,
          idx_files (index_json o) = first :: rest
          /\ rec_path first = "__manifest__.py".
Proof.
  split; [left; reflexivity|].
  eexists. split; [vm_compute; reflexivity|].
  refine (proj2 (proj2 (X8_manifest_first
                          Sample.ast_parse Sample.xml_fromstring Sample.literal_eval
                          Sample.decode_error Sample.format_kb Sample.round_mb
                          "sale_ext"
                          (File "__manifest__.py" 55 (inl Sample.manifest_source)
                             :: Sample.children)
                          55%N (inl Sample.manifest_source) Sample.now _ _ _))).
  - left. reflexivity.
  - vm_compute. reflexivity.
Defined.

Lemma X9_witness :
  String.length (_calculate_checksum (inl "hello")) = 8%nat
  /\ Forall (fun c => MD5.is_hex c = true)
            (list_ascii_of_string (_calculate_checksum (inl "hello"))).
Proof.
  exact (proj2 (X9_checksum_sentinel (inl "hello")) "hello" eq_refl).
Defined.

Lemma X10_witness :
  let locked := mk_file_item "locked.py" ["models"; "locked.py"] 7
                             (inr "[Errno 13] Permission denied: 'models/locked.py'") in
  fi_data locked = inr "[Errno 13] Permission denied: 'models/locked.py'"
  /\ fst (_write_file_content Sample.ast_parse Sample.xml_fromstring Sample.decode_error
                              (new_extractor "sale_ext") locked)
     = app (section_header locked)
           ["ERROR: 无法读取文件 - [Errno 13] Permission denied: 'models/locked.py'" ++ Text.nl;
            separator]
  /\ file_index (snd (_write_file_content Sample.ast_parse Sample.xml_fromstring
                                          Sample.decode_error
                                          (new_extractor "sale_ext") locked))
     = [mk_record "models/locked.py" 7 ".py" "error"]
  /\ total_size (snd (_write_file_content Sample.ast_parse Sample.xml_fromstring
                                          Sample.decode_error
                                          (new_extractor "sale_ext") locked))
     = 7%N.
Proof.
  cbv zeta. split; [reflexivity|].
  apply (X10_unreadable_file
           Sample.ast_parse Sample.xml_fromstring Sample.decode_error
           (new_extractor "sale_ext")
           (mk_file_item "locked.py" ["models"; "locked.py"] 7
                         (inr "[Errno 13] Permission denied: 'models/locked.py'"))
           "[Errno 13] Permission denied: 'models/locked.py'").
  reflexivity.
Defined.

Lemma X11_witness :
  let parser := Sample.lookup [("<odoo/>", Element "odoo" [] []);
                               ("<menu/>", Element "menu" [] [])] in
  Utf8.decode "<odoo>" = Some "<odoo>"
  /\ parser "<odoo>" = None
  /\ _write_xml_file parser Sample.decode_error (inl "<odoo>")
     = ["CONTENT:" ++ Text.nl; "<odoo>"]
  /\ parser "<menu/>" = Some (Element "menu" [] [])
  /\ _write_xml_file parser Sample.decode_error (inl "<menu/>")
     = ["CONTENT:" ++ Text.nl; "<menu/>"]
  /\ parser "<odoo/>" = Some (Element "odoo" [] [])
  /\ _write_xml_file parser Sample.decode_error (inl "<odoo/>")
     = ["PARSED_INFO:" ++ Text.nl; "CONTENT:" ++ Text.nl; "<odoo/>"].
Proof.
  cbv zeta.
  split; [reflexivity|]. split; [reflexivity|].
  split.
  { apply (proj1 (X11_xml_without_records _ Sample.decode_error "<odoo>" "<odoo>" eq_refl)).
    reflexivity. }
  split; [reflexivity|].
  split.
  { apply (proj1 (proj2 (X11_xml_without_records _ Sample.decode_error "<menu/>" "<menu/>"
                                                 eq_refl))
                 (Element "menu" [] [])); [reflexivity|discriminate|discriminate]. }
  split; [reflexivity|].
  apply (proj2 (proj2 (X11_xml_without_records _ Sample.decode_error "<odoo/>" "<odoo/>"
                                               eq_refl))
               (Element "odoo" [] [])); [reflexivity|now left|reflexivity|reflexivity].
Defined.

Lemma X12_witness :
  exists o d,
    extract Sample.ast_parse Sample.xml_fromstring Sample.literal_eval
            Sample.decode_error Sample.format_kb Sample.round_mb
            "sale_ext" Sample.with_manifest Sample.now = Some o
    /\ Sample.literal_eval Sample.manifest_source = Some (PyDict d)
    /\ json_serializable (PyDict d) = true
    /\ sum_module_info (summary_json o) = PyDict d
    /\ version (summary_json o) = dict_get d "version" (PyStr "unknown")
    /\ author (summary_json o) = dict_get d "author" (PyStr "unknown").
Proof.
  assert (Hrun : exists o,
             extract Sample.ast_parse Sample.xml_fromstring Sample.literal_eval
                     Sample.decode_error Sample.format_kb Sample.round_mb
                     "sale_ext"
                     (Some (File "__manifest__.py" 55 (inl Sample.manifest_source)
                              :: Sample.children))
                     Sample.now = Some o).
  { eexists. vm_compute. reflexivity. }
  destruct Hrun as [o Hrun].
  destruct (X12_completed_run_summary
              Sample.ast_parse Sample.xml_fromstring Sample.literal_eval
              Sample.decode_error Sample.format_kb Sample.round_mb
              "sale_ext" _ Sample.now o Hrun)
    as [d [_ [Hjson [_ [Hvalue [Hinfo [_ [Hversion [Hauthor _]]]]]]]]].
  exists o, d. split; [exact Hrun|].
  split.
  { rewrite <- (Hvalue "__manifest__.py" 55%N (inl Sample.manifest_source)
                       Sample.manifest_source Sample.manifest_value);
      reflexivity. }
  now repeat split.
Defined.

Lemma X13_witness :
  Forall (fun e => _should_exclude e = true) [Sample.git; File "logo.png" 9 (inl "PNG")]
  /\ walk_module (Some [Sample.git; File "logo.png" 9 (inl "PNG")]) = []
  /\ exists o,
      extract Sample.ast_parse Sample.xml_fromstring Sample.literal_eval
              Sample.decode_error Sample.format_kb Sample.round_mb
              "sale_ext" (Some [Sample.git; File "logo.png" 9 (inl "PNG")]) Sample.now
      = Some o
      /\ idx_files (index_json o) = []
      /\ sum_module_info (summary_json o) = PyDict []
      /\ content_txt o
         = content_header (new_extractor "sale_ext") (content_time Sample.now) 0.
Proof.
  assert (Hall : Forall (fun e => _should_exclude e = true)
                        [Sample.git; File "logo.png" 9 (inl "PNG")]).
  { repeat constructor. }
  destruct (X13_nothing_to_extract
              Sample.ast_parse Sample.xml_fromstring Sample.literal_eval
              Sample.decode_error Sample.format_kb Sample.round_mb
              "sale_ext" _ Sample.now Hall)
    as [Hwalk [_ [_ [_ Hcompleted]]]].
  split; [exact Hall|]. split; [exact Hwalk|].
  assert (Hrun : exists o,
             extract Sample.ast_parse Sample.xml_fromstring Sample.literal_eval
                     Sample.decode_error Sample.format_kb Sample.round_mb
                     "sale_ext" (Some [Sample.git; File "logo.png" 9 (inl "PNG")])
                     Sample.now = Some o).
  { eexists. vm_compute. reflexivity. }
  destruct Hrun as [o Hrun]. exists o. split; [exact Hrun|].
  destruct (Hcompleted o Hrun) as [Hidx [_ [_ [_ [_ [Hinfo [Hcontent _]]]]]]].
  now repeat split.
Defined.

Lemma X14_witness :
  exists o1 self1,
    extract_from Sample.ast_parse Sample.xml_fromstring Sample.literal_eval
                 Sample.decode_error Sample.format_kb Sample.round_mb
                 (new_extractor "sale_ext") Sample.listing Sample.now = Some (o1, self1)
    /\ exists o2 self2,
        extract_from Sample.ast_parse Sample.xml_fromstring Sample.literal_eval
                     Sample.decode_error Sample.format_kb Sample.round_mb
                     self1 Sample.listing Sample.later = Some (o2, self2)
        /\ idx_files (index_json o2)
           = app (idx_files (index_json o1)) (idx_files (index_json o1))
        /\ idx_total_size (index_json o2) = (2 * idx_total_size (index_json o1))%N
        /\ total_files (sum_statistics (summary_json o2))
           = (2 * List.length (idx_files (index_json o1)))%nat
        /\ skipn 3 (content_txt o2) = skipn 3 (content_txt o1)
        /\ nth_error (content_txt o2) 2 = nth_error (content_txt o1) 2.
Proof.
  eexists. eexists. split; [vm_compute; reflexivity|].
  refine (proj2 (X14_extract_again
                   Sample.ast_parse Sample.xml_fromstring Sample.literal_eval
                   Sample.decode_error Sample.format_kb Sample.round_mb
                   "sale_ext" Sample.listing Sample.now Sample.later _ _ _)).
  vm_compute. reflexivity.
Defined.

Lemma X15_witness :
  let raw := "a" ++ String Text.CR (String Text.LF "") ++ "b" ++ String Text.CR "" in
  Utf8.valid raw = true
  /\ exists info content,
      _write_generic_file Sample.decode_error (inl raw)
      = app info ["CONTENT:" ++ Text.nl; content]
      /\ content = Utf8.universal_newlines raw
      /\ Text.contains_char Text.CR content = false
      /\ (Text.contains_char Text.CR raw = false -> content = raw)
      /\ (String.length content <= String.length raw)%nat
      /\ Utf8.decode content = Some content.
Proof.
  cbv zeta. split; [reflexivity|].
  apply (X15_text_mode_content Sample.ast_parse Sample.xml_fromstring Sample.decode_error).
  - reflexivity.
  - right. right. left. reflexivity.
Defined.
